(** * McNeuron: hierarchical adversarial training orchestration

  A shallow embedding of the training scripts of the repository
  ([train.py], [train_one_by_one.py], [train_one_by_one_morphology.py]),
  of the stacked-model composer and the critic's loss of
  [models_joint_embedding.py], and of the swc matrix and the adjacency
  figures of [plot_utils.py], together with the properties their
  specification states about them and further properties the code
  shows.

  Conventions.
  - Python integers are [Z]; [range n] is the list [0; ...; n-1].
  - numpy floats are rationals [Q] (no NaN, no infinities); an array is
    the list of its rows along axis 0 (a batch is the list of its
    samples, whose rows and entries are its later extents), a weight
    array the flat list of its elements ([np.clip] is elementwise, its
    shape plays no role).
  - A Keras model object is a record in a store indexed by level and
    role: the per-level lists [geom_model], [disc_model], ... and the
    loop locals [g_model], [d_model], ... alias the same objects, so a
    write through either name is a write to the store.
  - Keras, numpy's random generator, the batch utilities and matplotlib
    are collaborators: fallible functions over an abstract [World]. *)

From Stdlib Require Import List String Ascii ZArith QArith Qminmax Bool Lia Lqa.
Import ListNotations.

Set Implicit Arguments.

(** ** numpy fragments *)

Module Np.

(** [np.clip(x, lo, hi)] on one element: [minimum(maximum(x, lo), hi)]. *)
Definition clip1 (lo hi x : Q) : Q := Qmin (Qmax x lo) hi.

(** [np.clip(w, lo, hi)] on a weight array. *)
Definition clip (w : list Q) (lo hi : Q) : list Q := map (clip1 lo hi) w.

(** A label tensor of shape [(n, 1, 1)]: one [[[v]]] per sample. *)
Definition tensor3 := list (list (list Q)).

(** [np.ones((n, 1, 1))]; a negative extent is refused by numpy. *)
Definition ones (n : nat) : tensor3 := repeat [[1%Q]] n.

(** Unary minus on a tensor, as in [-np.ones(...)]. *)
Definition neg (t : tensor3) : tensor3 := map (map (map Qopp)) t.

(** The extents of a sample, a 2-d array: its rows and the entries of
    its first row. *)
Definition sample_shape (s : list (list Q)) : nat * nat :=
  (List.length s, List.length (hd [] s)).

(** The sample has [fst rc] rows of [snd rc] entries each. *)
Definition has_shape (rc : nat * nat) (s : list (list Q)) : bool :=
  (List.length s =? fst rc)%nat
  && forallb (fun row => (List.length row =? snd rc)%nat) s.

(** An array of shape [(_, r, c)]: each sample has [r] rows of [c]
    entries. *)
Definition of_shape (r c : nat) (a : tensor3) : Prop :=
  Forall (fun s => has_shape (r, c) s = true) a.

(** [np.concatenate((a, b), axis=0)] on 3-d arrays.  The arrays must
    agree in every extent but the first, or numpy raises a
    [ValueError]: every sample of [a] and of [b] must have the rows and
    the entries per row of the first sample.  (An array is the list of
    its samples: one without samples, or whose samples have no rows,
    keeps no record of its later extents, and is joined to any other;
    what is proved of a join that returns is proved of arrays that do
    keep their extents, see [agree].) *)
Definition concatenate (a b : tensor3) : option tensor3 :=
  let joined := a ++ b in
  if forallb (has_shape (sample_shape (hd [] joined))) joined
  then Some joined
  else None.

(** Two arrays that agree in shape, by extents the lists do keep: each
    has a sample, and the samples of both have the same [r >= 1] rows
    of [c] entries. *)
Definition agree (a b : tensor3) : Prop :=
  a <> [] /\ b <> []
  /\ exists r c, (0 < r)%nat /\ of_shape r c a /\ of_shape r c b.

(** [range(n)]. *)
Definition range (n : Z) : list Z := map Z.of_nat (seq 0 (Z.to_nat n)).

(** [range(a, b)]. *)
Definition range2 (a b : Z) : list Z :=
  map (fun i => (a + Z.of_nat i)%Z) (seq 0 (Z.to_nat (b - a))).

(** [needle in hay] on strings. *)
Fixpoint str_in (needle hay : string) : bool :=
  if String.prefix needle hay then true
  else match hay with
       | EmptyString => false
       | String _ rest => str_in needle rest
       end.

Definition in_bounds (lo hi x : Q) : Prop := (lo <= x)%Q /\ (x <= hi)%Q.

End Np.

(** ** Keras model objects *)

Module Keras.

(** A layer, with its name and [get_weights()]: a list of arrays. *)
Record Layer := mkLayer { name : string; weights : list (list Q) }.

(** A model object: the mutable [trainable] attribute and [layers]. *)
Record Model := mkModel { trainable : bool; layers : list Layer }.

Definition set_weights (l : Layer) (ws : list (list Q)) : Layer :=
  mkLayer (name l) ws.

Definition set_layers (m : Model) (ls : list Layer) : Model :=
  mkModel (trainable m) ls.

Definition set_trainable (m : Model) (b : bool) : Model :=
  mkModel b (layers m).

(** Every element of every weight array of every layer satisfies [P]. *)
Definition all_weights (P : Q -> Prop) (m : Model) : Prop :=
  Forall (fun l => Forall (Forall P) (weights l)) (layers m).

End Keras.

Import Keras.

(** ** [clip_weights], as each training script defines it *)

Module Train_clip.

(** [train.py], lines 17-38: every layer is clipped. *)
Definition clip_layer (wc : Q * Q) (l : Layer) : Layer :=
  set_weights l (map (fun w => Np.clip w (fst wc) (snd wc)) (weights l)).

Definition clip_weights (model : Model) (weight_constraint : Q * Q) : Model :=
  set_layers model (map (clip_layer weight_constraint) (layers model)).

End Train_clip.

Module TrainOneByOne_clip.

(** [train_one_by_one.py], lines 17-39: the guard is [if True]. *)
Definition clip_weights (model : Model) (weight_constraint : Q * Q) : Model :=
  set_layers model
    (map (fun l => if true then Train_clip.clip_layer weight_constraint l else l)
         (layers model)).

End TrainOneByOne_clip.

Module Morphology_clip.

(** [train_one_by_one_morphology.py], lines 17-39: only the layers
    whose name contains ['dense'] are clipped. *)
Definition clip_weights (model : Model) (weight_constraint : Q * Q) : Model :=
  set_layers model
    (map (fun l => if Np.str_in "dense" (name l)
                   then Train_clip.clip_layer weight_constraint l
                   else l)
         (layers model)).

(** The parameters the guard lets through. *)
Definition dense_weights (P : Q -> Prop) (m : Model) : Prop :=
  Forall (fun l => Np.str_in "dense" (name l) = true ->
                   Forall (Forall P) (weights l)) (layers m).

End Morphology_clip.


(** ** The level store, events and exceptions *)

(** One sample (a 2-d array) and a batch of samples along axis 0. *)
Definition sample := list (list Q).
Definition array := list sample.

(** The model objects of one level.  [train.py] has no conditional
    generators: it never touches [cg_model] and [cm_model]. *)
Inductive role := Disc | Geom | CondGeom | Morph | CondMorph.

Record level_models := mkLevel {
  d_model : Model;
  g_model : Model;
  cg_model : Model;
  m_model : Model;
  cm_model : Model }.

Definition get_role (r : role) (ms : level_models) : Model :=
  match r with
  | Disc => d_model ms
  | Geom => g_model ms
  | CondGeom => cg_model ms
  | Morph => m_model ms
  | CondMorph => cm_model ms
  end.

Definition set_role (r : role) (m : Model) (ms : level_models) : level_models :=
  match r with
  | Disc => mkLevel m (g_model ms) (cg_model ms) (m_model ms) (cm_model ms)
  | Geom => mkLevel (d_model ms) m (cg_model ms) (m_model ms) (cm_model ms)
  | CondGeom => mkLevel (d_model ms) (g_model ms) m (m_model ms) (cm_model ms)
  | Morph => mkLevel (d_model ms) (g_model ms) (cg_model ms) m (cm_model ms)
  | CondMorph => mkLevel (d_model ms) (g_model ms) (cg_model ms) (m_model ms) m
  end.

(** The layers a builder or an update hands back, per role. *)
Definition level_layers := role -> list Layer.

(** Fresh Keras models are trainable. *)
Definition fresh_models (ls : level_layers) : level_models :=
  mkLevel (mkModel true (ls Disc)) (mkModel true (ls Geom))
          (mkModel true (ls CondGeom)) (mkModel true (ls Morph))
          (mkModel true (ls CondMorph)).

(** Weights written back by an update; the [trainable] flags stay. *)
Definition with_layers (ls : level_layers) (ms : level_models) : level_models :=
  mkLevel (set_layers (d_model ms) (ls Disc)) (set_layers (g_model ms) (ls Geom))
          (set_layers (cg_model ms) (ls CondGeom)) (set_layers (m_model ms) (ls Morph))
          (set_layers (cm_model ms) (ls CondMorph)).

Definition all_trainable (ms : level_models) : Prop :=
  forall r, trainable (get_role r ms) = true.

Inductive loss_fn := Mse | Wasserstein_loss | Binary_crossentropy.

Inductive compiled := CompiledRole (r : role) | CompiledStacked.

Inductive collaborator := KerasCall | BatchUtilsCall | RandomCall | ReportingCall.

Inductive exn :=
| UnboundLocalError (var : string)
| IndexError
| KeyError
| ValueError
| CollaboratorError (c : collaborator)
| OutOfFuel.

(** What the run does to its collaborators, in order.  A training event
    is logged when the update returns, with the level's model objects as
    they were when it was called and the place of the call (level, epoch,
    batch counter); a reporting event is logged for every reporting call,
    with whether it returned. *)
Inductive event :=
| Compile (level : Z) (which : compiled) (loss : loss_fn) (ms : level_models)
| DiscTrain (level epoch batch_counter : Z) (ms : level_models)
            (X_locations X_prufer : array) (y : Np.tensor3)
| StackedTrain (level epoch batch_counter : Z) (ms : level_models)
               (inputs : list array) (target : Np.tensor3)
| Report (level epoch batch_counter : Z) (ok : bool).

Definition is_disc_train (ev : event) : bool :=
  match ev with DiscTrain _ _ _ _ _ _ _ => true | _ => false end.

Definition is_stacked_train (ev : event) : bool :=
  match ev with StackedTrain _ _ _ _ _ _ => true | _ => false end.

Definition is_update (ev : event) : bool := is_disc_train ev || is_stacked_train ev.

Definition event_level (ev : event) : Z :=
  match ev with
  | Compile l _ _ _ => l
  | DiscTrain l _ _ _ _ _ _ => l
  | StackedTrain l _ _ _ _ _ => l
  | Report l _ _ _ => l
  end.

Definition is_failed_report (ev : event) : bool :=
  match ev with Report _ _ _ false => true | _ => false end.

(** Updates of level [l] in a trace. *)
Definition count_disc (l : Z) (t : list event) : nat :=
  List.length (filter (fun ev => is_disc_train ev && (event_level ev =? l)%Z) t).

Definition count_stacked (l : Z) (t : list event) : nat :=
  List.length (filter (fun ev => is_stacked_train ev && (event_level ev =? l)%Z) t).

(** [l[i]] on a Python list, negative indices counted from the end. *)
Definition py_index {A} (l : list A) (i : Z) : option A :=
  let n := Z.of_nat (List.length l) in
  let j := (if i <? 0 then i + n else i)%Z in
  if ((0 <=? j) && (j <? n))%Z then nth_error l (Z.to_nat j) else None.

(** The persisted training data: per node count [n] (the key
    ['n' + str(n)]), the geometry samples and the morphology rows. *)
Record training_data := mkData {
  geometry : Z -> option array;
  morphology : Z -> option (list (list Q)) }.

(** The parameters of [train_model].  [train.py] has no [rule],
    [train_one_by_one] and [train_loss]: its embedding reads none of them.
    [weight_constraint] is the two-element list [[low, high]]. *)
Record config := mkConfig {
  data : training_data;
  n_levels : Z;
  n_nodes : list Z;
  input_dim : Z;
  n_epochs : Z;
  batch_size : Z;
  n_batch_per_epoch : Z;
  d_iters : Z;
  lr_discriminator : Q;
  lr_generator : Q;
  weight_constraint : Q * Q;
  rule : string;
  train_one_by_one : bool;
  train_loss : string;
  verbose : bool }.

(** ** The state and error monad of a run *)

Section Run.

Variable World : Type.

(** The store of model objects, the collaborators' world, and the locals
    of [train_model] that outlive the statement that binds them. *)
Record state := mkState {
  store : Z -> level_models;
  world : World;
  y_real : option Np.tensor3;
  disc_loss : option Q;
  X_locations_gen : option array;
  X_prufer_gen : option array;
  X_prufer_real : option array;
  list_d_loss : list Q;
  list_g_loss : list Q }.

Definition with_store (f : Z -> level_models) (s : state) : state :=
  mkState f (world s) (y_real s) (disc_loss s) (X_locations_gen s)
          (X_prufer_gen s) (X_prufer_real s) (list_d_loss s) (list_g_loss s).

Definition with_world (w : World) (s : state) : state :=
  mkState (store s) w (y_real s) (disc_loss s) (X_locations_gen s)
          (X_prufer_gen s) (X_prufer_real s) (list_d_loss s) (list_g_loss s).

Definition with_y_real (y : Np.tensor3) (s : state) : state :=
  mkState (store s) (world s) (Some y) (disc_loss s) (X_locations_gen s)
          (X_prufer_gen s) (X_prufer_real s) (list_d_loss s) (list_g_loss s).

Definition with_disc_loss (v : Q) (s : state) : state :=
  mkState (store s) (world s) (y_real s) (Some v) (X_locations_gen s)
          (X_prufer_gen s) (X_prufer_real s) (list_d_loss s) (list_g_loss s).

Definition with_gen (Xl Xp : array) (s : state) : state :=
  mkState (store s) (world s) (y_real s) (disc_loss s) (Some Xl)
          (Some Xp) (X_prufer_real s) (list_d_loss s) (list_g_loss s).

Definition with_prufer_real (Xp : array) (s : state) : state :=
  mkState (store s) (world s) (y_real s) (disc_loss s) (X_locations_gen s)
          (X_prufer_gen s) (Some Xp) (list_d_loss s) (list_g_loss s).

Definition with_loss_lists (ld lg : list Q) (s : state) : state :=
  mkState (store s) (world s) (y_real s) (disc_loss s) (X_locations_gen s)
          (X_prufer_gen s) (X_prufer_real s) ld lg.

(** A run ends normally or by an exception; either way it leaves the
    events it produced and the state it reached. *)
Inductive outcome (A : Type) :=
| Ok (t : list event) (a : A) (s : state)
| Raise (t : list event) (e : exn) (s : state).

Arguments Raise {A}.

Definition M (A : Type) := state -> outcome A.

Definition ret {A} (a : A) : M A := fun s => Ok [] a s.

Definition raise {A} (e : exn) : M A := fun s => Raise [] e s.

Definition prepend {A} (t : list event) (o : outcome A) : outcome A :=
  match o with
  | Ok t' a s => Ok (t ++ t') a s
  | Raise t' e s => Raise (t ++ t') e s
  end.

Definition bind {A B} (m : M A) (k : A -> M B) : M B :=
  fun s => match m s with
           | Ok t a s' => prepend t (k a s')
           | Raise t e s' => Raise t e s'
           end.

Definition trace_of {A} (o : outcome A) : list event :=
  match o with Ok t _ _ => t | Raise t _ _ => t end.

Definition final_state {A} (o : outcome A) : state :=
  match o with Ok _ _ s => s | Raise _ _ s => s end.

Definition gets {A} (f : state -> A) : M A := fun s => Ok [] (f s) s.

Definition modify (f : state -> state) : M unit := fun s => Ok [] tt (f s).

Definition emit (ev : event) : M unit := fun s => Ok [ev] tt s.

(** Reading a local that may not have been bound yet. *)
Definition read_local {A} (var : string) (f : state -> option A) : M A :=
  fun s => match f s with
           | Some v => Ok [] v s
           | None => Raise [] (UnboundLocalError var) s
           end.

(** A call into a collaborator: it returns, with a new world, or raises. *)
Definition call {A} (c : collaborator) (f : World -> option (A * World)) : M A :=
  fun s => match f (world s) with
           | Some (a, w) => Ok [] a (with_world w s)
           | None => Raise [] (CollaboratorError c) s
           end.

Definition or_raise {A} (e : exn) (o : option A) : M A :=
  match o with Some a => ret a | None => raise e end.

(** A call into the reporting collaborator, logged either way. *)
Definition reporting (level epoch batch_counter : Z)
           (f : World -> option (unit * World)) : M unit :=
  fun s => match f (world s) with
           | Some (_, w) => Ok [Report level epoch batch_counter true] tt (with_world w s)
           | None => Raise [Report level epoch batch_counter false]
                           (CollaboratorError ReportingCall) s
           end.

Definition get_models (level : Z) : M level_models :=
  gets (fun s => store s level).

(** A write to the model objects of [level], seen through every alias. *)
Definition update_models (level : Z) (f : level_models -> level_models) : M unit :=
  modify (fun s =>
    with_store (fun l => if (l =? level)%Z then f (store s l) else store s l) s).

Definition put_models (level : Z) (ms : level_models) : M unit :=
  update_models level (fun _ => ms).

(** [model.trainable = b] for the model in role [r] at [level]. *)
Definition set_flag (level : Z) (r : role) (b : bool) : M unit :=
  update_models level (fun ms => set_role r (set_trainable (get_role r ms) b) ms).

(** Before the set-up loop: no model object exists yet, no local is bound. *)
Definition initial_state (w : World) : state :=
  mkState (fun _ => fresh_models (fun _ => [])) w None None None None None [] [].

End Run.

Arguments Ok {World A}.
Arguments Raise {World A}.
Arguments ret {World A}.
Arguments raise {World A}.
Arguments gets {World A}.
Arguments modify {World}.
Arguments emit {World}.
Arguments read_local {World A}.
Arguments call {World A}.
Arguments or_raise {World A}.
Arguments reporting {World}.
Arguments get_models {World}.
Arguments update_models {World}.
Arguments put_models {World}.
Arguments set_flag {World}.

Declare Scope run_scope.
Delimit Scope run_scope with run.
Notation "x <- m ;; k" := (bind m (fun x => k))
  (at level 100, m at next level, right associativity) : run_scope.
Notation "' p <- m ;; k" := (bind m (fun x => match x with p => k end))
  (at level 100, p pattern, m at next level, right associativity) : run_scope.
Notation "m ;; k" := (bind m (fun _ => k))
  (at level 100, right associativity) : run_scope.

(** [for x in xs: body(x)]. *)
Fixpoint for_each {World} (xs : list Z) (body : Z -> M World unit) : M World unit :=
  match xs with
  | [] => ret tt
  | x :: rest => bind (body x) (fun _ => for_each rest body)
  end.

(** [while batch_counter < n_batch_per_epoch: body], where the body ends
    with the incremented counter.  The fuel bounds the unfolding. *)
Fixpoint while_batches {World} (fuel : nat) (n_batch_per_epoch : Z)
         (body : Z -> M World Z) (batch_counter : Z) : M World unit :=
  match fuel with
  | O => raise OutOfFuel
  | S fuel' =>
      if (batch_counter <? n_batch_per_epoch)%Z
      then bind (body batch_counter)
                (fun bc => while_batches fuel' n_batch_per_epoch body bc)
      else ret tt
  end.

(** [arr[select]] with a list of indices: every index must be in range. *)
Fixpoint np_take {A} (arr : list A) (select : list Z) : option (list A) :=
  match select with
  | [] => Some []
  | i :: rest =>
      match py_index arr i, np_take arr rest with
      | Some x, Some xs => Some (x :: xs)
      | _, _ => None
      end
  end.

(** [np.reshape(rows, [1, n])]: one row of [n] elements; [n = -1] lets
    numpy infer the extent, any other mismatch is a [ValueError]. *)
Definition np_reshape_row (rows : list (list Q)) (n : Z) : option (list (list Q)) :=
  let flat := List.concat rows in
  if ((n =? -1) || (Z.of_nat (List.length flat) =? n))%Z then Some [flat] else None.

(** [x in range(10)]. *)
Definition in_range10 (x : Z) : bool := ((0 <=? x) && (x <? 10))%Z.

(** ** [models_joint_embedding.py]: the stacked-model composer *)

Module ModelsJointEmbedding.

Section Composer.

(** The Keras models handed to the composer: callables on tensors. *)
Variable model : Type.

(** A symbolic tensor of the functional API: an [Input] placeholder
    (numbered in creation order) or the output of a model applied to a
    list of tensors. *)
#[warnings="-register-all"]
Inductive tensor :=
| Input (uid : nat) (shape : list Z) (name : option string)
| Call (m : model) (args : list tensor).

(** [Model(inputs, outputs)]. *)
Record StackedModel := mkStacked {
  inputs : list tensor;
  outputs : list tensor }.

(** [discriminator_on_generators], lines 489-600.  With [use_context]
    the first two placeholders (numbers 0 and 1) are created and then
    rebound by the two unconditional [Input] calls that follow the noise
    input.  A rule other than ['mgd'] and ['gmd'] leaves
    [geometry_output] unbound. *)
Definition discriminator_on_generators
           (geometry_model conditional_geometry_model
            morphology_model conditional_morphology_model
            discriminator_model : model)
           (conditioning_rule : string)
           (input_dim n_nodes_in n_nodes_out : Z)
           (use_context : bool) : exn + StackedModel :=
  let base := if use_context then 2%nat else 0%nat in
  let noise_input := Input base [1; input_dim]%Z (Some "noise_input"%string) in
  let prior_geometry_input := Input (base + 1) [n_nodes_out - 1; 3]%Z None in
  let prior_morphology_input := Input (base + 2) [n_nodes_out - 2; n_nodes_in]%Z None in
  let generated : option (tensor * tensor) :=
    if (conditioning_rule =? "mgd")%string then
      if use_context then
        let morphology_output :=
          Call morphology_model
               [prior_geometry_input; prior_morphology_input; noise_input] in
        let geometry_output :=
          Call conditional_geometry_model
               [prior_geometry_input; prior_morphology_input; noise_input;
                morphology_output] in
        Some (geometry_output, morphology_output)
      else
        let morphology_output := Call morphology_model [noise_input] in
        let geometry_output :=
          Call conditional_geometry_model [noise_input; morphology_output] in
        Some (geometry_output, morphology_output)
    else if (conditioning_rule =? "gmd")%string then
      if use_context then
        let geometry_output :=
          Call geometry_model
               [prior_geometry_input; prior_morphology_input; noise_input] in
        let morphology_output :=
          Call conditional_morphology_model
               [prior_geometry_input; prior_morphology_input; noise_input;
                geometry_output] in
        Some (geometry_output, morphology_output)
      else
        let geometry_output := Call morphology_model [noise_input] in
        let morphology_output :=
          Call conditional_morphology_model [noise_input; geometry_output] in
        Some (geometry_output, morphology_output)
    else None in
  match generated with
  | None => inl (UnboundLocalError "geometry_output")
  | Some (geometry_output, morphology_output) =>
      let discriminator_output :=
        Call discriminator_model [geometry_output; morphology_output] in
      inr (if use_context
           then mkStacked [prior_geometry_input; prior_morphology_input; noise_input]
                          [discriminator_output]
           else mkStacked [noise_input] [discriminator_output])
  end.

(** The wiring the factorization asks for: the unconditioned generator
    of the rule is applied to the model's inputs, the conditional one to
    the same inputs followed by that output, and the discriminator to
    the (geometry, topology) pair. *)
Definition wired_as_factorization
           (geometry_model conditional_geometry_model
            morphology_model conditional_morphology_model
            discriminator_model : model)
           (conditioning_rule : string) (sm : StackedModel) : Prop :=
  let common := inputs sm in
  if (conditioning_rule =? "mgd")%string then
    let topology := Call morphology_model common in
    let geometry := Call conditional_geometry_model (common ++ [topology]) in
    outputs sm = [Call discriminator_model [geometry; topology]]
  else if (conditioning_rule =? "gmd")%string then
    let geometry := Call geometry_model common in
    let topology := Call conditional_morphology_model (common ++ [geometry]) in
    outputs sm = [Call discriminator_model [geometry; topology]]
  else False.

End Composer.

End ModelsJointEmbedding.

(** ** [train.py] *)

Module Train.

Section Program.

Variable World : Type.

(** The collaborators of [train.py]: the [models] module and Keras
    ([build], [compile], the two [train_on_batch]), [batch_utils]
    ([get_batch], [gen_batch]), numpy's generator ([randn]) and the
    plotting ([plot_example_neuron], [plt.show]).  [build] stands for
    [models.discriminator], [models.generator] and
    [models.discriminator_on_generators] of one level and returns the
    initial weights; [None] is a raised exception. *)
Record Collab := mkCollab {
  build : Z -> bool -> option Z -> Z -> Z -> World -> option (level_layers * World);
  compile : Z -> compiled -> loss_fn -> Q -> level_models -> World -> option (unit * World);
  get_batch : training_data -> Z -> Z -> Z -> World -> option ((array * array) * World);
  gen_batch : Z -> list Z -> Z -> Z -> (Z -> level_models) -> World ->
              option ((array * array) * World);
  randn : Z -> Z -> Z -> World -> option (array * World);
  d_train_on_batch : Model -> array -> array -> Np.tensor3 -> World ->
                     option ((Q * list Layer) * World);
  stacked_train_on_batch : level_models -> list array -> Np.tensor3 -> World ->
                           option ((Q * level_layers) * World);
  plot_example_neuron : sample -> sample -> World -> option (unit * World);
  plt_show : World -> option (unit * World) }.

Variable K : Collab.
Variable cfg : config.

Local Open Scope run_scope.
Local Open Scope Z_scope.

(** Lines 150-184: the models of one level, appended to the lists. *)
Definition setup_level (level : Z) : M World unit :=
  n_out <- or_raise IndexError (py_index (n_nodes cfg) level) ;;
  if level =? 0 then
    ls <- call KerasCall (build K level false None n_out (input_dim cfg)) ;;
    put_models level (fresh_models ls)
  else
    n_in <- or_raise IndexError (py_index (n_nodes cfg) (level - 1)) ;;
    ls <- call KerasCall (build K level true (Some n_in) n_out (input_dim cfg)) ;;
    put_models level (fresh_models ls).

Definition do_compile (level : Z) (which : compiled) (loss : loss_fn) (lr : Q)
  : M World unit :=
  ms <- get_models level ;;
  call KerasCall (compile K level which loss lr ms) ;;
  emit (Compile level which loss ms).

(** Lines 199-209. *)
Definition compile_level (level : Z) : M World unit :=
  do_compile level (CompiledRole Geom) Mse (lr_generator cfg) ;;
  do_compile level (CompiledRole Morph) Mse (lr_generator cfg) ;;
  set_flag level Disc false ;;
  do_compile level CompiledStacked Wasserstein_loss (lr_generator cfg) ;;
  set_flag level Disc true ;;
  do_compile level (CompiledRole Disc) Wasserstein_loss (lr_discriminator cfg).

(** Lines 234-275: one pass of the critic loop.  The three
    [np.concatenate] calls of lines 260-266 raise a [ValueError] on
    batches that do not agree in shape. *)
Definition critic_iteration (level e batch_counter : Z) : M World unit :=
  update_models level (fun ms =>
    set_role Disc (Train_clip.clip_weights (d_model ms) (weight_constraint cfg)) ms) ;;
  n <- or_raise IndexError (py_index (n_nodes cfg) level) ;;
  ' (X_locations_real, X_prufer_real) <-
    call BatchUtilsCall (get_batch K (data cfg) (batch_size cfg) batch_counter n) ;;
  modify (with_y_real (Np.neg (Np.ones (List.length X_locations_real)))) ;;
  st <- gets (@store World) ;;
  ' (X_locations_gen, X_prufer_gen) <-
    call BatchUtilsCall
         (gen_batch K (batch_size cfg) (n_nodes cfg) level (input_dim cfg) st) ;;
  modify (with_gen X_locations_gen X_prufer_gen) ;;
  let y_gen := Np.ones (List.length X_locations_gen) in
  X_locations <-
    or_raise ValueError (Np.concatenate X_locations_real X_locations_gen) ;;
  X_prufer <- or_raise ValueError (Np.concatenate X_prufer_real X_prufer_gen) ;;
  y_real <- read_local "y_real" (@y_real World) ;;
  y <- or_raise ValueError (Np.concatenate y_real y_gen) ;;
  ms <- get_models level ;;
  ' (loss, layers) <-
    call KerasCall (d_train_on_batch K (d_model ms) X_locations X_prufer y) ;;
  emit (DiscTrain level e batch_counter ms X_locations X_prufer y) ;;
  update_models level (fun ms => set_role Disc (set_layers (d_model ms) layers) ms) ;;
  modify (with_disc_loss loss) ;;
  modify (fun s => with_loss_lists (list_d_loss s ++ [loss]) (list_g_loss s) s).

Definition critic_phase (level e batch_counter : Z) : M World unit :=
  for_each (Np.range (d_iters cfg)) (fun _ => critic_iteration level e batch_counter).

(** Lines 277-280: the verbose report formats [disc_loss]. *)
Definition report_disc_loss : M World unit :=
  if verbose cfg
  then _ <- read_local "disc_loss" (@disc_loss World) ;; ret tt
  else ret tt.

(** Lines 285-316. *)
Definition generator_phase (level e batch_counter : Z) : M World unit :=
  set_flag level Disc false ;;
  prior <- (if level >? 0
            then st <- gets (@store World) ;;
                 r <- call BatchUtilsCall
                           (gen_batch K (batch_size cfg) (n_nodes cfg) (level - 1)
                                      (input_dim cfg) st) ;;
                 ret (Some r)
            else ret None) ;;
  noise_input <- call RandomCall (randn K (batch_size cfg) 1 (input_dim cfg)) ;;
  inputs <- (if level =? 0
             then ret [noise_input]
             else match prior with
                  | Some (X_locations_prior_gen, X_prufer_prior_gen) =>
                      ret [X_locations_prior_gen; X_prufer_prior_gen; noise_input]
                  | None => raise (UnboundLocalError "X_locations_prior_gen")
                  end) ;;
  target <- read_local "y_real" (@y_real World) ;;
  ms <- get_models level ;;
  ' (gen_loss, layers) <-
    call KerasCall (stacked_train_on_batch K ms inputs target) ;;
  emit (StackedTrain level e batch_counter ms inputs target) ;;
  update_models level (with_layers layers) ;;
  modify (fun s => with_loss_lists (list_d_loss s) (list_g_loss s ++ [gen_loss]) s) ;;
  set_flag level Disc true.

(** Lines 321-350: the counter is incremented first; the plot runs on
    every 25th count when [verbose]; the models written back to the
    lists are the objects already there. *)
Definition housekeeping (level e batch_counter : Z) : M World Z :=
  let batch_counter := batch_counter + 1 in
  (if batch_counter mod 25 =? 0
   then if verbose cfg
        then X_locations_gen <- read_local "X_locations_gen" (@X_locations_gen World) ;;
             x0 <- or_raise IndexError (py_index X_locations_gen 0) ;;
             X_prufer_gen <- read_local "X_prufer_gen" (@X_prufer_gen World) ;;
             p0 <- or_raise IndexError (py_index X_prufer_gen 0) ;;
             reporting level e batch_counter (plot_example_neuron K x0 p0) ;;
             reporting level e batch_counter (plt_show K)
        else ret tt
   else ret tt) ;;
  ret batch_counter.

(** Lines 228-350: one pass of the [while] loop. *)
Definition outer_iteration (level e batch_counter : Z) : M World Z :=
  modify (with_loss_lists [] []) ;;
  critic_phase level e batch_counter ;;
  report_disc_loss ;;
  generator_phase level e batch_counter ;;
  housekeeping level e batch_counter.

(** Lines 219-350: [batch_counter = 1] and the [while] loop. *)
Definition epoch (level e : Z) : M World unit :=
  while_batches (S (Z.to_nat (n_batch_per_epoch cfg))) (n_batch_per_epoch cfg)
                (outer_iteration level e) 1.

(** Lines 195-350. *)
Definition train_level (level : Z) : M World unit :=
  compile_level level ;;
  for_each (Np.range (n_epochs cfg)) (epoch level).

Definition train_model : M World unit :=
  for_each (Np.range (n_levels cfg)) setup_level ;;
  for_each (Np.range (n_levels cfg)) train_level.

Definition run (w : World) : outcome World unit := train_model (initial_state w).

End Program.

End Train.

(** ** [train_one_by_one.py] *)

Module TrainOneByOne.

Section Program.

Variable World : Type.

(** The collaborators of [train_one_by_one.py].  [build] also receives
    the conditioning rule, the loss name and the batch size;
    [get_batch] turns the reshaped morphology rows into the real
    topology batch; [plot_generated] stands for the adjacency inversion,
    [plot_example_neuron_v2] and [plt.show], [plot_comparison] for the
    four [imshow] panels, [plot_loss_trace] for the loss figure. *)
Record Collab := mkCollab {
  build : Z -> bool -> Z -> Z -> Z -> string -> string -> Z -> World ->
          option (level_layers * World);
  compile : Z -> compiled -> loss_fn -> Q -> level_models -> World -> option (unit * World);
  get_batch : list (list Q) -> Z -> Z -> World -> option (array * World);
  gen_batch : Z -> list Z -> Z -> Z -> (Z -> level_models) -> string -> World ->
              option ((array * array) * World);
  randn : Z -> Z -> Z -> World -> option (array * World);
  d_train_on_batch : Model -> array -> array -> Np.tensor3 -> World ->
                     option ((Q * list Layer) * World);
  stacked_train_on_batch : level_models -> list array -> Np.tensor3 -> World ->
                           option ((Q * level_layers) * World);
  plot_generated : sample -> sample -> World -> option (unit * World);
  plot_comparison : sample -> sample -> World -> option (unit * World);
  plot_loss_trace : list Q -> World -> option (unit * World) }.

Variable K : Collab.
Variable cfg : config.

Local Open Scope run_scope.
Local Open Scope Z_scope.

(** Lines 182-230.  At level 0 the context size passed is [n_nodes[-1]]. *)
Definition setup_level (level : Z) : M World unit :=
  n_out <- or_raise IndexError (py_index (n_nodes cfg) level) ;;
  n_in <- or_raise IndexError (py_index (n_nodes cfg) (level - 1)) ;;
  ls <- call KerasCall
             (build K level (negb (level =? 0)) n_in n_out (input_dim cfg)
                    (rule cfg) (train_loss cfg) (batch_size cfg)) ;;
  put_models level (fresh_models ls).

Definition do_compile (level : Z) (which : compiled) (loss : loss_fn) (lr : Q)
  : M World unit :=
  ms <- get_models level ;;
  call KerasCall (compile K level which loss lr ms) ;;
  emit (Compile level which loss ms).

(** The loss the run is configured with. *)
Definition active_loss : loss_fn :=
  if (train_loss cfg =? "wasserstein_loss")%string
  then Wasserstein_loss else Binary_crossentropy.

(** Lines 245-273. *)
Definition compile_level (level : Z) : M World unit :=
  do_compile level (CompiledRole Geom) Mse (lr_generator cfg) ;;
  do_compile level (CompiledRole Morph) Mse (lr_generator cfg) ;;
  do_compile level (CompiledRole CondGeom) Mse (lr_generator cfg) ;;
  do_compile level (CompiledRole CondMorph) Mse (lr_generator cfg) ;;
  set_flag level Disc false ;;
  do_compile level CompiledStacked active_loss (lr_generator cfg) ;;
  set_flag level Disc true ;;
  do_compile level (CompiledRole Disc) active_loss (lr_discriminator cfg).

(** Lines 298-357: one pass of the critic loop.  The labels are bound
    by the two unconditional assignments of lines 319 and 336; the
    three [np.concatenate] calls of lines 342-348 raise a [ValueError]
    on batches that do not agree in shape. *)
Definition critic_iteration (level e batch_counter : Z) : M World unit :=
  update_models level (fun ms =>
    set_role Disc (TrainOneByOne_clip.clip_weights (d_model ms) (weight_constraint cfg)) ms) ;;
  let select := Np.range2 ((batch_counter - 1) * batch_size cfg)
                          (batch_counter * batch_size cfg) in
  n <- or_raise IndexError (py_index (n_nodes cfg) level) ;;
  geo <- or_raise KeyError (geometry (data cfg) n) ;;
  X_locations_real <- or_raise IndexError (np_take geo select) ;;
  n' <- or_raise IndexError (py_index (n_nodes cfg) level) ;;
  mor <- or_raise KeyError (morphology (data cfg) n') ;;
  rows <- or_raise IndexError (np_take mor select) ;;
  X_prufer_cut <- or_raise ValueError (np_reshape_row rows ((n' - 1) * batch_size cfg)) ;;
  X_prufer_real <- call BatchUtilsCall (get_batch K X_prufer_cut (batch_size cfg) n') ;;
  modify (with_prufer_real X_prufer_real) ;;
  modify (with_y_real (Np.neg (Np.ones (List.length X_locations_real)))) ;;
  st <- gets (@store World) ;;
  ' (X_locations_gen, X_prufer_gen) <-
    call BatchUtilsCall
         (gen_batch K (batch_size cfg) (n_nodes cfg) level (input_dim cfg) st (rule cfg)) ;;
  modify (with_gen X_locations_gen X_prufer_gen) ;;
  let y_gen := Np.ones (List.length X_locations_gen) in
  X_locations <-
    or_raise ValueError (Np.concatenate X_locations_real X_locations_gen) ;;
  X_prufer <- or_raise ValueError (Np.concatenate X_prufer_real X_prufer_gen) ;;
  y_real <- read_local "y_real" (@y_real World) ;;
  y <- or_raise ValueError (Np.concatenate y_real y_gen) ;;
  ms <- get_models level ;;
  ' (loss, layers) <-
    call KerasCall (d_train_on_batch K (d_model ms) X_locations X_prufer y) ;;
  emit (DiscTrain level e batch_counter ms X_locations X_prufer y) ;;
  update_models level (fun ms => set_role Disc (set_layers (d_model ms) layers) ms) ;;
  modify (with_disc_loss loss) ;;
  modify (fun s => with_loss_lists (list_d_loss s ++ [loss]) (list_g_loss s) s).

Definition critic_phase (level e batch_counter : Z) : M World unit :=
  for_each (Np.range (d_iters cfg)) (fun _ => critic_iteration level e batch_counter).

(** Lines 359-362. *)
Definition report_disc_loss : M World unit :=
  if verbose cfg
  then _ <- read_local "disc_loss" (@disc_loss World) ;; ret tt
  else ret tt.

(** Lines 370-384 and 416-430: the generator the alternation toggles
    at this batch counter, if any. *)
Definition alternation (level batch_counter : Z) (b : bool) : M World unit :=
  if train_one_by_one cfg
  then if in_range10 (batch_counter mod 20)
       then if (rule cfg =? "mgd")%string then set_flag level CondGeom b
            else if (rule cfg =? "gmd")%string then set_flag level CondMorph b
            else ret tt
       else if (rule cfg =? "mgd")%string then set_flag level Geom b
            else if (rule cfg =? "gmd")%string then set_flag level Morph b
            else ret tt
  else ret tt.

(** Lines 367-433. *)
Definition generator_phase (level e batch_counter : Z) : M World unit :=
  set_flag level Disc false ;;
  alternation level batch_counter false ;;
  prior <- (if level >? 0
            then st <- gets (@store World) ;;
                 r <- call BatchUtilsCall
                           (gen_batch K (batch_size cfg) (n_nodes cfg) (level - 1)
                                      (input_dim cfg) st (rule cfg)) ;;
                 ret (Some r)
            else ret None) ;;
  noise_input <- call RandomCall (randn K (batch_size cfg) 1 (input_dim cfg)) ;;
  inputs <- (if level =? 0
             then ret [noise_input]
             else match prior with
                  | Some (X_locations_prior_gen, X_prufer_prior_gen) =>
                      ret [X_locations_prior_gen; X_prufer_prior_gen; noise_input]
                  | None => raise (UnboundLocalError "X_locations_prior_gen")
                  end) ;;
  target <- read_local "y_real" (@y_real World) ;;
  ms <- get_models level ;;
  ' (gen_loss, layers) <-
    call KerasCall (stacked_train_on_batch K ms inputs target) ;;
  emit (StackedTrain level e batch_counter ms inputs target) ;;
  update_models level (with_layers layers) ;;
  modify (fun s => with_loss_lists (list_d_loss s) (list_g_loss s ++ [gen_loss]) s) ;;
  alternation level batch_counter true ;;
  set_flag level Disc true.

(** Lines 438-496. *)
Definition housekeeping (level e batch_counter : Z) : M World Z :=
  let batch_counter := batch_counter + 1 in
  (if batch_counter mod 25 =? 0
   then if verbose cfg
        then X_prufer_gen <- read_local "X_prufer_gen" (@X_prufer_gen World) ;;
             p0 <- or_raise IndexError (py_index X_prufer_gen 0) ;;
             X_locations_gen <- read_local "X_locations_gen" (@X_locations_gen World) ;;
             x0 <- or_raise IndexError (py_index X_locations_gen 0) ;;
             reporting level e batch_counter (plot_generated K x0 p0) ;;
             X_prufer_real <- read_local "X_prufer_real" (@X_prufer_real World) ;;
             r0 <- or_raise IndexError (py_index X_prufer_real 0) ;;
             reporting level e batch_counter (plot_comparison K r0 p0)
        else ret tt
   else ret tt) ;;
  (if verbose cfg
   then ld <- gets (@list_d_loss World) ;;
        reporting level e batch_counter (plot_loss_trace K ld)
   else ret tt) ;;
  ret batch_counter.

(** Lines 292-496: one pass of the [while] loop. *)
Definition outer_iteration (level e batch_counter : Z) : M World Z :=
  modify (with_loss_lists [] []) ;;
  critic_phase level e batch_counter ;;
  report_disc_loss ;;
  generator_phase level e batch_counter ;;
  housekeeping level e batch_counter.

(** Lines 283-496. *)
Definition epoch (level e : Z) : M World unit :=
  while_batches (S (Z.to_nat (n_batch_per_epoch cfg))) (n_batch_per_epoch cfg)
                (outer_iteration level e) 1.

(** Lines 241-496. *)
Definition train_level (level : Z) : M World unit :=
  compile_level level ;;
  for_each (Np.range (n_epochs cfg)) (epoch level).

Definition train_model : M World unit :=
  for_each (Np.range (n_levels cfg)) setup_level ;;
  for_each (Np.range (n_levels cfg)) train_level.

Definition run (w : World) : outcome World unit := train_model (initial_state w).

End Program.

End TrainOneByOne.
(** ** [models_joint_embedding.py]: the critic's loss *)

(** [zip(l, l')] mapped through [f]: the elementwise operation on two
    arrays of the same extent. *)
Fixpoint zip_with {A B C} (f : A -> B -> C) (l : list A) (l' : list B) : list C :=
  match l, l' with
  | a :: t, b :: t' => f a b :: zip_with f t t'
  | _, _ => []
  end.

Module Loss.

(** [y_true * y_pred] on two tensors of the same shape, elementwise.
    (The scripts pass labels and scores of shape [(n, 1, 1)]; tensors
    of different shapes, which the backend broadcasts or refuses, are
    outside this definition.  The values are rationals: the rounding
    of the backend's floats is not modelled, and the properties proved
    of the loss are those that hold of the rounded values too.) *)
Definition mul (a b : Np.tensor3) : Np.tensor3 :=
  zip_with (zip_with (zip_with Qmult)) a b.

Definition flatten (t : Np.tensor3) : list Q := List.concat (List.concat t).

Definition sum (l : list Q) : Q := fold_right Qplus 0%Q l.

(** [K.mean(x)]: the mean over all the elements.  Of no element it is
    not a number; the properties below take at least one. *)
Definition mean (t : Np.tensor3) : Q :=
  (sum (flatten t) / inject_Z (Z.of_nat (List.length (flatten t))))%Q.

(** Lines 474-485. *)
Definition wasserstein_loss (y_true y_pred : Np.tensor3) : Q :=
  mean (mul y_true y_pred).

(** The discriminator's output on a batch: one score per sample, of
    shape [(n, 1, 1)]. *)
Definition scores (l : list Q) : Np.tensor3 := map (fun x => [[x]]) l.

End Loss.

(** ** [plot_utils.py] and the plotting helpers of the training scripts *)

Module PlotUtils.

(** A 2-d array: its rows and its second extent (an array without rows
    still has one).  The first extent is the number of rows. *)
Record ndarray := mkNd { rows : list (list Q); ncols : nat }.

Definition nrows (a : ndarray) : nat := List.length (rows a).

(** Every row has [ncols] entries. *)
Definition shaped (a : ndarray) : Prop :=
  Forall (fun r => List.length r = ncols a) (rows a).

(** What [np.squeeze] leaves of a 2-d array. *)
Inductive squeezed :=
| Scalar (x : Q)
| Vector (v : list Q)
| Matrix (a : ndarray).

(** [np.squeeze(a)]: the axes of length one are removed. *)
Definition squeeze (a : ndarray) : squeezed :=
  match rows a, ncols a with
  | [r], 1%nat => Scalar (hd 0%Q r)
  | [r], _ => Vector r
  | rs, 1%nat => Vector (map (hd 0%Q) rs)
  | _, _ => Matrix a
  end.

(** The index of the first entry of [r] above [best], the entry at
    [at_best], scanning from index [i] on. *)
Fixpoint argmax_from (best : Q) (at_best i : nat) (r : list Q) : nat :=
  match r with
  | [] => at_best
  | x :: rest =>
      if Qle_bool x best
      then argmax_from best at_best (S i) rest
      else argmax_from x i (S i) rest
  end.

(** [argmax] of a row: the first index of its maximum. *)
Definition argmax (r : list Q) : nat :=
  match r with
  | [] => 0%nat
  | x :: rest => argmax_from x 0 1 rest
  end.

(** [a.argmax(axis=1)].  An array squeezed below two dimensions has no
    axis 1 ([numpy.AxisError], a [ValueError]); over an axis of length
    zero there is no maximum ([ValueError]). *)
Definition argmax_axis1 (s : squeezed) : exn + list nat :=
  match s with
  | Matrix a =>
      if (ncols a =? 0)%nat then inl ValueError else inr (map argmax (rows a))
  | _ => inl ValueError
  end.

(** The value assigned to a slice of shape [(n, k)], broadcast to it. *)
Definition broadcast (s : squeezed) (n k : nat) : option (list (list Q)) :=
  match s with
  | Scalar x => Some (repeat (repeat x k) n)
  | Vector v => if (List.length v =? k)%nat then Some (repeat v n) else None
  | Matrix a =>
      if ((nrows a =? n) && (ncols a =? k))%nat then Some (rows a) else None
  end.

(** [np.zeros([n, k])]. *)
Definition zeros (n k : nat) : list (list Q) := repeat (repeat 0%Q k) n.

(** [np.arange(a, b)], as floats. *)
Definition arange (a b : Z) : list Q := map inject_Z (Np.range2 a b).

(** [row[j] = v]. *)
Definition set_at (j : nat) (v : Q) (row : list Q) : list Q :=
  firstn j row ++ v :: skipn (S j) row.

(** [row[j:j + len(vs)] = vs]. *)
Definition set_span (j : nat) (vs : list Q) (row : list Q) : list Q :=
  firstn j row ++ vs ++ skipn (j + List.length vs) row.

(** [M[:, j] = vals], one value per row. *)
Definition assign_col (j : nat) (vals : list Q) (M : list (list Q)) : list (list Q) :=
  zip_with (set_at j) vals M.

(** [M[1:, j] = vals]. *)
Definition assign_col_below (j : nat) (vals : list Q) (M : list (list Q))
  : list (list Q) :=
  match M with
  | [] => []
  | r0 :: rest => r0 :: assign_col j vals rest
  end.

(** [M[1:, j:j+k] = block], one row of [k] values per row. *)
Definition assign_block_below (j : nat) (block : list (list Q)) (M : list (list Q))
  : list (list Q) :=
  match M with
  | [] => []
  | r0 :: rest => r0 :: zip_with (set_span j) block rest
  end.

(** [M[0, j] = v]. *)
Definition assign_top (j : nat) (v : Q) (M : list (list Q)) : list (list Q) :=
  match M with
  | [] => []
  | r0 :: rest => set_at j v r0 :: rest
  end.

(** The matrix [M] that [plot_example_neuron_from_parent]
    ([plot_utils.py], lines 23-32) and [plot_example_neuron_v2]
    ([train_one_by_one.py], lines 54-63, and
    [train_one_by_one_morphology.py], lines 48-57) hand to
    [McNeuron.Neuron] as a 'Matrix of swc': one row per node, with the
    columns id, type, x, y, z, radius, parent. *)
Definition swc_matrix (X_locations X_parent : ndarray) : exn + list (list Q) :=
  let locations := squeeze X_locations in
  match argmax_axis1 (squeeze X_parent) with
  | inl e => inl e
  | inr am =>
      let parent := map (fun i => inject_Z (Z.of_nat i + 1)) am in
      let n := List.length parent in
      let M := zeros (n + 1) 7 in
      let M := assign_col 0 (arange 1 (Z.of_nat n + 2)) M in
      let M := assign_top 1 1%Q M in
      let M := assign_col_below 1 (repeat 2%Q n) M in
      match broadcast locations n 3 with
      | None => inl ValueError
      | Some locs =>
          let M := assign_block_below 2 locs M in
          let M := assign_col_below 6 parent M in
          let M := assign_top 6 (-1)%Q M in
          inr M
      end
  end.

(** The row of the soma and the row of the [i]-th other node, located
    at [loc], whose row of [X_parent] is [prow]. *)
Definition soma_row : list Q := [1; 1; 0; 0; 0; 0; -1]%Q.

Definition node_row (i : nat) (loc : list Q) (prow : list Q) : list Q :=
  [inject_Z (Z.of_nat i + 2); 2%Q] ++ loc
    ++ [0%Q; inject_Z (Z.of_nat (argmax prow) + 1)].

Fixpoint node_rows (i : nat) (locs prows : list (list Q)) : list (list Q) :=
  match locs, prows with
  | loc :: locs', prow :: prows' => node_row i loc prow :: node_rows (S i) locs' prows'
  | _, _ => []
  end.

(** A row of [c] entries that is 1 at index [j] and 0 elsewhere. *)
Definition one_hot (c j : nat) : list Q :=
  map (fun i => if (i =? j)%nat then 1%Q else 0%Q) (seq 0 c).

(** *** The figures *)

(** matplotlib's [pyplot], as the plotting functions call it:
    [plt.figure(figsize=(w, h))], [plt.subplot(r, c, i)],
    [plt.imshow(X, interpolation='none', cmap='Greys')], [plt.plot(ys)]
    and [plt.show()]. *)
Inductive plt_call :=
| PltFigure (width height : Z)
| PltSubplot (n_rows n_cols index : Z)
| PltImshow (X : sample)
| PltPlot (ys : list Q)
| PltShow.

Section Pyplot.

Variable World : Type.

(** A call returns, with a new world, or raises. *)
Variable plt : plt_call -> World -> option World.

(** How a plotting function ends: the calls that returned, in order,
    the world they left, and the exception raised, if any. *)
Record drawn := mkDrawn {
  calls : list plt_call;
  after : World;
  raised : option exn }.

Definition plotter := World -> drawn.

Definition skip : plotter := fun w => mkDrawn [] w None.

Definition raising (e : exn) : plotter := fun w => mkDrawn [] w (Some e).

Definition do_call (c : plt_call) : plotter :=
  fun w => match plt c w with
           | Some w' => mkDrawn [c] w' None
           | None => mkDrawn [] w (Some (CollaboratorError ReportingCall))
           end.

(** [a] and then, if it did not raise, [b]. *)
Definition and_then (a b : plotter) : plotter :=
  fun w => let r := a w in
           match raised r with
           | Some _ => r
           | None => let r' := b (after r) in
                     mkDrawn (calls r ++ calls r') (after r') (raised r')
           end.

Fixpoint for_samples (xs : list Z) (body : Z -> plotter) : plotter :=
  match xs with
  | [] => skip
  | x :: rest => and_then (body x) (for_samples rest body)
  end.

(** [plt.imshow(X[sample, :, :], ...)]: the sample is taken first. *)
Definition imshow_at (X : array) (sample : Z) : plotter :=
  match py_index X sample with
  | Some img => do_call (PltImshow img)
  | None => raising IndexError
  end.

(** [plot_utils.py], lines 40-55. *)
Definition plot_adjacency (X_parent_real X_parent_gen : array) : plotter :=
  for_samples (Np.range (Z.of_nat (List.length X_parent_real)))
    (fun sample =>
       and_then (do_call (PltFigure 10 5))
      (and_then (do_call (PltSubplot 1 2 1))
      (and_then (imshow_at X_parent_real sample)
      (and_then (do_call (PltSubplot 1 2 2))
                (imshow_at X_parent_gen sample))))).

End Pyplot.

(** The calls that draw one pair of samples side by side, and those
    that draw the pairs of two arrays, as far as both have samples. *)
Definition pair_figure (real gen : sample) : list plt_call :=
  [PltFigure 10 5; PltSubplot 1 2 1; PltImshow real; PltSubplot 1 2 2; PltImshow gen].

Definition pair_figures (X_real X_gen : array) : list plt_call :=
  flat_map (fun rg => pair_figure (fst rg) (snd rg)) (combine X_real X_gen).

End PlotUtils.
(** ** [train_one_by_one_morphology.py] *)

(** [c * t] for a scalar [c], as in [-1*np.ones(...)]. *)
Definition np_scale (c : Q) (t : Np.tensor3) : Np.tensor3 :=
  map (map (map (Qmult c))) t.

(** The script has one generated array, [X_parent_gen]; it is kept in
    the slot of the generated topology, as [X_parent_real] is kept in
    the slot of the real one. *)
Definition with_parent_gen {World} (Xp : array) (s : state World) : state World :=
  mkState (store s) (world s) (y_real s) (disc_loss s) (X_locations_gen s)
          (Some Xp) (X_prufer_real s) (list_d_loss s) (list_g_loss s).

Module TrainMorphology.

Section Program.

Variable World : Type.

(** The collaborators of the script.  [build] stands for
    [models.discriminator], [models.generator] and
    [models.discriminator_on_generators] of lines 176-192 and receives
    [n_nodes[level-1]], [n_nodes[level]], the noise dimension, the rule,
    the loss name and the batch size; the optimizers are [Adagrad()],
    so [compile] receives no learning rate; [get_batch], [gen_batch]
    and [invert_full_matrix_np] are those of [batch_utlis_morphology];
    [plt_show] is the [plt.show()] of line 341 and [plot_comparison]
    stands for the two figures of lines 342-360. *)
Record Collab := mkCollab {
  build : Z -> Z -> Z -> string -> string -> Z -> World -> option (level_layers * World);
  compile : compiled -> loss_fn -> level_models -> World -> option (unit * World);
  get_batch : training_data -> Z -> Z -> Z -> World -> option (array * World);
  gen_batch : Z -> list Z -> Z -> Z -> (Z -> level_models) -> string -> World ->
              option (array * World);
  randn : Z -> Z -> Z -> World -> option (array * World);
  d_train_on_batch : Model -> array -> Np.tensor3 -> World ->
                     option ((Q * list Layer) * World);
  stacked_train_on_batch : level_models -> list array -> Np.tensor3 -> World ->
                           option ((Q * level_layers) * World);
  invert_full_matrix_np : sample -> World -> option (sample * World);
  plt_show : World -> option (unit * World);
  plot_comparison : sample -> sample -> World -> option (unit * World) }.

Variable K : Collab.
Variable cfg : config.

Local Open Scope run_scope.
Local Open Scope Z_scope.

(** Line 174: the script trains one level, whatever [n_levels] is. *)
Definition level : Z := 0.

(** Lines 170-197.  The context size passed is [n_nodes[level-1]], the
    last entry of [n_nodes]. *)
Definition setup : M World unit :=
  n_out <- or_raise IndexError (py_index (n_nodes cfg) level) ;;
  n_in <- or_raise IndexError (py_index (n_nodes cfg) (level - 1)) ;;
  ls <- call KerasCall
             (build K n_in n_out (input_dim cfg) (rule cfg) (train_loss cfg)
                    (batch_size cfg)) ;;
  put_models level (fresh_models ls).

Definition do_compile (which : compiled) (loss : loss_fn) : M World unit :=
  ms <- get_models level ;;
  call KerasCall (compile K which loss ms) ;;
  emit (Compile level which loss ms).

(** The loss the run is configured with. *)
Definition active_loss : loss_fn :=
  if (train_loss cfg =? "wasserstein_loss")%string
  then Wasserstein_loss else Binary_crossentropy.

(** Lines 213-236. *)
Definition compile_models : M World unit :=
  do_compile (CompiledRole Morph) Mse ;;
  set_flag level Disc false ;;
  do_compile CompiledStacked active_loss ;;
  set_flag level Disc true ;;
  do_compile (CompiledRole Disc) active_loss.

(** Lines 262-294: one pass of the critic loop.  The update is given
    the one array [X_parent]; it is logged as the topology input, with
    no geometry input.  The two [np.concatenate] calls of lines 286-289
    raise a [ValueError] on batches that do not agree in shape. *)
Definition critic_iteration (e batch_counter : Z) : M World unit :=
  update_models level (fun ms =>
    set_role Disc (Morphology_clip.clip_weights (d_model ms) (weight_constraint cfg)) ms) ;;
  n <- or_raise IndexError (py_index (n_nodes cfg) level) ;;
  X_parent_real <-
    call BatchUtilsCall (get_batch K (data cfg) (batch_size cfg) batch_counter n) ;;
  modify (with_prufer_real X_parent_real) ;;
  modify (with_y_real (np_scale (-1) (Np.ones (List.length X_parent_real)))) ;;
  st <- gets (@store World) ;;
  X_parent_gen <-
    call BatchUtilsCall
         (gen_batch K (batch_size cfg) (n_nodes cfg) level (input_dim cfg) st (rule cfg)) ;;
  modify (with_parent_gen X_parent_gen) ;;
  let y_gen := np_scale 1 (Np.ones (List.length X_parent_gen)) in
  X_parent <- or_raise ValueError (Np.concatenate X_parent_real X_parent_gen) ;;
  y_real <- read_local "y_real" (@y_real World) ;;
  y <- or_raise ValueError (Np.concatenate y_real y_gen) ;;
  ms <- get_models level ;;
  ' (loss, layers) <-
    call KerasCall (d_train_on_batch K (d_model ms) X_parent y) ;;
  emit (DiscTrain level e batch_counter ms [] X_parent y) ;;
  update_models level (fun ms => set_role Disc (set_layers (d_model ms) layers) ms) ;;
  modify (with_disc_loss loss) ;;
  modify (fun s => with_loss_lists (list_d_loss s ++ [loss]) (list_g_loss s) s).

Definition critic_phase (e batch_counter : Z) : M World unit :=
  for_each (Np.range (d_iters cfg)) (fun _ => critic_iteration e batch_counter).

(** Lines 296-299. *)
Definition report_disc_loss : M World unit :=
  if verbose cfg
  then _ <- read_local "disc_loss" (@disc_loss World) ;; ret tt
  else ret tt.

(** Lines 305-319.  The update is under [if level == 0], which holds. *)
Definition generator_phase (e batch_counter : Z) : M World unit :=
  set_flag level Disc false ;;
  noise_input <- call RandomCall (randn K (batch_size cfg) 1 (input_dim cfg)) ;;
  (if level =? 0
   then target <- read_local "y_real" (@y_real World) ;;
        ms <- get_models level ;;
        ' (gen_loss, layers) <-
          call KerasCall (stacked_train_on_batch K ms [noise_input] target) ;;
        emit (StackedTrain level e batch_counter ms [noise_input] target) ;;
        update_models level (with_layers layers) ;;
        modify (fun s => with_loss_lists (list_d_loss s) (list_g_loss s ++ [gen_loss]) s)
   else raise (UnboundLocalError "gen_loss")) ;;
  set_flag level Disc true.

(** Lines 324-370.  The loss trace is under [if 0]. *)
Definition housekeeping (e batch_counter : Z) : M World Z :=
  let batch_counter := batch_counter + 1 in
  (if batch_counter mod 25 =? 0
   then if verbose cfg
        then X_parent_gen <- read_local "X_parent_gen" (@X_prufer_gen World) ;;
             p0 <- or_raise IndexError (py_index X_parent_gen 0) ;;
             call BatchUtilsCall (invert_full_matrix_np K p0) ;;
             reporting level e batch_counter (plt_show K) ;;
             X_parent_real <- read_local "X_parent_real" (@X_prufer_real World) ;;
             r0 <- or_raise IndexError (py_index X_parent_real 0) ;;
             reporting level e batch_counter (plot_comparison K r0 p0)
        else ret tt
   else ret tt) ;;
  ret batch_counter.

(** Lines 256-370: one pass of the [while] loop. *)
Definition outer_iteration (e batch_counter : Z) : M World Z :=
  modify (with_loss_lists [] []) ;;
  critic_phase e batch_counter ;;
  report_disc_loss ;;
  generator_phase e batch_counter ;;
  housekeeping e batch_counter.

(** Lines 247-370. *)
Definition epoch (e : Z) : M World unit :=
  while_batches (S (Z.to_nat (n_batch_per_epoch cfg))) (n_batch_per_epoch cfg)
                (outer_iteration e) 1.

Definition train_model : M World unit :=
  setup ;;
  compile_models ;;
  for_each (Np.range (n_epochs cfg)) epoch.

Definition run (w : World) : outcome World unit := train_model (initial_state w).

End Program.

End TrainMorphology.

(** ** Concrete collaborators and inputs, to run the embedding on *)

Module Sample.

(** A discriminator with one recurrent and one dense layer. *)
Definition lstm_dense_model : Model :=
  mkModel true [mkLayer "lstm_1" [[5%Q; (-7)%Q]]; mkLayer "dense_1" [[3%Q]; [(-3)%Q; (1#2)%Q]]].

Definition unit_bounds : Q * Q := ((-1)%Q, 1%Q).

Definition point : sample := [[0%Q; 0%Q; 0%Q]].

(** Initial weights: the discriminator has one dense layer. *)
Definition init_layers : level_layers :=
  fun r => match r with
           | Disc => [mkLayer "dense_1" [[3%Q; (-3)%Q]]]
           | _ => []
           end.

(** A critic update that moves every weight up by one. *)
Definition bump (l : Layer) : Layer :=
  mkLayer (name l) (map (map (fun x => (x + 1)%Q)) (weights l)).

Definition keep_layers (ms : level_models) : level_layers :=
  fun r => layers (get_role r ms).

Definition plot (ok : bool) (w : unit) : option (unit * unit) :=
  if ok then Some (tt, w) else None.

(** Collaborators for [train.py] over a one-point world: batches of
    [batch_size] copies of one sample; plotting works iff [plots_ok]. *)
Definition train_collab (plots_ok : bool) : Train.Collab unit :=
  Train.mkCollab
    (fun _ _ _ _ _ w => Some (init_layers, w))
    (fun _ _ _ _ _ w => Some (tt, w))
    (fun _ bs _ _ w => Some ((repeat point (Z.to_nat bs), repeat point (Z.to_nat bs)), w))
    (fun bs _ _ _ _ w => Some ((repeat point (Z.to_nat bs), repeat point (Z.to_nat bs)), w))
    (fun a _ _ w => Some (repeat point (Z.to_nat a), w))
    (fun m _ _ _ w => Some ((0%Q, map bump (layers m)), w))
    (fun ms _ _ w => Some ((0%Q, keep_layers ms), w))
    (fun _ _ => plot plots_ok)
    (plot plots_ok).

(** The same for [train_one_by_one.py]. *)
Definition one_by_one_collab (plots_ok : bool) : TrainOneByOne.Collab unit :=
  TrainOneByOne.mkCollab
    (fun _ _ _ _ _ _ _ _ w => Some (init_layers, w))
    (fun _ _ _ _ _ w => Some (tt, w))
    (fun _ bs _ w => Some (repeat point (Z.to_nat bs), w))
    (fun bs _ _ _ _ _ w => Some ((repeat point (Z.to_nat bs), repeat point (Z.to_nat bs)), w))
    (fun a _ _ w => Some (repeat point (Z.to_nat a), w))
    (fun m _ _ _ w => Some ((0%Q, map bump (layers m)), w))
    (fun ms _ _ w => Some ((0%Q, keep_layers ms), w))
    (fun _ _ => plot plots_ok)
    (fun _ _ => plot plots_ok)
    (fun _ => plot plots_ok).

(** A hundred samples per node count; a morphology row has [n - 1]
    entries. *)
Definition samples : training_data :=
  mkData (fun _ => Some (repeat point 100))
         (fun n => Some (repeat (repeat 0%Q (Z.to_nat (n - 1))) 100)).

(** One level of five nodes; the remaining parameters are the
    arguments. *)
Definition one_level (batch_size n_epochs n_batch_per_epoch d_iters : Z)
           (rule : string) (train_one_by_one : bool) (train_loss : string)
           (verbose : bool) : config :=
  mkConfig samples 1 [5%Z] 100 n_epochs batch_size n_batch_per_epoch d_iters
           (5 # 1000)%Q (5 # 100000)%Q ((-1 # 100)%Q, (1 # 100)%Q)
           rule train_one_by_one train_loss verbose.

(** The scenario of the specification: batches of 4, one critic
    iteration, one epoch, [n_batch_per_epoch = 2]. *)
Definition scenario : config :=
  one_level 4 1 2 1 "mgd" false "wasserstein_loss" false.

(** Two levels, of five and ten nodes. *)
Definition two_levels (batch_size n_epochs n_batch_per_epoch d_iters : Z) : config :=
  mkConfig samples 2 [5%Z; 10%Z] 100 n_epochs batch_size n_batch_per_epoch d_iters
           (5 # 1000)%Q (5 # 100000)%Q ((-1 # 100)%Q, (1 # 100)%Q)
           "mgd" false "wasserstein_loss" false.

(** The level of each update, in the order of the run. *)
Definition update_levels (t : list event) : list Z :=
  map event_level (filter is_update t).

(** What a critic update was given as labels. *)
Definition disc_labels (ev : event) : list Np.tensor3 :=
  match ev with DiscTrain _ _ _ _ _ _ y => [y] | _ => [] end.

(** The loss each model was compiled with. *)
Definition compiled_losses (ev : event) : list (compiled * loss_fn) :=
  match ev with Compile _ which loss _ => [(which, loss)] | _ => [] end.

(** The flags a stacked update saw, in the order d, g, cg, m, cm. *)
Definition stacked_flags (ev : event) : list (Z * list bool) :=
  match ev with
  | StackedTrain _ _ bc ms _ _ =>
      [(bc, map (fun r => trainable (get_role r ms)) [Disc; Geom; CondGeom; Morph; CondMorph])]
  | _ => []
  end.

End Sample.

(** Collaborators for [train_one_by_one_morphology.py] over the
    one-point world, and a configuration for it. *)
Module MorphologySample.

Definition row : sample := [[0%Q; 1%Q]; [1%Q; 0%Q]].

Definition collab (plots_ok : bool) : TrainMorphology.Collab unit :=
  TrainMorphology.mkCollab
    (fun _ _ _ _ _ _ w => Some (Sample.init_layers, w))
    (fun _ _ _ w => Some (tt, w))
    (fun _ bs _ _ w => Some (repeat row (Z.to_nat bs), w))
    (fun bs _ _ _ _ _ w => Some (repeat row (Z.to_nat bs), w))
    (fun a _ _ w => Some (repeat Sample.point (Z.to_nat a), w))
    (fun m _ _ w => Some ((0%Q, map Sample.bump (layers m)), w))
    (fun ms _ _ w => Some ((0%Q, Sample.keep_layers ms), w))
    (fun x w => Some (x, w))
    (Sample.plot plots_ok)
    (fun _ _ => Sample.plot plots_ok).

(** Three levels asked for, the alternation asked for. *)
Definition three_levels (batch_size n_epochs n_batch_per_epoch d_iters : Z)
           (verbose : bool) : config :=
  mkConfig Sample.samples 3 [5%Z; 10%Z; 20%Z] 100 n_epochs batch_size
           n_batch_per_epoch d_iters
           (5 # 1000)%Q (5 # 100000)%Q ((-1 # 100)%Q, (1 # 100)%Q)
           "mgd" true "wasserstein_loss" verbose.

End MorphologySample.

(** Further configurations of the sample run. *)
Module MoreSamples.

(** Two levels asked for, one node count given. *)
Definition short_nodes : config :=
  mkConfig Sample.samples 2 [5%Z] 100 1 4 2 1
           (5 # 1000)%Q (5 # 100000)%Q ((-1 # 100)%Q, (1 # 100)%Q)
           "mgd" false "wasserstein_loss" false.

(** A generated sample of two points, where the real ones have one. *)
Definition two_points : sample := [[0%Q; 0%Q; 0%Q]; [1%Q; 1%Q; 1%Q]].

(** Collaborators for [train.py] whose generated geometry batches are
    of shape [(_, 2, 3)] while the real ones are of shape [(_, 1, 3)]. *)
Definition mismatched_collab : Train.Collab unit :=
  Train.mkCollab
    (fun _ _ _ _ _ w => Some (Sample.init_layers, w))
    (fun _ _ _ _ _ w => Some (tt, w))
    (fun _ bs _ _ w =>
       Some ((repeat Sample.point (Z.to_nat bs), repeat Sample.point (Z.to_nat bs)), w))
    (fun bs _ _ _ _ w =>
       Some ((repeat two_points (Z.to_nat bs), repeat Sample.point (Z.to_nat bs)), w))
    (fun a _ _ w => Some (repeat Sample.point (Z.to_nat a), w))
    (fun m _ _ _ w => Some ((0%Q, map Sample.bump (layers m)), w))
    (fun ms _ _ w => Some ((0%Q, Sample.keep_layers ms), w))
    (fun _ _ => Sample.plot true)
    (Sample.plot true).

End MoreSamples.

(** ** Collaborators that return *)

(** No collaborator call of [train.py] raises. *)
Record train_reliable {World} (K : Train.Collab World) : Prop := {
  train_build_returns : forall l u i n d w, Train.build K l u i n d w <> None;
  train_compile_returns : forall l c f r ms w, Train.compile K l c f r ms w <> None;
  train_get_batch_returns : forall td bs bc n w, Train.get_batch K td bs bc n w <> None;
  train_gen_batch_returns : forall bs ns l d st w, Train.gen_batch K bs ns l d st w <> None;
  train_randn_returns : forall a b c w, Train.randn K a b c w <> None;
  train_d_update_returns : forall m X Xp y w, Train.d_train_on_batch K m X Xp y w <> None;
  train_stacked_update_returns :
    forall ms xs y w, Train.stacked_train_on_batch K ms xs y w <> None;
  train_plot_returns : forall x p w, Train.plot_example_neuron K x p w <> None;
  train_show_returns : forall w, Train.plt_show K w <> None }.

(** No collaborator call of [train_one_by_one.py] raises. *)
Record one_by_one_reliable {World} (K : TrainOneByOne.Collab World) : Prop := {
  obo_build_returns :
    forall l u i n d r tl bs w, TrainOneByOne.build K l u i n d r tl bs w <> None;
  obo_compile_returns :
    forall l c f r ms w, TrainOneByOne.compile K l c f r ms w <> None;
  obo_get_batch_returns : forall cut bs n w, TrainOneByOne.get_batch K cut bs n w <> None;
  obo_gen_batch_returns :
    forall bs ns l d st r w, TrainOneByOne.gen_batch K bs ns l d st r w <> None;
  obo_randn_returns : forall a b c w, TrainOneByOne.randn K a b c w <> None;
  obo_d_update_returns :
    forall m X Xp y w, TrainOneByOne.d_train_on_batch K m X Xp y w <> None;
  obo_stacked_update_returns :
    forall ms xs y w, TrainOneByOne.stacked_train_on_batch K ms xs y w <> None;
  obo_plot_generated_returns : forall x p w, TrainOneByOne.plot_generated K x p w <> None;
  obo_plot_comparison_returns :
    forall x p w, TrainOneByOne.plot_comparison K x p w <> None;
  obo_plot_loss_returns : forall ld w, TrainOneByOne.plot_loss_trace K ld w <> None }.

(** The data holds the first batch of four five-node samples, with
    morphology rows that reshape to one row of [(5 - 1) * 4] entries. *)
Definition first_batch_available (td : training_data) : Prop :=
  exists geo mor Xl rows cut,
    geometry td 5%Z = Some geo /\ np_take geo [0; 1; 2; 3]%Z = Some Xl
    /\ morphology td 5%Z = Some mor /\ np_take mor [0; 1; 2; 3]%Z = Some rows
    /\ np_reshape_row rows 16 = Some cut.

(** ** Batches that agree in shape *)

(** A real batch [train.py] is given for the node count of a level and
    a generated batch of that level agree in shape, the geometry
    batches in one and the topology batches in another. *)
Definition train_batches_agree {World} (K : Train.Collab World) (cfg : config)
  : Prop :=
  forall l n bc w Xl Xp w' st w1 Xl' Xp' w1',
    py_index (n_nodes cfg) l = Some n ->
    Train.get_batch K (data cfg) (batch_size cfg) bc n w = Some ((Xl, Xp), w') ->
    Train.gen_batch K (batch_size cfg) (n_nodes cfg) l (input_dim cfg) st w1
    = Some ((Xl', Xp'), w1') ->
    Np.agree Xl Xl' /\ Np.agree Xp Xp'.

(** The same for [train_one_by_one.py]: the slice of the geometry data
    at a batch counter agrees with the generated geometry batch of the
    level, and the real topology batch with the generated one. *)
Definition one_by_one_batches_agree {World} (K : TrainOneByOne.Collab World)
           (cfg : config) : Prop :=
  forall l n bc geo Xl cut w Xp w' st w1 Xl' Xp' w1',
    py_index (n_nodes cfg) l = Some n ->
    geometry (data cfg) n = Some geo ->
    np_take geo (Np.range2 ((bc - 1) * batch_size cfg) (bc * batch_size cfg))
    = Some Xl ->
    TrainOneByOne.get_batch K cut (batch_size cfg) n w = Some (Xp, w') ->
    TrainOneByOne.gen_batch K (batch_size cfg) (n_nodes cfg) l (input_dim cfg) st
                            (rule cfg) w1
    = Some ((Xl', Xp'), w1') ->
    Np.agree Xl Xl' /\ Np.agree Xp Xp'.

(** No collaborator call of [train_one_by_one_morphology.py] raises. *)
Record morphology_reliable {World} (K : TrainMorphology.Collab World) : Prop := {
  mor_build_returns :
    forall i n d r tl bs w, TrainMorphology.build K i n d r tl bs w <> None;
  mor_compile_returns : forall c f ms w, TrainMorphology.compile K c f ms w <> None;
  mor_get_batch_returns :
    forall td bs bc n w, TrainMorphology.get_batch K td bs bc n w <> None;
  mor_gen_batch_returns :
    forall bs ns l d st r w, TrainMorphology.gen_batch K bs ns l d st r w <> None;
  mor_randn_returns : forall a b c w, TrainMorphology.randn K a b c w <> None;
  mor_d_update_returns :
    forall m X y w, TrainMorphology.d_train_on_batch K m X y w <> None;
  mor_stacked_update_returns :
    forall ms xs y w, TrainMorphology.stacked_train_on_batch K ms xs y w <> None;
  mor_invert_returns : forall x w, TrainMorphology.invert_full_matrix_np K x w <> None;
  mor_show_returns : forall w, TrainMorphology.plt_show K w <> None;
  mor_plot_returns : forall x p w, TrainMorphology.plot_comparison K x p w <> None }.

(** The generated batches [train.py] is given are not empty. *)
Definition train_batches_nonempty {World} (K : Train.Collab World) (cfg : config)
  : Prop :=
  forall ns l d st w Xl Xp w',
    Train.gen_batch K (batch_size cfg) ns l d st w = Some ((Xl, Xp), w') ->
    Xl <> [] /\ Xp <> [].

(** [n_nodes] has an entry for every level. *)
Definition enough_nodes (cfg : config) : Prop :=
  (n_levels cfg <= Z.of_nat (List.length (n_nodes cfg)))%Z.

(** The data [train_one_by_one.py] reads at every batch counter of
    every level: the level's geometry and morphology arrays hold the
    selected samples, and the selected morphology rows reshape to one
    row of [(n - 1) * batch_size] entries. *)
Definition batches_available (cfg : config) : Prop :=
  forall l n bc,
    (0 <= l < n_levels cfg)%Z ->
    py_index (n_nodes cfg) l = Some n ->
    (1 <= bc < n_batch_per_epoch cfg)%Z ->
    exists geo mor Xl rows cut,
      geometry (data cfg) n = Some geo
      /\ np_take geo (Np.range2 ((bc - 1) * batch_size cfg) (bc * batch_size cfg))
         = Some Xl
      /\ morphology (data cfg) n = Some mor
      /\ np_take mor (Np.range2 ((bc - 1) * batch_size cfg) (bc * batch_size cfg))
         = Some rows
      /\ np_reshape_row rows ((n - 1) * batch_size cfg) = Some cut.

(** The batches [train_one_by_one.py] is given are not empty. *)
Definition one_by_one_batches_nonempty {World} (K : TrainOneByOne.Collab World)
           (cfg : config) : Prop :=
  (forall cut n w Xp w',
      TrainOneByOne.get_batch K cut (batch_size cfg) n w = Some (Xp, w') -> Xp <> [])
  /\ (forall ns l d st r w Xl Xp w',
         TrainOneByOne.gen_batch K (batch_size cfg) ns l d st r w
         = Some ((Xl, Xp), w') ->
         Xl <> [] /\ Xp <> []).

(** The batches [train_one_by_one_morphology.py] is given are not
    empty. *)
Definition morphology_batches_nonempty {World} (K : TrainMorphology.Collab World)
           (cfg : config) : Prop :=
  (forall td bc n w X w',
      TrainMorphology.get_batch K td (batch_size cfg) bc n w = Some (X, w') -> X <> [])
  /\ (forall ns l d st r w X w',
         TrainMorphology.gen_batch K (batch_size cfg) ns l d st r w = Some (X, w') ->
         X <> []).

(** A real batch the script is given for the node count of level 0 and
    a generated batch agree in shape. *)
Definition morphology_batches_agree {World} (K : TrainMorphology.Collab World)
           (cfg : config) : Prop :=
  forall n bc w X w' st w1 X' w1',
    py_index (n_nodes cfg) 0 = Some n ->
    TrainMorphology.get_batch K (data cfg) (batch_size cfg) bc n w = Some (X, w') ->
    TrainMorphology.gen_batch K (batch_size cfg) (n_nodes cfg) 0 (input_dim cfg) st
                              (rule cfg) w1
    = Some (X', w1') ->
    Np.agree X X'.


(** ** What the properties say of a run *)

Section RunProperties.

Variable World : Type.

(** From a state satisfying [P], the run produces only events
    satisfying [phi]; it ends normally in a state satisfying [Q], or by
    an exception [e] in a state satisfying [E e]. *)
Definition triple {A} (P : state World -> Prop) (m : M World A)
           (phi : event -> Prop)
           (Q : A -> state World -> Prop)
           (E : exn -> state World -> Prop) : Prop :=
  forall s, P s ->
            match m s with
            | Ok t a s' => Forall phi t /\ Q a s'
            | Raise t e s' => Forall phi t /\ E e s'
            end.

(** A run that ends normally has produced [n] events as counted by [f]
    and returns a value satisfying [V]. *)
Definition emits (f : list event -> nat) {A} (m : M World A) (n : nat)
           (V : A -> Prop) : Prop :=
  forall s, match m s with
            | Ok t a _ => f t = n /\ V a
            | Raise _ _ _ => True
            end.

End RunProperties.

(** *** The critic batch *)

(** Where the four batches of a critic update of [train.py] come from,
    at level [l] and batch counter [bc]: the real ones are what
    [get_batch] returned for the counter and the node count of the
    level, the generated ones are what [gen_batch] returned next, for
    the level, with the model lists as they are at the update. *)
Definition train_batch_sources {World} (K : Train.Collab World) (cfg : config)
           (l bc : Z) (ms : level_models) (Xlr Xpr Xlg Xpg : array) : Prop :=
  exists n w w' st w'',
    py_index (n_nodes cfg) l = Some n
    /\ Train.get_batch K (data cfg) (batch_size cfg) bc n w = Some ((Xlr, Xpr), w')
    /\ Train.gen_batch K (batch_size cfg) (n_nodes cfg) l (input_dim cfg) st w'
       = Some ((Xlg, Xpg), w'')
    /\ st l = ms.

(** The same for [train_one_by_one.py]: the real geometry batch is the
    slice of the data at the counter, the real topology batch is what
    [get_batch] made of the morphology rows of the slice. *)
Definition one_by_one_batch_sources {World} (K : TrainOneByOne.Collab World)
           (cfg : config) (l bc : Z) (ms : level_models)
           (Xlr Xpr Xlg Xpg : array) : Prop :=
  let select := Np.range2 ((bc - 1) * batch_size cfg) (bc * batch_size cfg) in
  exists n geo mor rows cut w w' st w'',
    py_index (n_nodes cfg) l = Some n
    /\ geometry (data cfg) n = Some geo
    /\ np_take geo select = Some Xlr
    /\ morphology (data cfg) n = Some mor
    /\ np_take mor select = Some rows
    /\ np_reshape_row rows ((n - 1) * batch_size cfg) = Some cut
    /\ TrainOneByOne.get_batch K cut (batch_size cfg) n w = Some (Xpr, w')
    /\ TrainOneByOne.gen_batch K (batch_size cfg) (n_nodes cfg) l (input_dim cfg) st
                               (rule cfg) w'
       = Some ((Xlg, Xpg), w'')
    /\ st l = ms.

(** A critic batch made of the real batches [Xlr], [Xpr] and the
    generated batches [Xlg], [Xpg]: [bs] real samples followed by [bs]
    generated ones in both inputs, labelled -1 and +1 in that order. *)
Definition critic_batch (bs : nat) (Xlr Xpr Xlg Xpg : array)
           (X_locations X_prufer : array) (y : Np.tensor3) : Prop :=
  X_locations = Xlr ++ Xlg /\ X_prufer = Xpr ++ Xpg
  /\ List.length Xlr = bs /\ List.length Xlg = bs
  /\ List.length Xpr = bs /\ List.length Xpg = bs
  /\ y = repeat [[(-1)%Q]] bs ++ repeat [[1%Q]] bs.

(** Every critic update of the run is given such a batch, made of the
    batches [sources] names for its level, counter and models. *)
Definition critic_batches
           (sources : Z -> Z -> level_models -> array -> array -> array -> array -> Prop)
           (bs : nat) (ev : event) : Prop :=
  match ev with
  | DiscTrain l _ bc ms X_locations X_prufer y =>
      exists Xlr Xpr Xlg Xpg,
        sources l bc ms Xlr Xpr Xlg Xpg
        /\ critic_batch bs Xlr Xpr Xlg Xpg X_locations X_prufer y
  | _ => True
  end.

(** *** Labels and losses *)

(** What the run of [train_one_by_one.py] does with the loss setting:
    the critic's inputs are the real batches followed by the generated
    ones, and its labels are -1 on the real rows and +1 on the
    generated rows whatever the setting; the stacked model and the
    discriminator are compiled with the loss the setting names, the
    generators with the mean squared error. *)
Definition labels_and_losses {World} (K : TrainOneByOne.Collab World) (cfg : config)
           (ev : event) : Prop :=
  match ev with
  | DiscTrain l _ bc ms X_locations X_prufer y =>
      exists Xlr Xpr Xlg Xpg,
        one_by_one_batch_sources K cfg l bc ms Xlr Xpr Xlg Xpg
        /\ X_locations = Xlr ++ Xlg /\ X_prufer = Xpr ++ Xpg
        /\ y = repeat [[(-1)%Q]] (List.length Xlr) ++ repeat [[1%Q]] (List.length Xlg)
  | Compile _ which loss _ =>
      match which with
      | CompiledStacked | CompiledRole Disc =>
          loss = if (train_loss cfg =? "wasserstein_loss")%string
                 then Wasserstein_loss else Binary_crossentropy
      | CompiledRole _ => loss = Mse
      end
  | _ => True
  end.

(** *** The [trainable] flags *)

(** Every model object of every level is trainable. *)
Definition all_levels_trainable {World} (s : state World) : Prop :=
  forall l, all_trainable (store s l).

(** The generators whose flag is off. *)
Definition frozen_generators (ms : level_models) : list role :=
  filter (fun r => negb (trainable (get_role r ms))) [Geom; CondGeom; Morph; CondMorph].

(** The conditional generator of a rule. *)
Definition conditional_role (rule : string) : option role :=
  if (rule =? "mgd")%string then Some CondGeom
  else if (rule =? "gmd")%string then Some CondMorph
  else None.

(** The flags a stacked update runs under: the discriminator is frozen;
    with the alternation on and a rule of the two, the conditional
    generator of the rule is the one frozen generator in the first half
    of a 20-step cycle, and one of the unconditioned generators is in
    the second half; with the alternation off no generator is frozen. *)
Definition alternation_flags (cfg : config) (batch_counter : Z) (ms : level_models)
  : Prop :=
  trainable (d_model ms) = false
  /\ (train_one_by_one cfg = true ->
      forall c, conditional_role (rule cfg) = Some c ->
                if in_range10 (batch_counter mod 20)
                then frozen_generators ms = [c]
                else exists u, (u = Geom \/ u = Morph) /\ frozen_generators ms = [u])
  /\ (train_one_by_one cfg = false -> frozen_generators ms = []).

(** What each update sees of the flags. *)
Definition flags_at_updates (cfg : config) (ev : event) : Prop :=
  match ev with
  | DiscTrain _ _ _ ms _ _ _ => all_trainable ms
  | StackedTrain _ _ bc ms _ _ => alternation_flags cfg bc ms
  | _ => True
  end.

(** [train.py] has no alternation: a stacked update sees the
    discriminator frozen and every generator trainable. *)
Definition plain_flags (ev : event) : Prop :=
  match ev with
  | DiscTrain _ _ _ ms _ _ _ => all_trainable ms
  | StackedTrain _ _ _ ms _ _ => trainable (d_model ms) = false /\ frozen_generators ms = []
  | _ => True
  end.

(** What the two scripts share: a critic update sees every flag on, a
    stacked update sees the discriminator frozen. *)
Definition discriminator_frozen_for_generator (ev : event) : Prop :=
  match ev with
  | DiscTrain _ _ _ ms _ _ _ => all_trainable ms
  | StackedTrain _ _ _ ms _ _ => trainable (d_model ms) = false
  | _ => True
  end.

(** The alternation alone. *)
Definition alternation_at_stacked (cfg : config) (ev : event) : Prop :=
  match ev with
  | StackedTrain _ _ bc ms _ _ => alternation_flags cfg bc ms
  | _ => True
  end.

(** *** The target of the stacked update *)

(** The target of every stacked update is [batch_size] times -1. *)
Definition target_is_minus_ones (bs : nat) (ev : event) : Prop :=
  match ev with
  | StackedTrain _ _ _ _ _ target => target = repeat [[(-1)%Q]] bs
  | _ => True
  end.

(** The exception is not an unbound local. *)
Definition not_unbound (e : exn) : Prop := forall v, e <> UnboundLocalError v.

(** How the run of [train.py] ends when the critic loop never runs:
    by the verbose report reading [disc_loss], before the generator
    phase (the discriminator is still trainable), or else by the
    stacked update reading [y_real], inside it (the discriminator is
    left frozen). *)
Definition unbound_before_first_update (cfg : config) {World}
           (o : outcome World unit) : Prop :=
  match o with
  | Ok _ _ _ => False
  | Raise t e s =>
      Forall (fun ev => is_update ev = false) t
      /\ (verbose cfg = true ->
          e = UnboundLocalError "disc_loss"
          /\ trainable (d_model (store s 0%Z)) = true)
      /\ (verbose cfg = false ->
          e = UnboundLocalError "y_real"
          /\ trainable (d_model (store s 0%Z)) = false)
  end.

(** *** Reporting failures *)

(** The event is not a reporting call that raised. *)
Definition report_returned (ev : event) : Prop := is_failed_report ev = false.

(** A reporting call that fails is the last thing the run does: the run
    ends there, by the collaborator's exception.  A run that ends
    normally, or by another exception, has logged no failed report. *)
Definition reporting_failure_ends_run {World A} (o : outcome World A) : Prop :=
  match o with
  | Ok t _ _ => Forall report_returned t
  | Raise t e _ =>
      Forall report_returned t
      \/ exists t0 l ep bc,
          t = t0 ++ [Report l ep bc false]
          /\ Forall report_returned t0
          /\ e = CollaboratorError ReportingCall
  end.

(** Every run of [m] ends that way. *)
Definition report_safe {World A} (m : M World A) : Prop :=
  forall s, reporting_failure_ends_run (m s).

(** *** The schedule of a level *)

(** What the schedule asks of one level: a stacked update per outer
    iteration, [d_iters] critic updates before each. *)
Definition scheduled_stacked (cfg : config) : nat :=
  Z.to_nat (n_epochs cfg) * Z.to_nat (n_batch_per_epoch cfg - 1).

(** The critic updates of one level. *)
Definition scheduled_disc (cfg : config) : nat :=
  Z.to_nat (n_epochs cfg) * (Z.to_nat (n_batch_per_epoch cfg - 1) * Z.to_nat (d_iters cfg)).

(** *** The order of the levels *)

(** Whenever an update of level [l] is in the trace, each level below
    has had all its scheduled updates before it, and has none after. *)
Definition levels_in_order (cfg : config) (t : list event) : Prop :=
  forall t1 ev t2,
    t = t1 ++ ev :: t2 ->
    is_update ev = true ->
    forall l', (0 <= l' < event_level ev)%Z ->
               count_stacked l' t1 = scheduled_stacked cfg
               /\ count_disc l' t1 = scheduled_disc cfg
               /\ count_stacked l' t2 = 0%nat
               /\ count_disc l' t2 = 0%nat.

(** *** The end-to-end scenario *)

(** The critic is updated from clipped weights. *)
Definition clipped_at_critic (wc : Q * Q) (ev : event) : Prop :=
  match ev with
  | DiscTrain _ _ _ ms _ _ _ => all_weights (Np.in_bounds (fst wc) (snd wc)) (d_model ms)
  | _ => True
  end.

(** The run ends normally, with as many critic as stacked updates of
    level 0, each critic update starting from weights within the
    bounds. *)
Definition scenario_outcome (cfg : config) {World} (o : outcome World unit) : Prop :=
  match o with
  | Ok t _ _ =>
      count_disc 0 t = count_stacked 0 t
      /\ Forall (clipped_at_critic (weight_constraint cfg)) t
  | Raise _ _ _ => False
  end.

(** *** How a run ends *)

Definition ends_normally {World A} (o : outcome World A) : Prop :=
  match o with Ok _ _ _ => True | Raise _ _ _ => False end.

(** The run ends by [e], having logged nothing. *)
Definition fails_at_once {World A} (e : exn) (o : outcome World A) : Prop :=
  match o with Ok _ _ _ => False | Raise t e' _ => t = [] /\ e' = e end.

(** *** The schedule of every level *)

(** The updates of every level of the hierarchy are the scheduled
    ones; no other level has any. *)
Definition level_schedule (cfg : config) (t : list event) : Prop :=
  forall l,
    if ((0 <=? l) && (l <? n_levels cfg))%Z
    then count_stacked l t = scheduled_stacked cfg
         /\ count_disc l t = scheduled_disc cfg
    else count_stacked l t = 0%nat /\ count_disc l t = 0%nat.

(** *** Reporting *)

(** The plotting is called only when [verbose] is set. *)
Definition reports_when_verbose (cfg : config) (ev : event) : Prop :=
  match ev with
  | Report _ _ _ _ => verbose cfg = true
  | _ => True
  end.

(** And, in [train.py], only when the counter reaches a multiple of
    25. *)
Definition reports_every_25 (cfg : config) (ev : event) : Prop :=
  match ev with
  | Report _ _ bc _ => verbose cfg = true /\ (bc mod 25 = 0)%Z
  | _ => True
  end.

(** *** The flags at compile time *)

(** The stacked model is compiled while the discriminator is frozen
    and the generators are trainable; every other model is compiled
    with every flag on. *)
Definition compiled_under_flags (ev : event) : Prop :=
  match ev with
  | Compile _ CompiledStacked _ ms =>
      trainable (d_model ms) = false /\ frozen_generators ms = []
  | Compile _ (CompiledRole _) _ ms => all_trainable ms
  | _ => True
  end.

(** *** A generator phase that fails *)

(** A phase that ends by an exception leaves the discriminator of the
    level frozen. *)
Definition left_frozen (level : Z) {World A} (o : outcome World A) : Prop :=
  match o with
  | Ok _ _ _ => True
  | Raise _ _ s => trainable (d_model (store s level)) = false
  end.

(** *** The samples a critic update reads *)

(** A critic update of [train_one_by_one.py] at batch counter [bc] has
    read the samples number [(bc - 1) * batch_size] to
    [bc * batch_size - 1] of the geometry array of its level, placed
    first in its geometry input, and the morphology rows of the same
    numbers, which hold [(n - 1) * batch_size] numbers in all (or
    that product is -1, which lets numpy infer the extent); with a
    positive batch size the geometry array holds at
    least [bc * batch_size] samples. *)
Definition critic_reads_slice (cfg : config) (ev : event) : Prop :=
  match ev with
  | DiscTrain l _ bc _ X_locations _ _ =>
      let select := Np.range2 ((bc - 1) * batch_size cfg) (bc * batch_size cfg) in
      exists n geo mor real rows gen,
        py_index (n_nodes cfg) l = Some n
        /\ geometry (data cfg) n = Some geo
        /\ np_take geo select = Some real
        /\ morphology (data cfg) n = Some mor
        /\ np_take mor select = Some rows
        /\ ((n - 1) * batch_size cfg = -1
            \/ Z.of_nat (List.length (List.concat rows)) = (n - 1) * batch_size cfg)%Z
        /\ X_locations = real ++ gen
        /\ ((0 < batch_size cfg)%Z ->
            (bc * batch_size cfg <= Z.of_nat (List.length geo))%Z)
  | _ => True
  end.

(** *** [train_one_by_one_morphology.py] *)

(** Every event is of level 0. *)
Definition at_level_zero (ev : event) : Prop := event_level ev = 0%Z.

(** The critic is updated from a discriminator whose dense layers are
    clipped. *)
Definition dense_clipped_at_critic (wc : Q * Q) (ev : event) : Prop :=
  match ev with
  | DiscTrain _ _ _ ms _ _ _ =>
      Morphology_clip.dense_weights (Np.in_bounds (fst wc) (snd wc)) (d_model ms)
  | _ => True
  end.

(** Where the two batches of a critic update of the script come from,
    at batch counter [bc]: the real one is what [get_batch] returned
    for the counter, the generated one is what [gen_batch] returned
    next, with the model list as it is at the update. *)
Definition morphology_batch_sources {World} (K : TrainMorphology.Collab World)
           (cfg : config) (bc : Z) (ms : level_models) (real gen : array) : Prop :=
  exists n w w' st w'',
    py_index (n_nodes cfg) 0 = Some n
    /\ TrainMorphology.get_batch K (data cfg) (batch_size cfg) bc n w = Some (real, w')
    /\ TrainMorphology.gen_batch K (batch_size cfg) (n_nodes cfg) 0 (input_dim cfg) st
                                 (rule cfg) w'
       = Some (gen, w'')
    /\ st 0%Z = ms.

(** A critic batch of the script: no geometry input, the real rows
    followed by the generated ones, labelled -1 and +1. *)
Definition morphology_critic_batch {World} (K : TrainMorphology.Collab World)
           (cfg : config) (ev : event) : Prop :=
  match ev with
  | DiscTrain _ _ bc ms X_locations X_parent y =>
      X_locations = []
      /\ exists real gen,
          morphology_batch_sources K cfg bc ms real gen
          /\ X_parent = real ++ gen
          /\ y = repeat [[(-1)%Q]] (List.length real)
                 ++ repeat [[1%Q]] (List.length gen)
  | _ => True
  end.

(** What the script's updates and compilations see of the flags: no
    generator is ever frozen. *)
Definition morphology_flags (ev : event) : Prop :=
  plain_flags ev /\ compiled_under_flags ev.

(** What its critic updates are given. *)
Definition morphology_critic_update {World} (K : TrainMorphology.Collab World)
           (cfg : config) (ev : event) : Prop :=
  morphology_critic_batch K cfg ev
  /\ dense_clipped_at_critic (weight_constraint cfg) ev.

(** *** The sequence of the updates *)

(** An update, with the place of its call. *)
Inductive update :=
| CriticUpdate (level epoch batch_counter : Z)
| StackedUpdate (level epoch batch_counter : Z).

Definition update_of (ev : event) : list update :=
  match ev with
  | DiscTrain l e bc _ _ _ _ => [CriticUpdate l e bc]
  | StackedTrain l e bc _ _ _ => [StackedUpdate l e bc]
  | _ => []
  end.

(** The updates of a trace, in order. *)
Definition updates (t : list event) : list update := flat_map update_of t.

(** One pass of the [while] loop: [d_iters] critic updates, then one
    stacked update. *)
Definition pass_updates (cfg : config) (l e bc : Z) : list update :=
  repeat (CriticUpdate l e bc) (Z.to_nat (d_iters cfg)) ++ [StackedUpdate l e bc].

(** An epoch: the passes at the batch counters 1 to
    [n_batch_per_epoch - 1]. *)
Definition epoch_updates (cfg : config) (l e : Z) : list update :=
  flat_map (pass_updates cfg l e) (Np.range2 1 (n_batch_per_epoch cfg)).

Definition level_updates (cfg : config) (l : Z) : list update :=
  flat_map (epoch_updates cfg l) (Np.range (n_epochs cfg)).

Definition run_updates (cfg : config) : list update :=
  flat_map (level_updates cfg) (Np.range (n_levels cfg)).

(** A run of [m] that ends normally has made the updates [us], in that
    order, and returns a value satisfying [V]. *)
Definition yields {World A} (m : M World A) (us : list update) (V : A -> Prop)
  : Prop :=
  forall s, match m s with
            | Ok t a _ => updates t = us /\ V a
            | Raise _ _ _ => True
            end.

(** * Properties *)

(** ** Clipping: elementwise facts *)

Lemma Qmax_cases (x y : Q) :
  (Qmax x y = y /\ (x < y)%Q) \/ (Qmax x y = x /\ (y <= x)%Q).
Proof.
  unfold Qmax, GenericMinMax.gmax.
  destruct (x ?= y)%Q eqn:E.
  - right. split; [reflexivity|]. apply Qeq_alt in E. rewrite E. apply Qle_refl.
  - left. split; [reflexivity|]. now apply Qlt_alt.
  - right. split; [reflexivity|]. apply Qgt_alt in E. now apply Qlt_le_weak.
Qed.

Lemma Qmin_cases (x y : Q) :
  (Qmin x y = x /\ (x <= y)%Q) \/ (Qmin x y = y /\ (y < x)%Q).
Proof.
  unfold Qmin, GenericMinMax.gmin.
  destruct (x ?= y)%Q eqn:E.
  - left. split; [reflexivity|]. apply Qeq_alt in E. rewrite E. apply Qle_refl.
  - left. split; [reflexivity|]. apply Qlt_alt in E. now apply Qlt_le_weak.
  - right. split; [reflexivity|]. now apply Qgt_alt.
Qed.

Ltac is_atom t :=
  lazymatch t with
  | context [Qmax _ _] => fail
  | context [Qmin _ _] => fail
  | _ => idtac
  end.

Ltac split_minmax :=
  repeat match goal with
         | |- context [Qmax ?a ?b] =>
             is_atom a; is_atom b;
             destruct (Qmax_cases a b) as [[-> ?] | [-> ?]]
         | |- context [Qmin ?a ?b] =>
             is_atom a; is_atom b;
             destruct (Qmin_cases a b) as [[-> ?] | [-> ?]]
         end.

Lemma clip1_in_bounds (lo hi x : Q) :
  (lo <= hi)%Q -> Np.in_bounds lo hi (Np.clip1 lo hi x).
Proof.
  intros Hle. unfold Np.clip1, Np.in_bounds. split_minmax; split; lra.
Qed.

Lemma clip1_fixed (lo hi x : Q) :
  Np.clip1 lo hi (Np.clip1 lo hi x) = Np.clip1 lo hi x.
Proof.
  unfold Np.clip1. split_minmax; try reflexivity; exfalso; lra.
Qed.

(** ** Weight clipping ([clip_weights]) *)

Lemma clip_layer_weights (wc : Q * Q) (l : Layer) :
  Train_clip.clip_layer wc l
  = mkLayer (name l) (map (map (Np.clip1 (fst wc) (snd wc))) (weights l)).
Proof. reflexivity. Qed.

Lemma clip_layer_in_bounds (a b : Q) (l : Layer) :
  (a <= b)%Q ->
  Forall (Forall (Np.in_bounds a b)) (weights (Train_clip.clip_layer (a, b) l)).
Proof.
  intros Hab. rewrite clip_layer_weights. cbn [weights fst snd].
  apply Forall_map, Forall_forall. intros w _.
  apply Forall_map, Forall_forall. intros x _.
  now apply clip1_in_bounds.
Qed.

Lemma clip_layer_fixed (wc : Q * Q) (l : Layer) :
  Train_clip.clip_layer wc (Train_clip.clip_layer wc l) = Train_clip.clip_layer wc l.
Proof.
  rewrite !clip_layer_weights. cbn [name weights]. f_equal.
  rewrite map_map. apply map_ext. intros w.
  rewrite map_map. apply map_ext. intros x. apply clip1_fixed.
Qed.

Lemma clip_weights_in_bounds (a b : Q) (model : Model) :
  (a <= b)%Q ->
  all_weights (Np.in_bounds a b) (Train_clip.clip_weights model (a, b)).
Proof.
  intros Hab. unfold all_weights, Train_clip.clip_weights. cbn [layers set_layers].
  apply Forall_map, Forall_forall. intros l _. now apply clip_layer_in_bounds.
Qed.

Lemma clip_weights_fixed (wc : Q * Q) (model : Model) :
  Train_clip.clip_weights (Train_clip.clip_weights model wc) wc
  = Train_clip.clip_weights model wc.
Proof.
  unfold Train_clip.clip_weights, set_layers. cbn [layers trainable]. f_equal.
  rewrite map_map. apply map_ext. intros l. apply clip_layer_fixed.
Qed.

Lemma one_by_one_clip_is_train_clip (wc : Q * Q) (model : Model) :
  TrainOneByOne_clip.clip_weights model wc = Train_clip.clip_weights model wc.
Proof. reflexivity. Qed.

Lemma morphology_clip_fixed (wc : Q * Q) (model : Model) :
  Morphology_clip.clip_weights (Morphology_clip.clip_weights model wc) wc
  = Morphology_clip.clip_weights model wc.
Proof.
  unfold Morphology_clip.clip_weights, set_layers. cbn [layers trainable]. f_equal.
  rewrite map_map. apply map_ext. intros l.
  cbv beta. destruct (Np.str_in "dense" (name l)) eqn:E.
  - change (name (Train_clip.clip_layer wc l)) with (name l). rewrite E.
    apply clip_layer_fixed.
  - now rewrite E.
Qed.

Lemma morphology_clip_dense_in_bounds (a b : Q) (model : Model) :
  (a <= b)%Q ->
  Morphology_clip.dense_weights (Np.in_bounds a b)
                                (Morphology_clip.clip_weights model (a, b)).
Proof.
  intros Hab. unfold Morphology_clip.dense_weights, Morphology_clip.clip_weights.
  cbn [layers set_layers]. apply Forall_map, Forall_forall. intros l _.
  destruct (Np.str_in "dense" (name l)) eqn:E.
  - intros _. now apply clip_layer_in_bounds.
  - intros H. congruence.
Qed.

(** C5, as the scripts have it.  [train.py] (and [train_one_by_one.py],
    whose guard is [if True]) replaces every element of every weight
    array of every layer by [min(max(element, a), b)], keeps the layers
    and their names, and leaves the [trainable] flag alone; with
    [a <= b] every weight then lies in [[a, b]]; a second application
    changes nothing.  [train_one_by_one_morphology.py] does the same to
    the layers whose name contains ['dense'] only and returns every other
    layer as it was; its clipped layers lie in [[a, b]] and it is
    idempotent as well. *)
Theorem C5_clip_weights_per_script (model : Model) (a b : Q) :
  (layers (Train_clip.clip_weights model (a, b))
   = map (fun l => mkLayer (name l)
                     (map (map (fun x => Qmin (Qmax x a) b)) (weights l)))
         (layers model)
   /\ trainable (Train_clip.clip_weights model (a, b)) = trainable model
   /\ TrainOneByOne_clip.clip_weights model (a, b)
      = Train_clip.clip_weights model (a, b)
   /\ ((a <= b)%Q ->
       all_weights (Np.in_bounds a b) (Train_clip.clip_weights model (a, b)))
   /\ Train_clip.clip_weights (Train_clip.clip_weights model (a, b)) (a, b)
      = Train_clip.clip_weights model (a, b))
  /\
  (layers (Morphology_clip.clip_weights model (a, b))
   = map (fun l => if Np.str_in "dense" (name l)
                   then mkLayer (name l)
                          (map (map (fun x => Qmin (Qmax x a) b)) (weights l))
                   else l)
         (layers model)
   /\ trainable (Morphology_clip.clip_weights model (a, b)) = trainable model
   /\ ((a <= b)%Q ->
       Morphology_clip.dense_weights (Np.in_bounds a b)
                                     (Morphology_clip.clip_weights model (a, b)))
   /\ Morphology_clip.clip_weights (Morphology_clip.clip_weights model (a, b)) (a, b)
      = Morphology_clip.clip_weights model (a, b)).
Proof.
  split; [split; [| split; [| split; [| split]]] | split; [| split; [| split]]].
  - reflexivity.
  - reflexivity.
  - apply one_by_one_clip_is_train_clip.
  - apply clip_weights_in_bounds.
  - apply clip_weights_fixed.
  - reflexivity.
  - reflexivity.
  - apply morphology_clip_dense_in_bounds.
  - apply morphology_clip_fixed.
Qed.

(** C5 at a concrete model and the bounds [[-1, 1]]. *)
Lemma C5_clip_weights_witness :
  (-1 <= 1)%Q
  /\ all_weights (Np.in_bounds (-1) 1)
                 (Train_clip.clip_weights Sample.lstm_dense_model (-1, 1)%Q)
  /\ Morphology_clip.dense_weights
       (Np.in_bounds (-1) 1)
       (Morphology_clip.clip_weights Sample.lstm_dense_model (-1, 1)%Q).
Proof.
  assert (H : (-1 <= 1)%Q) by (vm_compute; discriminate).
  split; [exact H |].
  destruct (C5_clip_weights_per_script Sample.lstm_dense_model (-1) 1)
    as [[_ [_ [_ [Hin _]]]] [_ [_ [Hdense _]]]].
  split; [exact (Hin H) | exact (Hdense H)].
Defined.

(** C5 as stated fails for [train_one_by_one_morphology.py]: a layer
    named ['lstm_1'] keeps its weights 5 and -7 under the bounds
    [[-1, 1]]. *)
Lemma C5_morphology_counterexample :
  layers (Morphology_clip.clip_weights Sample.lstm_dense_model Sample.unit_bounds)
  = [mkLayer "lstm_1" [[5%Q; (-7)%Q]]; mkLayer "dense_1" [[1%Q]; [(-1)%Q; (1#2)%Q]]]
  /\ ~ all_weights (Np.in_bounds (-1) 1)
         (Morphology_clip.clip_weights Sample.lstm_dense_model Sample.unit_bounds).
Proof.
  split; [reflexivity |].
  intros H. unfold all_weights in H. cbn in H.
  inversion H as [| l ls Hl _]; subst.
  inversion Hl as [| w ws Hw _]; subst.
  inversion Hw as [| x xs Hx _]; subst.
  destruct Hx as [_ Hx]. vm_compute in Hx. now apply Hx.
Qed.

(** ** The stacked-model composer ([discriminator_on_generators]) *)

Import ModelsJointEmbedding.

(** Under ['mgd'], with or without context, the composer follows the
    factorization P(g|m) P(m). *)
Lemma composer_mgd_wired (model : Type) (g cg m cm d : model)
      (input_dim n_in n_out : Z) (use_context : bool) :
  exists sm,
    discriminator_on_generators g cg m cm d "mgd" input_dim n_in n_out use_context
    = inr sm
    /\ wired_as_factorization g cg m cm d "mgd" sm.
Proof.
  destruct use_context; eexists; (split; [reflexivity | reflexivity]).
Qed.

(** Under ['gmd'] with context it follows P(m|g) P(g). *)
Lemma composer_gmd_context_wired (model : Type) (g cg m cm d : model)
      (input_dim n_in n_out : Z) :
  exists sm,
    discriminator_on_generators g cg m cm d "gmd" input_dim n_in n_out true = inr sm
    /\ wired_as_factorization g cg m cm d "gmd" sm.
Proof. eexists; split; reflexivity. Qed.

(** Any other rule leaves [geometry_output] unbound. *)
Lemma composer_unknown_rule (model : Type) (g cg m cm d : model)
      (rule : string) (input_dim n_in n_out : Z) (use_context : bool) :
  (rule =? "mgd")%string = false -> (rule =? "gmd")%string = false ->
  discriminator_on_generators g cg m cm d rule input_dim n_in n_out use_context
  = inl (UnboundLocalError "geometry_output").
Proof.
  intros H1 H2. unfold discriminator_on_generators. now rewrite H1, H2.
Qed.

(** C1 at ['gmd'] without context (lines 576-581): the tensor bound to
    [geometry_output] is the output of the morphology generator on the
    noise; the geometry generator is not called.  With the five roles
    as the five models, the stacked model is not the one the
    factorization P(m|g) P(g) describes. *)
Theorem C1_gmd_without_context_calls_morphology_model (input_dim n_in n_out : Z) :
  discriminator_on_generators Geom CondGeom Morph CondMorph Disc
                              "gmd" input_dim n_in n_out false
  = inr (mkStacked
           [Input role 0 [1; input_dim]%Z (Some "noise_input"%string)]
           [Call Disc
                 [Call Morph [Input role 0 [1; input_dim]%Z (Some "noise_input"%string)];
                  Call CondMorph
                       [Input role 0 [1; input_dim]%Z (Some "noise_input"%string);
                        Call Morph
                             [Input role 0 [1; input_dim]%Z
                                    (Some "noise_input"%string)]]]])
  /\ ~ (exists sm,
          discriminator_on_generators Geom CondGeom Morph CondMorph Disc
                                      "gmd" input_dim n_in n_out false = inr sm
          /\ wired_as_factorization Geom CondGeom Morph CondMorph Disc "gmd" sm).
Proof.
  split; [reflexivity |].
  intros [sm [Hrun Hwired]].
  cbv in Hrun. injection Hrun as <-.
  cbv in Hwired. discriminate Hwired.
Qed.

(** ** Reasoning about runs *)

Section Logic.

Variable World : Type.

Lemma triple_ret {A} (P : state World -> Prop) (a : A) phi
      (Q : A -> state World -> Prop) E :
  (forall s, P s -> Q a s) -> triple P (ret a) phi Q E.
Proof. intros H s Hs. cbn. auto. Qed.

Lemma triple_bind {A B} (P : state World -> Prop) (m : M World A)
      (k : A -> M World B) phi (Q1 : A -> state World -> Prop) Q E :
  triple P m phi Q1 E ->
  (forall a, triple (Q1 a) (k a) phi Q E) ->
  triple P (bind m k) phi Q E.
Proof.
  intros Hm Hk s Hs. unfold bind. specialize (Hm s Hs).
  destruct (m s) as [t a s' | t e s']; [| exact Hm].
  destruct Hm as [Ht Hq]. specialize (Hk a s' Hq).
  destruct (k a s') as [t' b s'' | t' e s'']; cbn;
    destruct Hk as [Ht' Hpost]; (split; [apply Forall_app; auto | exact Hpost]).
Qed.

Lemma triple_conseq {A} (P P' : state World -> Prop) (m : M World A)
      (phi phi' : event -> Prop) (Q Q' : A -> state World -> Prop)
      (E E' : exn -> state World -> Prop) :
  triple P' m phi' Q' E' ->
  (forall s, P s -> P' s) ->
  (forall ev, phi' ev -> phi ev) ->
  (forall a s, Q' a s -> Q a s) ->
  (forall e s, E' e s -> E e s) ->
  triple P m phi Q E.
Proof.
  intros H HP Hphi HQ HE s Hs. specialize (H s (HP s Hs)).
  destruct (m s); destruct H as [Ht Hpost];
    (split; [eapply Forall_impl; eauto | auto]).
Qed.

(** A loop over a list keeps an invariant its body keeps. *)
Lemma triple_for_each (I : state World -> Prop) (xs : list Z)
      (body : Z -> M World unit) phi E :
  (forall x, In x xs -> triple I (body x) phi (fun _ => I) E) ->
  triple I (for_each xs body) phi (fun _ => I) E.
Proof.
  induction xs as [| x xs IH]; intros Hbody.
  - apply triple_ret. auto.
  - cbn [for_each]. eapply triple_bind.
    + apply Hbody. now left.
    + intros []. apply IH. intros y Hy. apply Hbody. now right.
Qed.

(** So does the [while] loop.  The body is run at counters from [lo]
    on that pass the test, and ends with the incremented counter; with
    more fuel than passes left the fuel does not run out. *)
Lemma triple_while (I : state World -> Prop) (n lo : Z)
      (body : Z -> M World Z) phi E :
  (forall c, (lo <= c)%Z -> (c < n)%Z ->
             triple I (body c) phi (fun r s => I s /\ r = (c + 1)%Z) E) ->
  forall (fuel : nat) (bc : Z),
    (lo <= bc)%Z -> (Z.to_nat (n - bc) < fuel)%nat ->
    triple I (while_batches fuel n body bc) phi (fun _ => I) E.
Proof.
  intros Hbody. induction fuel as [| fuel IH]; intros bc Hlo Hfuel; [lia |].
  cbn [while_batches]. destruct (bc <? n)%Z eqn:Hlt.
  - apply Z.ltb_lt in Hlt. eapply triple_bind; [apply Hbody; assumption |].
    intros c s [Hs ->]. apply IH; [lia | lia | exact Hs].
  - apply triple_ret. auto.
Qed.

Lemma triple_top {A} (m : M World A) :
  triple (fun _ => True) m (fun _ => True) (fun _ _ => True) (fun _ _ => True).
Proof.
  intros s _. destruct (m s); (split; [apply Forall_forall; auto | exact I]).
Qed.

(** A fact about the value a run returns, added to what a triple says. *)
Lemma triple_value {A} (P : state World -> Prop) (m : M World A) phi Q E
      (V : A -> Prop) :
  triple P m phi Q E ->
  triple (fun _ => True) m (fun _ => True) (fun r _ => V r) (fun _ _ => True) ->
  triple P m phi (fun r s => Q r s /\ V r) E.
Proof.
  intros H HV s Hs. specialize (H s Hs). specialize (HV s I).
  destruct (m s); tauto.
Qed.

(** The events of a run that satisfies a triple. *)
Lemma triple_trace {A} (P : state World -> Prop) (m : M World A) phi Q E s :
  triple P m phi Q E -> P s -> Forall phi (trace_of (m s)).
Proof.
  intros H Hs. specialize (H s Hs). destruct (m s); cbn; tauto.
Qed.

End Logic.

(** ** Joining batches *)

(** What [np.concatenate] returns is the first array followed by the
    second. *)
Lemma concatenate_some (a b x : Np.tensor3) :
  Np.concatenate a b = Some x -> x = a ++ b.
Proof.
  unfold Np.concatenate.
  destruct (forallb _ _); [| discriminate]. now intros [= <-].
Qed.

Lemma has_shape_of_first (r c : nat) (s0 s : list (list Q)) :
  Np.has_shape (r, c) s0 = true -> Np.has_shape (r, c) s = true ->
  Np.has_shape (Np.sample_shape s0) s = true.
Proof.
  unfold Np.has_shape, Np.sample_shape. cbn [fst snd].
  intros H0 H. apply andb_true_iff in H0. destruct H0 as [Hr0 Hc0].
  apply Nat.eqb_eq in Hr0.
  destruct s0 as [| row rest].
  - cbn in Hr0. subst r. apply andb_true_iff in H. destruct H as [Hr _].
    apply Nat.eqb_eq in Hr. destruct s; [reflexivity | discriminate].
  - cbn [forallb] in Hc0. apply andb_true_iff in Hc0. destruct Hc0 as [Hc _].
    apply Nat.eqb_eq in Hc. cbn [hd]. rewrite Hc, Hr0. exact H.
Qed.

(** Two arrays of one shape are joined. *)
Lemma concatenate_of_shape (r c : nat) (a b : Np.tensor3) :
  Np.of_shape r c a -> Np.of_shape r c b -> Np.concatenate a b = Some (a ++ b).
Proof.
  unfold Np.of_shape, Np.concatenate. intros Ha Hb.
  assert (Hall : Forall (fun s => Np.has_shape (r, c) s = true) (a ++ b))
    by (apply Forall_app; auto).
  cbv zeta. destruct (a ++ b) as [| s0 rest] eqn:Hj; [reflexivity |].
  cbn [hd].
  assert (Hsome : forallb (Np.has_shape (Np.sample_shape s0)) (s0 :: rest) = true).
  { apply forallb_forall. intros s Hs.
    rewrite Forall_forall in Hall.
    apply has_shape_of_first with (r := r) (c := c); apply Hall; [now left | exact Hs]. }
  now rewrite Hsome.
Qed.

Lemma of_shape_repeat (r c : nat) (s : list (list Q)) (n : nat) :
  Np.has_shape (r, c) s = true -> Np.of_shape r c (repeat s n).
Proof.
  intros H. unfold Np.of_shape. apply Forall_forall.
  intros x Hx. apply repeat_spec in Hx. now subst.
Qed.

Lemma neg_ones (n : nat) : Np.neg (Np.ones n) = repeat [[(-1)%Q]] n.
Proof.
  unfold Np.neg, Np.ones. induction n as [| n IH]; [reflexivity |].
  cbn [repeat map]. now rewrite IH.
Qed.

Lemma scaled_ones (c : Q) (n : nat) :
  np_scale c (Np.ones n) = repeat [[(c * 1)%Q]] n.
Proof.
  unfold np_scale, Np.ones. induction n as [| n IH]; [reflexivity |].
  cbn [repeat map]. now rewrite IH.
Qed.

(** The label arrays, of shape [(_, 1, 1)], are always joined. *)
Lemma concatenate_labels (n m : nat) :
  Np.concatenate (Np.neg (Np.ones n)) (Np.ones m)
  = Some (Np.neg (Np.ones n) ++ Np.ones m).
Proof.
  apply concatenate_of_shape with (r := 1%nat) (c := 1%nat).
  - rewrite neg_ones. now apply of_shape_repeat.
  - now apply of_shape_repeat.
Qed.

Lemma concatenate_scaled_labels (n m : nat) :
  Np.concatenate (np_scale (-1) (Np.ones n)) (np_scale 1 (Np.ones m))
  = Some (np_scale (-1) (Np.ones n) ++ np_scale 1 (Np.ones m)).
Proof.
  apply concatenate_of_shape with (r := 1%nat) (c := 1%nat);
    rewrite scaled_ones; now apply of_shape_repeat.
Qed.

Lemma np_take_in {A} (arr : list A) (select : list Z) (xs : list A) :
  np_take arr select = Some xs -> Forall (fun x => In x arr) xs.
Proof.
  revert xs. induction select as [| i rest IH]; intros xs H; cbn in H.
  - inversion H. constructor.
  - destruct (py_index arr i) as [x |] eqn:Hx; [| discriminate].
    destruct (np_take arr rest); [| discriminate].
    inversion H; subst. constructor; [| now apply IH].
    unfold py_index in Hx. destruct (_ && _)%bool; [| discriminate].
    eapply nth_error_In; eassumption.
Qed.

(** A slice of an array of one shape has that shape. *)
Lemma np_take_of_shape (r c : nat) (arr : Np.tensor3) (select : list Z)
      (xs : Np.tensor3) :
  Np.of_shape r c arr -> np_take arr select = Some xs -> Np.of_shape r c xs.
Proof.
  unfold Np.of_shape. intros Harr H. apply np_take_in in H.
  rewrite Forall_forall in *. intros x Hx. apply Harr. now apply H.
Qed.

Lemma np_take_length {A} (arr : list A) (select : list Z) (xs : list A) :
  np_take arr select = Some xs -> List.length xs = List.length select.
Proof.
  revert xs. induction select as [| i rest IH]; intros xs H; cbn in H.
  - now inversion H.
  - destruct (py_index arr i); [| discriminate].
    destruct (np_take arr rest); [| discriminate].
    inversion H; subst. cbn. f_equal. now apply IH.
Qed.

Lemma select_length (bc bs : Z) :
  List.length (Np.range2 ((bc - 1) * bs) (bc * bs)) = Z.to_nat bs.
Proof.
  unfold Np.range2. rewrite length_map, length_seq. f_equal. ring.
Qed.

(** So are two arrays that agree in shape. *)
Lemma concatenate_agree (a b : Np.tensor3) :
  Np.agree a b -> Np.concatenate a b = Some (a ++ b).
Proof.
  intros [_ [_ [r [c [_ [Ha Hb]]]]]]. now apply concatenate_of_shape with (r := r) (c := c).
Qed.

(** Copies of a sample of [r >= 1] rows agree with copies of it. *)
Lemma agree_repeat (r c : nat) (s : list (list Q)) (n m : nat) :
  Np.has_shape (r, c) s = true -> (0 < r)%nat -> (0 < n)%nat -> (0 < m)%nat ->
  Np.agree (repeat s n) (repeat s m).
Proof.
  intros Hs Hr Hn Hm. split; [| split].
  - destruct n; [lia | discriminate].
  - destruct m; [lia | discriminate].
  - exists r, c. split; [exact Hr |]. split; now apply of_shape_repeat.
Qed.

(** A join of two batches that agree has not failed. *)
Ltac absurd_join :=
  match goal with
  | H : Np.agree ?a ?b, Hnone : Np.concatenate ?a ?b = None |- _ =>
      rewrite (concatenate_agree H) in Hnone; discriminate
  end.

(** Unfolds the primitives of the run monad in a goal. *)
Ltac run_step :=
  unfold set_flag, put_models, update_models, get_models, reporting, or_raise,
    call, read_local, emit, modify, gets, raise, ret, bind;
  cbn [prepend store world y_real disc_loss X_locations_gen X_prufer_gen
       X_prufer_real list_d_loss list_g_loss
       with_store with_world with_y_real with_disc_loss with_gen with_prufer_real
       with_loss_lists app trace_of final_state];
  rewrite ?Z.eqb_refl.

(** The same, with the label arrays joined. *)
Ltac run_cbn :=
  run_step;
  repeat (progress (rewrite ?concatenate_labels, ?concatenate_scaled_labels);
          cbv iota beta; run_step).

(** One step of a run: the next test the run branches on is decided. *)
Ltac run_case :=
  match goal with
  | |- context [match ?x with (_, _) => _ end] => destruct x
  | |- context [if ?b then _ else _] =>
      let H := fresh "Hif" in destruct b eqn:H
  | |- context [match ?o with Some _ => _ | None => _ end] =>
      let H := fresh "Hcall" in destruct o eqn:H
  end.

Ltac run_exec := run_cbn; repeat (run_case; run_cbn).

(** A leaf of the program that logs nothing of interest. *)
Ltac trivial_leaf :=
  let s := fresh "s" in
  intros s ?; run_exec; (split; [repeat constructor | auto]).

(** ** The shape of [train_model]: what holds of its parts holds of it *)

Lemma in_range (n x : Z) : In x (Np.range n) -> (0 <= x < n)%Z.
Proof.
  unfold Np.range. rewrite in_map_iff. intros [i [<- Hi]].
  apply in_seq in Hi. lia.
Qed.

Section Skeleton.

Variable World : Type.

Lemma train_outer_iteration_triple (K : Train.Collab World) (cfg : config)
      (I J1 J2 J3 : state World -> Prop) phi E l e bc :
  (forall s, I s -> J1 (with_loss_lists [] [] s)) ->
  triple J1 (Train.critic_phase K cfg l e bc) phi (fun _ => J2) E ->
  triple J2 (Train.report_disc_loss cfg) phi (fun _ => J2) E ->
  triple J2 (Train.generator_phase K cfg l e bc) phi (fun _ => J3) E ->
  triple J3 (Train.housekeeping K cfg l e bc) phi (fun _ => I) E ->
  triple I (Train.outer_iteration K cfg l e bc) phi (fun _ => I) E.
Proof.
  intros H0 H1 H2 H3 H4. unfold Train.outer_iteration.
  eapply triple_bind with (Q1 := fun _ => J1).
  { intros s Hs. cbn. auto. }
  intros []. eapply triple_bind; [exact H1 |].
  intros []. eapply triple_bind; [exact H2 |].
  intros []. eapply triple_bind; [exact H3 |].
  intros []. exact H4.
Qed.

(** An outer iteration ends with the counter incremented by one. *)
Lemma train_outer_iteration_counter (K : Train.Collab World) (cfg : config) l e bc :
  triple (fun _ => True) (Train.outer_iteration K cfg l e bc) (fun _ => True)
         (fun r _ => r = (bc + 1)%Z) (fun _ _ => True).
Proof.
  unfold Train.outer_iteration.
  eapply triple_bind; [apply triple_top |].
  intros []. eapply triple_bind; [apply triple_top |].
  intros []. eapply triple_bind; [apply triple_top |].
  intros []. eapply triple_bind; [apply triple_top |].
  intros []. unfold Train.housekeeping.
  eapply triple_bind; [apply triple_top |].
  intros []. apply triple_ret. reflexivity.
Qed.

Lemma train_model_triple (K : Train.Collab World) (cfg : config)
      (I : state World -> Prop) phi E :
  (forall l, In l (Np.range (n_levels cfg)) ->
             triple I (Train.setup_level K cfg l) phi (fun _ => I) E) ->
  (forall l, In l (Np.range (n_levels cfg)) ->
             triple I (Train.compile_level K cfg l) phi (fun _ => I) E) ->
  (forall l e bc,
      In l (Np.range (n_levels cfg)) -> In e (Np.range (n_epochs cfg)) ->
      (1 <= bc < n_batch_per_epoch cfg)%Z ->
      triple I (Train.outer_iteration K cfg l e bc) phi (fun _ => I) E) ->
  triple I (Train.train_model K cfg) phi (fun _ => I) E.
Proof.
  intros Hsetup Hcompile Hiter. unfold Train.train_model.
  eapply triple_bind; [apply triple_for_each; intros; apply Hsetup; assumption |].
  intros []. apply triple_for_each. intros l Hl. unfold Train.train_level.
  eapply triple_bind; [apply Hcompile; assumption |].
  intros []. apply triple_for_each. intros e He. unfold Train.epoch.
  apply triple_while with (lo := 1%Z); [| lia | lia].
  intros c Hc1 Hc2. apply triple_value.
  - apply Hiter; auto; lia.
  - apply train_outer_iteration_counter.
Qed.

Lemma one_by_one_outer_iteration_triple (K : TrainOneByOne.Collab World) (cfg : config)
      (I J1 J2 J3 : state World -> Prop) phi E l e bc :
  (forall s, I s -> J1 (with_loss_lists [] [] s)) ->
  triple J1 (TrainOneByOne.critic_phase K cfg l e bc) phi (fun _ => J2) E ->
  triple J2 (TrainOneByOne.report_disc_loss cfg) phi (fun _ => J2) E ->
  triple J2 (TrainOneByOne.generator_phase K cfg l e bc) phi (fun _ => J3) E ->
  triple J3 (TrainOneByOne.housekeeping K cfg l e bc) phi (fun _ => I) E ->
  triple I (TrainOneByOne.outer_iteration K cfg l e bc) phi (fun _ => I) E.
Proof.
  intros H0 H1 H2 H3 H4. unfold TrainOneByOne.outer_iteration.
  eapply triple_bind with (Q1 := fun _ => J1).
  { intros s Hs. cbn. auto. }
  intros []. eapply triple_bind; [exact H1 |].
  intros []. eapply triple_bind; [exact H2 |].
  intros []. eapply triple_bind; [exact H3 |].
  intros []. exact H4.
Qed.

Lemma one_by_one_outer_iteration_counter (K : TrainOneByOne.Collab World)
      (cfg : config) l e bc :
  triple (fun _ => True) (TrainOneByOne.outer_iteration K cfg l e bc) (fun _ => True)
         (fun r _ => r = (bc + 1)%Z) (fun _ _ => True).
Proof.
  unfold TrainOneByOne.outer_iteration.
  eapply triple_bind; [apply triple_top |].
  intros []. eapply triple_bind; [apply triple_top |].
  intros []. eapply triple_bind; [apply triple_top |].
  intros []. eapply triple_bind; [apply triple_top |].
  intros []. unfold TrainOneByOne.housekeeping.
  eapply triple_bind; [apply triple_top |].
  intros []. eapply triple_bind; [apply triple_top |].
  intros []. apply triple_ret. reflexivity.
Qed.

Lemma one_by_one_model_triple (K : TrainOneByOne.Collab World) (cfg : config)
      (I : state World -> Prop) phi E :
  (forall l, In l (Np.range (n_levels cfg)) ->
             triple I (TrainOneByOne.setup_level K cfg l) phi (fun _ => I) E) ->
  (forall l, In l (Np.range (n_levels cfg)) ->
             triple I (TrainOneByOne.compile_level K cfg l) phi (fun _ => I) E) ->
  (forall l e bc,
      In l (Np.range (n_levels cfg)) -> In e (Np.range (n_epochs cfg)) ->
      (1 <= bc < n_batch_per_epoch cfg)%Z ->
      triple I (TrainOneByOne.outer_iteration K cfg l e bc) phi (fun _ => I) E) ->
  triple I (TrainOneByOne.train_model K cfg) phi (fun _ => I) E.
Proof.
  intros Hsetup Hcompile Hiter. unfold TrainOneByOne.train_model.
  eapply triple_bind; [apply triple_for_each; intros; apply Hsetup; assumption |].
  intros []. apply triple_for_each. intros l Hl. unfold TrainOneByOne.train_level.
  eapply triple_bind; [apply Hcompile; assumption |].
  intros []. apply triple_for_each. intros e He. unfold TrainOneByOne.epoch.
  apply triple_while with (lo := 1%Z); [| lia | lia].
  intros c Hc1 Hc2. apply triple_value.
  - apply Hiter; auto; lia.
  - apply one_by_one_outer_iteration_counter.
Qed.

End Skeleton.

(** ** The critic batch and its labels *)

Section TrainBatches.

Variable World : Type.
Variable K : Train.Collab World.
Variable cfg : config.

Hypothesis get_batch_rows :
  forall td bs bc n w Xl Xp w',
    Train.get_batch K td bs bc n w = Some ((Xl, Xp), w') ->
    List.length Xl = Z.to_nat bs /\ List.length Xp = Z.to_nat bs.

Hypothesis gen_batch_rows :
  forall bs ns l d st w Xl Xp w',
    Train.gen_batch K bs ns l d st w = Some ((Xl, Xp), w') ->
    List.length Xl = Z.to_nat bs /\ List.length Xp = Z.to_nat bs.

Let phi := critic_batches (train_batch_sources K cfg) (Z.to_nat (batch_size cfg)).
Let top := fun _ : state World => True.
Let any := fun (_ : exn) (_ : state World) => True.

Lemma train_critic_iteration_batches l e bc :
  triple top (Train.critic_iteration K cfg l e bc) phi (fun _ => top) any.
Proof.
  intros s _. unfold Train.critic_iteration. run_exec;
    (split; [| exact I]); try solve [constructor].
  constructor; [| constructor].
  repeat match goal with
         | H : Np.concatenate _ _ = Some _ |- _ => apply concatenate_some in H; subst
         end.
  match goal with
  | Hn : py_index _ _ = Some ?n,
    Hget : Train.get_batch _ _ _ _ _ _ = Some (?Xlr, ?Xpr, _),
    Hgen : Train.gen_batch _ _ _ _ _ _ _ = Some (?Xlg, ?Xpg, _) |- _ =>
      destruct (get_batch_rows _ _ _ _ _ Hget) as [? ?];
      destruct (gen_batch_rows _ _ _ _ _ _ Hgen) as [? ?];
      exists Xlr, Xpr, Xlg, Xpg; split;
      [ eexists n, _, _, _, _; repeat split;
        [exact Hn | exact Hget | exact Hgen
         | cbv beta; now rewrite ?Z.eqb_refl]
      | repeat (split; [reflexivity || assumption |]) ]
  end.
  rewrite neg_ones. unfold Np.ones. congruence.
Qed.

Lemma train_run_batches w : Forall phi (trace_of (Train.run K cfg w)).
Proof.
  unfold Train.run. eapply triple_trace with (P := top); [| exact I].
  apply train_model_triple with (E := any).
  - intros l _. unfold Train.setup_level. trivial_leaf.
  - intros l _. unfold Train.compile_level, Train.do_compile. trivial_leaf.
  - intros l e bc _ _ _.
    apply train_outer_iteration_triple with (J1 := top) (J2 := top) (J3 := top).
    + intros; exact I.
    + apply triple_for_each. intros _ _. apply train_critic_iteration_batches.
    + unfold Train.report_disc_loss. trivial_leaf.
    + unfold Train.generator_phase. trivial_leaf.
    + unfold Train.housekeeping. trivial_leaf.
Qed.

End TrainBatches.

Section OneByOneBatches.

Variable World : Type.
Variable K : TrainOneByOne.Collab World.
Variable cfg : config.

Hypothesis get_batch_rows :
  forall cut bs n w Xp w',
    TrainOneByOne.get_batch K cut bs n w = Some (Xp, w') ->
    List.length Xp = Z.to_nat bs.

Hypothesis gen_batch_rows :
  forall bs ns l d st r w Xl Xp w',
    TrainOneByOne.gen_batch K bs ns l d st r w = Some ((Xl, Xp), w') ->
    List.length Xl = Z.to_nat bs /\ List.length Xp = Z.to_nat bs.

Let phi :=
  critic_batches (one_by_one_batch_sources K cfg) (Z.to_nat (batch_size cfg)).
Let top := fun _ : state World => True.
Let any := fun (_ : exn) (_ : state World) => True.

Lemma one_by_one_critic_iteration_batches l e bc :
  triple top (TrainOneByOne.critic_iteration K cfg l e bc) phi (fun _ => top) any.
Proof.
  intros s _. unfold TrainOneByOne.critic_iteration. run_exec;
    (split; [| exact I]); try solve [constructor].
  constructor; [| constructor].
  repeat match goal with
         | H : Np.concatenate _ _ = Some _ |- _ => apply concatenate_some in H; subst
         end.
  match goal with
  | Hn : py_index _ _ = Some ?n,
    Hgeo : geometry _ _ = Some ?geo,
    Hreal : np_take ?geo _ = Some ?Xlr,
    Hmor : morphology _ _ = Some ?mor,
    Hrows : np_take ?mor _ = Some ?rows,
    Hcut : np_reshape_row ?rows _ = Some ?cut,
    Hget : TrainOneByOne.get_batch _ ?cut _ _ _ = Some (?Xpr, _),
    Hgen : TrainOneByOne.gen_batch _ _ _ _ _ _ _ _ = Some (?Xlg, ?Xpg, _) |- _ =>
      pose proof (np_take_length _ _ Hreal) as Hlen; rewrite select_length in Hlen;
      pose proof (get_batch_rows _ _ _ _ Hget);
      destruct (gen_batch_rows _ _ _ _ _ _ _ Hgen) as [? ?];
      exists Xlr, Xpr, Xlg, Xpg; split;
      [ exists n, geo, mor, rows, cut; eexists _, _, _, _;
        repeat split;
        [exact Hn | exact Hgeo | exact Hreal | exact Hmor | exact Hrows | exact Hcut
         | exact Hget | exact Hgen | cbv beta; now rewrite ?Z.eqb_refl]
      | repeat (split; [reflexivity || assumption |]) ]
  end.
  rewrite neg_ones. unfold Np.ones. congruence.
Qed.

Lemma one_by_one_run_batches w : Forall phi (trace_of (TrainOneByOne.run K cfg w)).
Proof.
  unfold TrainOneByOne.run. eapply triple_trace with (P := top); [| exact I].
  apply one_by_one_model_triple with (E := any).
  - intros l _. unfold TrainOneByOne.setup_level. trivial_leaf.
  - intros l _. unfold TrainOneByOne.compile_level, TrainOneByOne.do_compile.
    trivial_leaf.
  - intros l e bc _ _ _.
    apply one_by_one_outer_iteration_triple with (J1 := top) (J2 := top) (J3 := top).
    + intros; exact I.
    + apply triple_for_each. intros _ _. apply one_by_one_critic_iteration_batches.
    + unfold TrainOneByOne.report_disc_loss. trivial_leaf.
    + unfold TrainOneByOne.generator_phase, TrainOneByOne.alternation. trivial_leaf.
    + unfold TrainOneByOne.housekeeping. trivial_leaf.
Qed.

End OneByOneBatches.

(** C7.  Every critic update of [train.py] and of
    [train_one_by_one.py] is given the real batch followed by the
    generated batch, in both sample tensors: the real batches are what
    [get_batch] returned for the batch counter (in
    [train_one_by_one.py] the geometry batch is the slice of the data
    at the counter), the generated batches are what [gen_batch]
    returned next.  Whenever the batch utilities return [batch_size]
    rows, these are [batch_size] real samples followed by [batch_size]
    generated ones, and the labels are [batch_size] times -1 followed
    by [batch_size] times +1.  In [train_one_by_one.py] the real
    geometry batch has [batch_size] rows by the slice itself. *)
Theorem C7_critic_batch_real_then_generated
        (World : Type) (K : Train.Collab World) (K' : TrainOneByOne.Collab World)
        (cfg : config) (w : World)
        (get_batch_rows :
           forall td bs bc n w Xl Xp w',
             Train.get_batch K td bs bc n w = Some ((Xl, Xp), w') ->
             List.length Xl = Z.to_nat bs /\ List.length Xp = Z.to_nat bs)
        (gen_batch_rows :
           forall bs ns l d st w Xl Xp w',
             Train.gen_batch K bs ns l d st w = Some ((Xl, Xp), w') ->
             List.length Xl = Z.to_nat bs /\ List.length Xp = Z.to_nat bs)
        (get_batch_rows' :
           forall cut bs n w Xp w',
             TrainOneByOne.get_batch K' cut bs n w = Some (Xp, w') ->
             List.length Xp = Z.to_nat bs)
        (gen_batch_rows' :
           forall bs ns l d st r w Xl Xp w',
             TrainOneByOne.gen_batch K' bs ns l d st r w = Some ((Xl, Xp), w') ->
             List.length Xl = Z.to_nat bs /\ List.length Xp = Z.to_nat bs) :
  Forall (critic_batches (train_batch_sources K cfg) (Z.to_nat (batch_size cfg)))
         (trace_of (Train.run K cfg w))
  /\ Forall (critic_batches (one_by_one_batch_sources K' cfg)
                            (Z.to_nat (batch_size cfg)))
            (trace_of (TrainOneByOne.run K' cfg w)).
Proof.
  split.
  - now apply train_run_batches.
  - now apply one_by_one_run_batches.
Qed.

(** C7 on the sample collaborators, batches of 4. *)
Lemma C7_critic_batch_witness :
  Forall (critic_batches (train_batch_sources (Sample.train_collab true)
                                              Sample.scenario)
                         (Z.to_nat (batch_size Sample.scenario)))
         (trace_of (Train.run (Sample.train_collab true) Sample.scenario tt))
  /\ Forall (critic_batches (one_by_one_batch_sources (Sample.one_by_one_collab true)
                                                      Sample.scenario)
                            (Z.to_nat (batch_size Sample.scenario)))
            (trace_of (TrainOneByOne.run (Sample.one_by_one_collab true)
                                         Sample.scenario tt)).
Proof.
  apply (@C7_critic_batch_real_then_generated
           unit (Sample.train_collab true) (Sample.one_by_one_collab true)
           Sample.scenario tt).
  - intros td bs bc n w Xl Xp w' H. cbn in H. inversion H; subst.
    now rewrite repeat_length.
  - intros bs ns l d st w Xl Xp w' H. cbn in H. inversion H; subst.
    now rewrite repeat_length.
  - intros cut bs n w Xp w' H. cbn in H. inversion H; subst.
    now rewrite repeat_length.
  - intros bs ns l d st r w Xl Xp w' H. cbn in H. inversion H; subst.
    now rewrite repeat_length.
Defined.

(** The sample runs do reach the critic: one update each. *)
Example sample_runs_update_once :
  count_disc 0 (trace_of (Train.run (Sample.train_collab true) Sample.scenario tt)) = 1%nat
  /\ count_disc 0 (trace_of (TrainOneByOne.run (Sample.one_by_one_collab true)
                                               Sample.scenario tt)) = 1%nat.
Proof. split; vm_compute; reflexivity. Qed.

(** ** Labels and the loss setting ([train_one_by_one.py]) *)

Section OneByOneLabels.

Variable World : Type.
Variable K : TrainOneByOne.Collab World.
Variable cfg : config.

Let phi := labels_and_losses K cfg.
Let top := fun _ : state World => True.
Let any := fun (_ : exn) (_ : state World) => True.

Lemma one_by_one_critic_iteration_labels l e bc :
  triple top (TrainOneByOne.critic_iteration K cfg l e bc) phi (fun _ => top) any.
Proof.
  intros s _. unfold TrainOneByOne.critic_iteration. run_exec;
    (split; [| exact I]); try solve [constructor].
  constructor; [| constructor].
  repeat match goal with
         | H : Np.concatenate _ _ = Some _ |- _ => apply concatenate_some in H; subst
         end.
  match goal with
  | Hn : py_index _ _ = Some ?n,
    Hgeo : geometry _ _ = Some ?geo,
    Hreal : np_take ?geo _ = Some ?Xlr,
    Hmor : morphology _ _ = Some ?mor,
    Hrows : np_take ?mor _ = Some ?rows,
    Hcut : np_reshape_row ?rows _ = Some ?cut,
    Hget : TrainOneByOne.get_batch _ ?cut _ _ _ = Some (?Xpr, _),
    Hgen : TrainOneByOne.gen_batch _ _ _ _ _ _ _ _ = Some (?Xlg, ?Xpg, _) |- _ =>
      exists Xlr, Xpr, Xlg, Xpg; split;
      [ exists n, geo, mor, rows, cut; eexists _, _, _, _;
        repeat split;
        [exact Hn | exact Hgeo | exact Hreal | exact Hmor | exact Hrows | exact Hcut
         | exact Hget | exact Hgen | cbv beta; now rewrite ?Z.eqb_refl]
      | repeat (split; [reflexivity |]) ]
  end.
  now rewrite neg_ones.
Qed.

Lemma one_by_one_compile_level_losses l :
  triple top (TrainOneByOne.compile_level K cfg l) phi (fun _ => top) any.
Proof.
  unfold TrainOneByOne.compile_level, TrainOneByOne.do_compile,
    TrainOneByOne.active_loss.
  intros s _. run_exec; (split; [| exact I]);
    repeat (constructor; cbn;
            try match goal with
                | H : (_ =? _)%string = _ |- _ => rewrite ?H
                end; auto).
Qed.

Lemma one_by_one_run_labels w : Forall phi (trace_of (TrainOneByOne.run K cfg w)).
Proof.
  unfold TrainOneByOne.run. eapply triple_trace with (P := top); [| exact I].
  apply one_by_one_model_triple with (E := any).
  - intros l _. unfold TrainOneByOne.setup_level. trivial_leaf.
  - intros l _. apply one_by_one_compile_level_losses.
  - intros l e bc _ _ _.
    apply one_by_one_outer_iteration_triple with (J1 := top) (J2 := top) (J3 := top).
    + intros; exact I.
    + apply triple_for_each. intros _ _. apply one_by_one_critic_iteration_labels.
    + unfold TrainOneByOne.report_disc_loss. trivial_leaf.
    + unfold TrainOneByOne.generator_phase, TrainOneByOne.alternation. trivial_leaf.
    + unfold TrainOneByOne.housekeeping. trivial_leaf.
Qed.

End OneByOneLabels.

(** C4, as the script has it (lines 318-338: the loss-dependent labels
    are commented out).  Under either loss setting every critic batch
    is the real batch (the slice of the data at the batch counter, and
    what [get_batch] made of its morphology rows) followed by the
    generated batch (what [gen_batch] returned), labelled -1 on the
    real rows and +1 on the generated rows; the setting decides only
    the loss function the stacked model and the discriminator are
    compiled with. *)
Theorem C4_labels_do_not_follow_the_loss
        (World : Type) (K : TrainOneByOne.Collab World) (cfg : config) (w : World) :
  Forall (labels_and_losses K cfg) (trace_of (TrainOneByOne.run K cfg w)).
Proof. apply one_by_one_run_labels. Qed.

(** C4 as stated fails under the cross-entropy setting: with batches of
    two, the one critic update is labelled [-1; -1; +1; +1] (the real
    rows are not labelled 0), while the stacked model and the
    discriminator are compiled with the binary cross-entropy. *)
Lemma C4_cross_entropy_counterexample :
  flat_map Sample.disc_labels
           (trace_of (TrainOneByOne.run
                        (Sample.one_by_one_collab true)
                        (Sample.one_level 2 1 2 1 "mgd" false "binary_crossentropy" false)
                        tt))
  = [[[[(-1)%Q]]; [[(-1)%Q]]; [[1%Q]]; [[1%Q]]]]
  /\ flat_map Sample.compiled_losses
              (trace_of (TrainOneByOne.run
                           (Sample.one_by_one_collab true)
                           (Sample.one_level 2 1 2 1 "mgd" false "binary_crossentropy" false)
                           tt))
     = [(CompiledRole Geom, Mse); (CompiledRole Morph, Mse);
        (CompiledRole CondGeom, Mse); (CompiledRole CondMorph, Mse);
        (CompiledStacked, Binary_crossentropy);
        (CompiledRole Disc, Binary_crossentropy)]
  /\ [[(-1)%Q]] <> [[0%Q]].
Proof.
  split; [vm_compute; reflexivity |].
  split; [vm_compute; reflexivity | discriminate].
Qed.

(** ** The [trainable] flags *)

Lemma initial_all_trainable {World} (w : World) :
  all_levels_trainable (initial_state w).
Proof. intros l r. destruct r; reflexivity. Qed.

(** Brings the flags of the models of [l] into the context. *)
Ltac flag_facts HI l :=
  pose proof (HI l Disc); pose proof (HI l Geom); pose proof (HI l CondGeom);
  pose proof (HI l Morph); pose proof (HI l CondMorph).

Ltac flag_cbn :=
  cbn [get_role set_role set_trainable set_layers with_layers fresh_models
       trainable layers d_model g_model cg_model m_model cm_model
       Train_clip.clip_weights TrainOneByOne_clip.clip_weights] in *.

(** The invariant after a run step that rewrote the models of one level. *)
Ltac keep_flags HI :=
  let l0 := fresh "l0" in
  let r := fresh "r" in
  let El := fresh "El" in
  intros l0 r; run_cbn;
  match goal with
  | |- context [(l0 =? ?l)%Z] =>
      destruct (l0 =? l)%Z eqn:El;
      [ apply Z.eqb_eq in El; subst l0; flag_facts HI l; flag_cbn;
        destruct r; flag_cbn; auto
      | apply HI ]
  | _ => apply HI
  end.

Section TrainFlags.

Variable World : Type.
Variable K : Train.Collab World.
Variable cfg : config.

Let phi := plain_flags.
Let Inv := @all_levels_trainable World.
Let any := fun (_ : exn) (_ : state World) => True.

Lemma train_setup_flags l :
  triple Inv (Train.setup_level K cfg l) phi (fun _ => Inv) any.
Proof.
  unfold Train.setup_level. intros s HI.
  run_exec; (split; [repeat constructor |]); try exact I; try keep_flags HI.
Qed.

Lemma train_compile_flags l :
  triple Inv (Train.compile_level K cfg l) phi (fun _ => Inv) any.
Proof.
  unfold Train.compile_level, Train.do_compile. intros s HI.
  run_exec; (split; [repeat constructor |]); try exact I; try keep_flags HI.
Qed.

Lemma train_critic_iteration_flags l e bc :
  triple Inv (Train.critic_iteration K cfg l e bc) phi (fun _ => Inv) any.
Proof.
  unfold Train.critic_iteration. intros s HI.
  run_exec; (split; [|]); try exact I; try keep_flags HI;
    try solve [constructor].
  constructor; [| constructor]. cbn. intros r.
  flag_facts HI l. destruct r; flag_cbn; auto.
Qed.

Lemma train_generator_phase_flags l e bc :
  triple Inv (Train.generator_phase K cfg l e bc) phi (fun _ => Inv) any.
Proof.
  unfold Train.generator_phase. intros s HI.
  run_exec; (split; [|]); try exact I; try keep_flags HI;
    try solve [constructor].
  all: constructor; [| constructor]; cbn; flag_facts HI l;
    unfold frozen_generators; flag_cbn; (split; [reflexivity |]);
    cbn [filter]; flag_cbn;
    repeat match goal with H : trainable _ = true |- _ => rewrite H; clear H end;
    reflexivity.
Qed.

Lemma train_housekeeping_flags l e bc :
  triple Inv (Train.housekeeping K cfg l e bc) phi (fun _ => Inv) any.
Proof.
  unfold Train.housekeeping. intros s HI.
  run_exec; (split; [repeat constructor |]); try exact I; try keep_flags HI.
Qed.

Lemma train_outer_iteration_flags l e bc :
  triple Inv (Train.outer_iteration K cfg l e bc) phi (fun _ => Inv) any.
Proof.
  apply train_outer_iteration_triple with (J1 := Inv) (J2 := Inv) (J3 := Inv).
  - intros s HI. exact HI.
  - apply triple_for_each. intros _ _. apply train_critic_iteration_flags.
  - unfold Train.report_disc_loss. intros s HI.
    run_exec; (split; [repeat constructor |]); try exact I; exact HI.
  - apply train_generator_phase_flags.
  - apply train_housekeeping_flags.
Qed.

Lemma train_model_flags :
  triple Inv (Train.train_model K cfg) phi (fun _ => Inv) any.
Proof.
  apply train_model_triple.
  - intros l _. apply train_setup_flags.
  - intros l _. apply train_compile_flags.
  - intros l e bc _ _ _. apply train_outer_iteration_flags.
Qed.

End TrainFlags.

(** Uses the tests a run step decided to settle the flags of its event. *)
Ltac settle_tests :=
  repeat match goal with
         | H : ?b = true |- context [?b] => rewrite H
         | H : ?b = false |- context [?b] => rewrite H
         end.

Ltac settle_flags :=
  cbn [filter]; flag_cbn;
  repeat match goal with H : trainable _ = true |- _ => rewrite H; clear H end;
  cbn [negb];
  first [ reflexivity
        | discriminate
        | eexists; split; [| reflexivity]; auto ].

Section OneByOneFlags.

Variable World : Type.
Variable K : TrainOneByOne.Collab World.
Variable cfg : config.

Let phi := flags_at_updates cfg.
Let Inv := @all_levels_trainable World.
Let any := fun (_ : exn) (_ : state World) => True.

Lemma one_by_one_setup_flags l :
  triple Inv (TrainOneByOne.setup_level K cfg l) phi (fun _ => Inv) any.
Proof.
  unfold TrainOneByOne.setup_level. intros s HI.
  run_exec; (split; [repeat constructor |]); try exact I; try keep_flags HI.
Qed.

Lemma one_by_one_compile_flags l :
  triple Inv (TrainOneByOne.compile_level K cfg l) phi (fun _ => Inv) any.
Proof.
  unfold TrainOneByOne.compile_level, TrainOneByOne.do_compile. intros s HI.
  run_exec; (split; [repeat constructor |]); try exact I; try keep_flags HI.
Qed.

Lemma one_by_one_critic_iteration_flags l e bc :
  triple Inv (TrainOneByOne.critic_iteration K cfg l e bc) phi (fun _ => Inv) any.
Proof.
  unfold TrainOneByOne.critic_iteration. intros s HI.
  run_exec; (split; [|]); try exact I; try keep_flags HI;
    try solve [constructor].
  constructor; [| constructor]. cbn. intros r.
  flag_facts HI l. destruct r; flag_cbn; auto.
Qed.

Lemma one_by_one_generator_phase_flags l e bc :
  triple Inv (TrainOneByOne.generator_phase K cfg l e bc) phi (fun _ => Inv) any.
Proof.
  unfold TrainOneByOne.generator_phase, TrainOneByOne.alternation. intros s HI.
  run_exec; (split; [|]); try exact I; try keep_flags HI;
    try solve [constructor].
  all: constructor; [| constructor]; cbn; flag_facts HI l;
    unfold alternation_flags, frozen_generators, conditional_role; flag_cbn;
    settle_tests;
    (split; [reflexivity | split; [intros Hon c Hc | intros Hoff]]);
    try congruence; try (injection Hc as <-); settle_flags.
Qed.

Lemma one_by_one_housekeeping_flags l e bc :
  triple Inv (TrainOneByOne.housekeeping K cfg l e bc) phi (fun _ => Inv) any.
Proof.
  unfold TrainOneByOne.housekeeping. intros s HI.
  run_exec; (split; [repeat constructor |]); try exact I; try keep_flags HI.
Qed.

Lemma one_by_one_outer_iteration_flags l e bc :
  triple Inv (TrainOneByOne.outer_iteration K cfg l e bc) phi (fun _ => Inv) any.
Proof.
  apply one_by_one_outer_iteration_triple with (J1 := Inv) (J2 := Inv) (J3 := Inv).
  - intros s HI. exact HI.
  - apply triple_for_each. intros _ _. apply one_by_one_critic_iteration_flags.
  - unfold TrainOneByOne.report_disc_loss. intros s HI.
    run_exec; (split; [repeat constructor |]); try exact I; exact HI.
  - apply one_by_one_generator_phase_flags.
  - apply one_by_one_housekeeping_flags.
Qed.

Lemma one_by_one_model_flags :
  triple Inv (TrainOneByOne.train_model K cfg) phi (fun _ => Inv) any.
Proof.
  apply one_by_one_model_triple.
  - intros l _. apply one_by_one_setup_flags.
  - intros l _. apply one_by_one_compile_flags.
  - intros l e bc _ _ _. apply one_by_one_outer_iteration_flags.
Qed.

End OneByOneFlags.

Lemma flags_weaken_plain (ev : event) :
  plain_flags ev -> discriminator_frozen_for_generator ev.
Proof. destruct ev; cbn; tauto. Qed.

Lemma flags_weaken_alternating (cfg : config) (ev : event) :
  flags_at_updates cfg ev -> discriminator_frozen_for_generator ev.
Proof. destruct ev; cbn; unfold alternation_flags; tauto. Qed.

Lemma flags_weaken_stacked (cfg : config) (ev : event) :
  flags_at_updates cfg ev -> alternation_at_stacked cfg ev.
Proof. destruct ev; cbn; tauto. Qed.

(** C9.  In both scripts every critic update runs with every
    [trainable] flag of its level on, every stacked update runs with the
    discriminator's flag off; an outer iteration entered with all flags
    on ends, when it ends normally, with all flags on; and so does the
    run.  (A run that ends by an exception inside the generator phase
    leaves the flags as they were when it was raised.) *)
Theorem C9_flags_restored_around_generator_phase
        (World : Type) (K : Train.Collab World) (K' : TrainOneByOne.Collab World)
        (cfg : config) (w : World) :
  (Forall discriminator_frozen_for_generator (trace_of (Train.run K cfg w))
   /\ (forall l e bc s,
          all_levels_trainable s ->
          match Train.outer_iteration K cfg l e bc s with
          | Ok _ _ s' => all_levels_trainable s'
          | Raise _ _ _ => True
          end)
   /\ match Train.run K cfg w with
      | Ok _ _ s' => all_levels_trainable s'
      | Raise _ _ _ => True
      end)
  /\
  (Forall discriminator_frozen_for_generator (trace_of (TrainOneByOne.run K' cfg w))
   /\ (forall l e bc s,
          all_levels_trainable s ->
          match TrainOneByOne.outer_iteration K' cfg l e bc s with
          | Ok _ _ s' => all_levels_trainable s'
          | Raise _ _ _ => True
          end)
   /\ match TrainOneByOne.run K' cfg w with
      | Ok _ _ s' => all_levels_trainable s'
      | Raise _ _ _ => True
      end).
Proof.
  split; (split; [| split]).
  - pose proof (@train_model_flags World K cfg _ (initial_all_trainable w)) as H.
    unfold Train.run. destruct (Train.train_model K cfg (initial_state w));
      cbn; destruct H as [H _];
      (eapply Forall_impl; [apply flags_weaken_plain | exact H]).
  - intros l e bc s Hs.
    pose proof (@train_outer_iteration_flags World K cfg l e bc s Hs) as H.
    destruct (Train.outer_iteration K cfg l e bc s); tauto.
  - pose proof (@train_model_flags World K cfg _ (initial_all_trainable w)) as H.
    unfold Train.run. destruct (Train.train_model K cfg (initial_state w)); tauto.
  - pose proof (@one_by_one_model_flags World K' cfg _ (initial_all_trainable w)) as H.
    unfold TrainOneByOne.run.
    destruct (TrainOneByOne.train_model K' cfg (initial_state w));
      cbn; destruct H as [H _];
      (eapply Forall_impl; [apply (flags_weaken_alternating cfg) | exact H]).
  - intros l e bc s Hs.
    pose proof (@one_by_one_outer_iteration_flags World K' cfg l e bc s Hs) as H.
    destruct (TrainOneByOne.outer_iteration K' cfg l e bc s); tauto.
  - pose proof (@one_by_one_model_flags World K' cfg _ (initial_all_trainable w)) as H.
    unfold TrainOneByOne.run.
    destruct (TrainOneByOne.train_model K' cfg (initial_state w)); tauto.
Qed.

(** C3, as the script has it (lines 370-384, 416-430).  A model is
    frozen when its [trainable] flag is off; what Keras makes of the
    flag in [train_on_batch] is not part of the statement.  With the
    alternation on and the rule ['mgd'] or ['gmd'], every stacked update
    is called with the discriminator frozen and exactly one generator
    frozen: for batch counters with [batch_counter % 20] in 0..9 it is
    the conditional generator of the rule ([cg_model] under ['mgd'],
    [cm_model] under ['gmd']), for the others it is an unconditioned
    generator and the conditional one is trainable.  With the alternation
    off no generator is frozen.  A generator phase entered with all flags
    on ends, when it ends normally, with all flags on. *)
Theorem C3_alternation_freezes_conditional_role_first
        (World : Type) (K : TrainOneByOne.Collab World) (cfg : config) (w : World) :
  Forall (alternation_at_stacked cfg) (trace_of (TrainOneByOne.run K cfg w))
  /\ (forall l e bc s,
         all_levels_trainable s ->
         match TrainOneByOne.generator_phase K cfg l e bc s with
         | Ok _ _ s' => all_levels_trainable s'
         | Raise _ _ _ => True
         end).
Proof.
  split.
  - pose proof (@one_by_one_model_flags World K cfg _ (initial_all_trainable w)) as H.
    unfold TrainOneByOne.run.
    destruct (TrainOneByOne.train_model K cfg (initial_state w));
      cbn; destruct H as [H _];
      (eapply Forall_impl; [apply (flags_weaken_stacked cfg) | exact H]).
  - intros l e bc s Hs.
    pose proof (@one_by_one_generator_phase_flags World K cfg l e bc s Hs) as H.
    destruct (TrainOneByOne.generator_phase K cfg l e bc s); tauto.
Qed.

(** C3 as stated fails: under ['mgd'] with the alternation on, the
    stacked updates at batch counters 1..9 run with the conditional
    geometry generator frozen and the morphology generator trainable
    (the flags are listed in the order d, g, cg, m, cm); at 10 and 11
    the conditional generator is trainable. *)
Lemma C3_first_half_counterexample :
  flat_map Sample.stacked_flags
           (trace_of (TrainOneByOne.run
                        (Sample.one_by_one_collab true)
                        (Sample.one_level 2 1 12 1 "mgd" true "wasserstein_loss" false)
                        tt))
  = [(1%Z, [false; true; false; true; true]);
     (2%Z, [false; true; false; true; true]);
     (3%Z, [false; true; false; true; true]);
     (4%Z, [false; true; false; true; true]);
     (5%Z, [false; true; false; true; true]);
     (6%Z, [false; true; false; true; true]);
     (7%Z, [false; true; false; true; true]);
     (8%Z, [false; true; false; true; true]);
     (9%Z, [false; true; false; true; true]);
     (10%Z, [false; false; true; true; true]);
     (11%Z, [false; false; true; true; true])].
Proof. vm_compute. reflexivity. Qed.

(** ** The generator's target ([train.py]) *)

Section MoreLoops.

Variable World : Type.

(** A loop that runs at least once establishes what each pass does. *)
Lemma triple_for_each_nonempty (P J : state World -> Prop) (xs : list Z)
      (body : Z -> M World unit) phi E :
  xs <> [] ->
  (forall x, triple P (body x) phi (fun _ => J) E) ->
  (forall s, J s -> P s) ->
  triple P (for_each xs body) phi (fun _ => J) E.
Proof.
  intros Hne Hbody HJP. destruct xs as [| x rest]; [congruence |].
  cbn [for_each]. eapply triple_bind; [apply Hbody |].
  intros []. apply triple_for_each. intros y _.
  eapply triple_conseq; [apply Hbody | | | |]; auto.
Qed.

End MoreLoops.

Lemma range_nonempty (n : Z) : (1 <= n)%Z -> Np.range n <> [].
Proof.
  intros Hn. unfold Np.range.
  destruct (Z.to_nat n) as [| k] eqn:E; [lia | discriminate].
Qed.

Section TrainTargets.

Variable World : Type.
Variable K : Train.Collab World.
Variable cfg : config.

Hypothesis d_iters_positive : (1 <= d_iters cfg)%Z.

Hypothesis get_batch_rows :
  forall td bs bc n w Xl Xp w',
    Train.get_batch K td bs bc n w = Some ((Xl, Xp), w') ->
    List.length Xl = Z.to_nat bs.

Let phi := target_is_minus_ones (Z.to_nat (batch_size cfg)).
Let top := fun _ : state World => True.
Let E := fun (e : exn) (_ : state World) => not_unbound e.

(** After the critic loop the locals the rest of the pass reads are
    bound. *)
Let bound := fun s : state World =>
  y_real s = Some (repeat [[(-1)%Q]] (Z.to_nat (batch_size cfg)))
  /\ disc_loss s <> None /\ X_locations_gen s <> None /\ X_prufer_gen s <> None.

Ltac leaf :=
  (split; [try solve [repeat constructor] |]);
  try exact I; try (intros ?; discriminate).

Lemma train_critic_iteration_binds l e bc :
  triple top (Train.critic_iteration K cfg l e bc) phi (fun _ => bound) E.
Proof.
  unfold Train.critic_iteration. intros s _. run_exec; leaf.
  unfold bound. run_cbn.
  match goal with H : Train.get_batch _ _ _ _ _ _ = Some _ |- _ =>
    rewrite neg_ones, (get_batch_rows _ _ _ _ _ H) end.
  repeat split; congruence.
Qed.

Lemma train_generator_phase_targets l e bc :
  (0 <= l)%Z ->
  triple bound (Train.generator_phase K cfg l e bc) phi (fun _ => bound) E.
Proof.
  unfold Train.generator_phase. intros Hl s [Hy [Hd [Hxl Hxp]]]. run_exec; leaf;
    try (exfalso; rewrite Z.gtb_ltb in *;
         repeat match goal with
                | H : (_ <? _)%Z = false |- _ => apply Z.ltb_ge in H
                | H : (_ =? _)%Z = false |- _ => apply Z.eqb_neq in H
                end; lia);
    try (exfalso; congruence);
    try (unfold bound; run_cbn; repeat split; congruence).
  all: constructor; [| constructor]; cbn; congruence.
Qed.

Lemma train_housekeeping_reads_bound l e bc :
  triple bound (Train.housekeeping K cfg l e bc) phi (fun _ => top) E.
Proof.
  unfold Train.housekeeping. intros s [Hy [Hd [Hl Hp]]]. run_exec; leaf;
    exfalso; congruence.
Qed.

Lemma train_model_targets :
  triple top (Train.train_model K cfg) phi (fun _ => top) E.
Proof.
  apply train_model_triple.
  - intros l _. unfold Train.setup_level. intros s _. run_exec; leaf.
  - intros l _. unfold Train.compile_level, Train.do_compile. intros s _.
    run_exec; leaf.
  - intros l e bc Hl _ _. apply in_range in Hl.
    apply train_outer_iteration_triple with (J1 := top) (J2 := bound) (J3 := bound).
    + intros; exact I.
    + apply triple_for_each_nonempty.
      * now apply range_nonempty.
      * intros _. apply train_critic_iteration_binds.
      * intros; exact I.
    + unfold Train.report_disc_loss. intros s [Hy [Hd [Hxl Hxp]]]. run_exec; leaf;
        first [ unfold bound; repeat split; congruence | exfalso; congruence ].
    + apply train_generator_phase_targets. lia.
    + apply train_housekeeping_reads_bound.
Qed.

End TrainTargets.

Lemma py_index_in_range {A} (l : list A) (i : Z) :
  (0 <= i < Z.of_nat (List.length l))%Z -> py_index l i <> None.
Proof.
  intros Hi. unfold py_index.
  destruct (i <? 0)%Z eqn:Hneg; [apply Z.ltb_lt in Hneg; lia |].
  destruct (0 <=? i)%Z eqn:H0; [| apply Z.leb_gt in H0; lia].
  destruct (i <? Z.of_nat (List.length l))%Z eqn:H1; [| apply Z.ltb_ge in H1; lia].
  cbn. apply nth_error_Some. lia.
Qed.

Lemma range_starts_at_zero (n : Z) :
  (1 <= n)%Z -> exists rest, Np.range n = 0%Z :: rest.
Proof.
  intros Hn. unfold Np.range.
  destruct (Z.to_nat n) as [| k] eqn:E; [lia |].
  cbn. eexists. reflexivity.
Qed.

Section TrainWithoutCritic.

Variable World : Type.
Variable K : Train.Collab World.
Variable cfg : config.

Hypothesis no_critic : (d_iters cfg <= 0)%Z.
Hypothesis some_batches : (1 < n_batch_per_epoch cfg)%Z.
Hypothesis some_levels : (1 <= n_levels cfg)%Z.
Hypothesis some_epochs : (1 <= n_epochs cfg)%Z.
Hypothesis enough_nodes : (n_levels cfg <= Z.of_nat (List.length (n_nodes cfg)))%Z.
Hypothesis build_returns : forall l u i n d w, Train.build K l u i n d w <> None.
Hypothesis compile_returns : forall l c f r ms w, Train.compile K l c f r ms w <> None.
Hypothesis randn_returns : forall a b c w, Train.randn K a b c w <> None.

Let phi := fun ev : event => is_update ev = false.

(** Nothing is bound yet and every flag is on. *)
Let Inv := fun s : state World =>
  all_levels_trainable s /\ y_real s = None /\ disc_loss s = None.

Let Efail := fun (e : exn) (s : state World) =>
  (verbose cfg = true ->
   e = UnboundLocalError "disc_loss" /\ trainable (d_model (store s 0%Z)) = true)
  /\ (verbose cfg = false ->
      e = UnboundLocalError "y_real" /\ trainable (d_model (store s 0%Z)) = false).

Let never := fun (_ : unit) (_ : state World) => False.

Ltac absurd_failure :=
  exfalso;
  first [ eapply build_returns; eassumption
        | eapply compile_returns; eassumption
        | eapply randn_returns; eassumption
        | match goal with
          | H : py_index _ _ = None |- _ =>
              revert H; apply py_index_in_range; lia
          end
        | congruence ].

Lemma train_setup_binds_nothing l :
  In l (Np.range (n_levels cfg)) ->
  triple Inv (Train.setup_level K cfg l) phi (fun _ => Inv) Efail.
Proof.
  intros Hl. apply in_range in Hl.
  unfold Train.setup_level. intros s [HI [Hy Hd]].
  run_exec; (split; [repeat constructor |]); try absurd_failure;
    (split; [keep_flags HI | split; assumption]).
Qed.

Lemma train_compile_binds_nothing l :
  triple Inv (Train.compile_level K cfg l) phi (fun _ => Inv) Efail.
Proof.
  unfold Train.compile_level, Train.do_compile. intros s [HI [Hy Hd]].
  run_exec; (split; [repeat constructor |]); try absurd_failure;
    (split; [keep_flags HI | split; assumption]).
Qed.

Lemma train_first_iteration_fails e :
  triple Inv (Train.outer_iteration K cfg 0 e 1) phi (fun _ _ => False) Efail.
Proof.
  unfold Train.outer_iteration, Train.critic_phase, Np.range.
  replace (Z.to_nat (d_iters cfg)) with 0%nat by lia. cbn [seq map for_each].
  unfold Train.report_disc_loss, Train.generator_phase.
  change (0 >? 0)%Z with false. change (0 =? 0)%Z with true.
  intros s [HI [Hy Hd]]. run_exec; (split; [repeat constructor |]);
    try absurd_failure; unfold Efail; run_cbn; flag_facts HI 0%Z; flag_cbn;
    (split; intros Hv; [split |]); congruence || (split; congruence) || auto.
Qed.

Lemma train_without_critic_fails w :
  unbound_before_first_update cfg (Train.run K cfg w).
Proof.
  assert (H : triple Inv (Train.train_model K cfg) phi never Efail).
  { unfold Train.train_model.
    eapply triple_bind;
      [apply triple_for_each; intros; now apply train_setup_binds_nothing |].
    intros []. destruct (range_starts_at_zero some_levels) as [ls ->].
    cbn [for_each]. eapply triple_bind with (Q1 := never); [| intros _ s []].
    unfold Train.train_level.
    eapply triple_bind; [apply train_compile_binds_nothing |].
    intros []. destruct (range_starts_at_zero some_epochs) as [es ->].
    cbn [for_each]. eapply triple_bind with (Q1 := never); [| intros _ s []].
    unfold Train.epoch. cbn [while_batches].
    destruct (1 <? n_batch_per_epoch cfg)%Z eqn:Hlt; [| apply Z.ltb_ge in Hlt; lia].
    eapply triple_bind with (Q1 := fun _ _ => False); [| intros _ s []].
    apply train_first_iteration_fails. }
  unfold Train.run, unbound_before_first_update.
  specialize (H (initial_state w)).
  destruct (Train.train_model K cfg (initial_state w)).
  - apply H. split; [apply initial_all_trainable | split; reflexivity].
  - destruct H as [Ht He].
    + split; [apply initial_all_trainable | split; reflexivity].
    + split; [exact Ht | exact He].
Qed.

End TrainWithoutCritic.

(** C10, as [train.py] has it.  [y_real] is bound only in the critic
    loop (line 245).  With [d_iters >= 1], and [get_batch] returning
    [batch_size] rows, every stacked update is given the target of shape
    [(batch_size, 1, 1)] filled with -1, and the run never ends by an
    unbound local.  With no critic iteration, [n_batch_per_epoch > 1], a
    level and an epoch to run, and the set-up, compile and noise calls
    returning, the run ends by an unbound local in its first outer
    iteration, before any update: with [verbose] at the report of line
    279, which reads [disc_loss], before the generator phase; without
    [verbose] at the first stacked update, which reads [y_real], with
    the discriminator left frozen. *)
Theorem C10_target_is_bound_by_the_critic_loop
        (World : Type) (K : Train.Collab World) (cfg : config) (w : World) :
  ((1 <= d_iters cfg)%Z ->
   (forall td bs bc n w Xl Xp w',
       Train.get_batch K td bs bc n w = Some ((Xl, Xp), w') ->
       List.length Xl = Z.to_nat bs) ->
   Forall (target_is_minus_ones (Z.to_nat (batch_size cfg)))
          (trace_of (Train.run K cfg w))
   /\ match Train.run K cfg w with
      | Ok _ _ _ => True
      | Raise _ e _ => not_unbound e
      end)
  /\
  ((d_iters cfg <= 0)%Z ->
   (1 < n_batch_per_epoch cfg)%Z ->
   (1 <= n_levels cfg)%Z ->
   (1 <= n_epochs cfg)%Z ->
   (n_levels cfg <= Z.of_nat (List.length (n_nodes cfg)))%Z ->
   (forall l u i n d w, Train.build K l u i n d w <> None) ->
   (forall l c f r ms w, Train.compile K l c f r ms w <> None) ->
   (forall a b c w, Train.randn K a b c w <> None) ->
   unbound_before_first_update cfg (Train.run K cfg w)).
Proof.
  split.
  - intros Hd Hrows.
    pose proof (@train_model_targets World K cfg Hd Hrows (initial_state w) I) as H.
    unfold Train.run. destruct (Train.train_model K cfg (initial_state w));
      cbn [trace_of]; tauto.
  - intros. now apply train_without_critic_fails.
Qed.

(** C10 on the sample collaborators: the scenario with one critic
    iteration, and the same run with none. *)
Lemma C10_target_witness :
  (Forall (target_is_minus_ones (Z.to_nat (batch_size Sample.scenario)))
          (trace_of (Train.run (Sample.train_collab true) Sample.scenario tt))
   /\ match Train.run (Sample.train_collab true) Sample.scenario tt with
      | Ok _ _ _ => True
      | Raise _ e _ => not_unbound e
      end)
  /\ unbound_before_first_update
       (Sample.one_level 4 1 2 0 "mgd" false "wasserstein_loss" true)
       (Train.run (Sample.train_collab true)
                  (Sample.one_level 4 1 2 0 "mgd" false "wasserstein_loss" true) tt).
Proof.
  split.
  - apply (proj1 (@C10_target_is_bound_by_the_critic_loop
                    unit (Sample.train_collab true) Sample.scenario tt)).
    + cbn. lia.
    + intros td bs bc n w Xl Xp w' H. cbn in H. inversion H; subst.
      now rewrite repeat_length.
  - apply (proj2 (@C10_target_is_bound_by_the_critic_loop
                    unit (Sample.train_collab true)
                    (Sample.one_level 4 1 2 0 "mgd" false "wasserstein_loss" true) tt));
      cbn; try lia; intros; discriminate.
Defined.

(** C10 as stated fails with [verbose] on (the default): with no critic
    iteration the run ends by the unbound [disc_loss] of the verbose
    report, no update logged and the discriminator not yet frozen, not
    at the first generator update. *)
Lemma C10_verbose_counterexample :
  match Train.run (Sample.train_collab true)
                  (Sample.one_level 4 1 2 0 "mgd" false "wasserstein_loss" true) tt with
  | Ok _ _ _ => False
  | Raise t e s =>
      e = UnboundLocalError "disc_loss"
      /\ e <> UnboundLocalError "y_real"
      /\ filter is_update t = []
      /\ trainable (d_model (store s 0%Z)) = true
  end.
Proof.
  vm_compute. repeat split; try reflexivity. discriminate.
Qed.

(** ** Failures of the reporting collaborator *)

Section ReportLogic.

Variable World : Type.

Lemma report_safe_ret {A} (a : A) : report_safe (@ret World A a).
Proof. intros s. cbn. constructor. Qed.

Lemma report_safe_bind {A B} (m : M World A) (k : A -> M World B) :
  report_safe m -> (forall a, report_safe (k a)) -> report_safe (bind m k).
Proof.
  intros Hm Hk s. unfold bind. specialize (Hm s).
  destruct (m s) as [t a s' | t e s']; [| exact Hm].
  specialize (Hk a s'). cbn in Hm.
  destruct (k a s') as [t' b s'' | t' e s'']; cbn in *.
  - apply Forall_app; auto.
  - destruct Hk as [Hk | [t0 [l [ep [bc [-> [H0 ->]]]]]]].
    + left. apply Forall_app; auto.
    + right. exists (t ++ t0), l, ep, bc. rewrite app_assoc.
      repeat split; auto. apply Forall_app; auto.
Qed.

Lemma report_safe_for_each (xs : list Z) (body : Z -> M World unit) :
  (forall x, report_safe (body x)) -> report_safe (for_each xs body).
Proof.
  intros Hbody. induction xs as [| x xs IH]; cbn [for_each].
  - apply report_safe_ret.
  - apply report_safe_bind; auto.
Qed.

Lemma report_safe_while (fuel : nat) (n : Z) (body : Z -> M World Z) (bc : Z) :
  (forall c, report_safe (body c)) -> report_safe (while_batches fuel n body bc).
Proof.
  intros Hbody. revert bc. induction fuel as [| fuel IH]; intros bc; cbn [while_batches].
  - intros s. cbn. left. constructor.
  - destruct (bc <? n)%Z.
    + apply report_safe_bind; auto.
    + apply report_safe_ret.
Qed.

End ReportLogic.

(** A leaf of the program: each of its ends is inspected. *)
Ltac report_close :=
  do 3 eexists;
  (split; [reflexivity
          | split; [repeat first [reflexivity | constructor] | reflexivity]]).

Ltac report_leaf :=
  let s := fresh "s" in
  intros s; run_exec; cbn [reporting_failure_ends_run];
  first [ solve [repeat first [reflexivity | constructor]]
        | left; solve [repeat first [reflexivity | constructor]]
        | right; exists []; report_close
        | right; eexists [_]; report_close
        | right; eexists [_; _]; report_close ].

Section ReportsPropagate.

Variable World : Type.

Lemma train_run_report_safe (K : Train.Collab World) (cfg : config) (w : World) :
  reporting_failure_ends_run (Train.run K cfg w).
Proof.
  unfold Train.run.
  assert (H : report_safe (Train.train_model K cfg)); [| apply H].
  unfold Train.train_model. apply report_safe_bind.
  { apply report_safe_for_each. intros l. unfold Train.setup_level. report_leaf. }
  intros []. apply report_safe_for_each. intros l. unfold Train.train_level.
  apply report_safe_bind.
  { unfold Train.compile_level, Train.do_compile. report_leaf. }
  intros []. apply report_safe_for_each. intros e. unfold Train.epoch.
  apply report_safe_while. intros bc. unfold Train.outer_iteration.
  apply report_safe_bind; [report_leaf |].
  intros []. apply report_safe_bind.
  { apply report_safe_for_each. intros _. unfold Train.critic_iteration. report_leaf. }
  intros []. apply report_safe_bind.
  { unfold Train.report_disc_loss. report_leaf. }
  intros []. apply report_safe_bind.
  { unfold Train.generator_phase. report_leaf. }
  intros []. unfold Train.housekeeping. report_leaf.
Qed.

Lemma one_by_one_run_report_safe (K : TrainOneByOne.Collab World) (cfg : config)
      (w : World) :
  reporting_failure_ends_run (TrainOneByOne.run K cfg w).
Proof.
  unfold TrainOneByOne.run.
  assert (H : report_safe (TrainOneByOne.train_model K cfg)); [| apply H].
  unfold TrainOneByOne.train_model. apply report_safe_bind.
  { apply report_safe_for_each. intros l. unfold TrainOneByOne.setup_level.
    report_leaf. }
  intros []. apply report_safe_for_each. intros l. unfold TrainOneByOne.train_level.
  apply report_safe_bind.
  { unfold TrainOneByOne.compile_level, TrainOneByOne.do_compile. report_leaf. }
  intros []. apply report_safe_for_each. intros e. unfold TrainOneByOne.epoch.
  apply report_safe_while. intros bc. unfold TrainOneByOne.outer_iteration.
  apply report_safe_bind; [report_leaf |].
  intros []. apply report_safe_bind.
  { apply report_safe_for_each. intros _. unfold TrainOneByOne.critic_iteration.
    report_leaf. }
  intros []. apply report_safe_bind.
  { unfold TrainOneByOne.report_disc_loss. report_leaf. }
  intros []. apply report_safe_bind.
  { unfold TrainOneByOne.generator_phase, TrainOneByOne.alternation. report_leaf. }
  intros []. unfold TrainOneByOne.housekeeping. report_leaf.
Qed.

End ReportsPropagate.

(** C6, as the scripts have it: no statement of [train.py] or
    [train_one_by_one.py] catches an exception.  A reporting call that
    fails is the last event of the run, and the run ends there by the
    collaborator's exception; every other run has only reporting calls
    that returned. *)
Theorem C6_reporting_failure_ends_the_run
        (World : Type) (K : Train.Collab World) (K' : TrainOneByOne.Collab World)
        (cfg : config) (w : World) :
  reporting_failure_ends_run (Train.run K cfg w)
  /\ reporting_failure_ends_run (TrainOneByOne.run K' cfg w).
Proof.
  split; [apply train_run_report_safe | apply one_by_one_run_report_safe].
Qed.

(** C6 as stated fails: with a plot that raises, [verbose] on and 29
    outer iterations scheduled, [train.py] ends at the report of batch
    25 by the collaborator's exception, after 24 stacked updates;
    [train_one_by_one.py], which plots the loss trace in every pass,
    ends in its first. *)
Lemma C6_plot_failure_counterexample :
  match Train.run (Sample.train_collab false)
                  (Sample.one_level 4 1 30 1 "mgd" false "wasserstein_loss" true) tt with
  | Ok _ _ _ => False
  | Raise t e _ =>
      e = CollaboratorError ReportingCall
      /\ last t (Report 0 0 0 true) = Report 0 0 25 false
      /\ count_stacked 0 t = 24%nat
  end
  /\ match TrainOneByOne.run
             (Sample.one_by_one_collab false)
             (Sample.one_level 4 1 30 1 "mgd" false "wasserstein_loss" true) tt with
     | Ok _ _ _ => False
     | Raise t e _ =>
         e = CollaboratorError ReportingCall
         /\ last t (Report 0 0 0 true) = Report 0 0 2 false
         /\ count_stacked 0 t = 1%nat
     end.
Proof. split; vm_compute; repeat split; reflexivity. Qed.

(** ** Counting the updates of a run *)

Lemma count_disc_app l t1 t2 :
  count_disc l (t1 ++ t2) = (count_disc l t1 + count_disc l t2)%nat.
Proof. unfold count_disc. now rewrite filter_app, length_app. Qed.

Lemma count_stacked_app l t1 t2 :
  count_stacked l (t1 ++ t2) = (count_stacked l t1 + count_stacked l t2)%nat.
Proof. unfold count_stacked. now rewrite filter_app, length_app. Qed.

Lemma range_length (n : Z) : List.length (Np.range n) = Z.to_nat n.
Proof. unfold Np.range. now rewrite length_map, length_seq. Qed.

Section Counting.

Variable World : Type.

(** A counter of events that adds up over concatenation. *)
Variable f : list event -> nat.
Hypothesis f_nil : f [] = 0%nat.
Hypothesis f_app : forall t1 t2, f (t1 ++ t2) = (f t1 + f t2)%nat.

Lemma emits_ret {A} (a : A) (V : A -> Prop) : V a -> emits f (@ret World A a) 0 V.
Proof. intros Ha s. cbn. auto. Qed.

Lemma emits_bind {A B} (m : M World A) (k : A -> M World B) n1 n2
      (V1 : A -> Prop) (V : B -> Prop) :
  emits f m n1 V1 ->
  (forall a, V1 a -> emits f (k a) n2 V) ->
  emits f (bind m k) (n1 + n2) V.
Proof.
  intros Hm Hk s. unfold bind. specialize (Hm s).
  destruct (m s) as [t a s' | t e s']; [| exact I].
  destruct Hm as [Ht Ha]. specialize (Hk a Ha s').
  destruct (k a s') as [t' b s'' | t' e s'']; cbn; [| exact I].
  destruct Hk as [Ht' Hb]. rewrite f_app. auto.
Qed.

Lemma emits_for_each (xs : list Z) (body : Z -> M World unit) n :
  (forall x, emits f (body x) n (fun _ => True)) ->
  emits f (for_each xs body) (List.length xs * n) (fun _ => True).
Proof.
  intros Hbody. induction xs as [| x xs IH]; cbn [for_each List.length Nat.mul].
  - now apply emits_ret.
  - eapply emits_bind; [apply Hbody | intros _ _; exact IH].
Qed.

Lemma emits_while (fuel : nat) (n : Z) (body : Z -> M World Z) k :
  (forall c, emits f (body c) k (fun r => r = (c + 1)%Z)) ->
  forall bc,
    emits f (while_batches fuel n body bc) (Z.to_nat (n - bc) * k) (fun _ => True).
Proof.
  intros Hbody. induction fuel as [| fuel IH]; intros bc; cbn [while_batches].
  - intros s. exact I.
  - destruct (bc <? n)%Z eqn:Hlt.
    + apply Z.ltb_lt in Hlt.
      replace (Z.to_nat (n - bc)) with (S (Z.to_nat (n - (bc + 1)))) by lia.
      cbn [Nat.mul]. eapply emits_bind; [apply Hbody |].
      intros c ->. apply IH.
    + apply Z.ltb_ge in Hlt. replace (Z.to_nat (n - bc)) with 0%nat by lia.
      now apply emits_ret.
Qed.

End Counting.

(** A leaf of the program and what it adds to a counter. *)
Ltac count_leaf :=
  let s := fresh "s" in
  intros s; run_exec; try exact I;
  (split; [cbn; rewrite ?Z.eqb_refl; reflexivity | first [exact I | reflexivity]]).

Section TrainCounts.

Variable World : Type.
Variable K : Train.Collab World.
Variable cfg : config.

Let any := fun _ : unit => True.

Lemma train_outer_iteration_stacked l e bc :
  emits (count_stacked l) (Train.outer_iteration K cfg l e bc) 1
        (fun r => r = (bc + 1)%Z).
Proof.
  unfold Train.outer_iteration.
  change 1%nat with (0 + (0 + (0 + (1 + 0))))%nat.
  eapply emits_bind with (V1 := any); [apply count_stacked_app | count_leaf |].
  intros _ _. eapply emits_bind with (V1 := any); [apply count_stacked_app | |].
  { unfold Train.critic_phase.
    replace 0%nat with (List.length (Np.range (d_iters cfg)) * 0)%nat by lia.
    apply emits_for_each; [reflexivity | apply count_stacked_app |].
    intros _. unfold Train.critic_iteration. count_leaf. }
  intros _ _. eapply emits_bind with (V1 := any); [apply count_stacked_app | |].
  { unfold Train.report_disc_loss. count_leaf. }
  intros _ _. eapply emits_bind with (V1 := any); [apply count_stacked_app | |].
  { unfold Train.generator_phase. count_leaf. }
  intros _ _. unfold Train.housekeeping. count_leaf.
Qed.

Lemma train_outer_iteration_disc l e bc :
  emits (count_disc l) (Train.outer_iteration K cfg l e bc) (Z.to_nat (d_iters cfg))
        (fun r => r = (bc + 1)%Z).
Proof.
  unfold Train.outer_iteration.
  replace (Z.to_nat (d_iters cfg))
    with (0 + (List.length (Np.range (d_iters cfg)) * 1 + (0 + (0 + 0))))%nat
    by (rewrite range_length; lia).
  eapply emits_bind with (V1 := any); [apply count_disc_app | count_leaf |].
  intros _ _. eapply emits_bind with (V1 := any); [apply count_disc_app | |].
  { unfold Train.critic_phase.
    apply emits_for_each; [reflexivity | apply count_disc_app |].
    intros _. unfold Train.critic_iteration. count_leaf. }
  intros _ _. eapply emits_bind with (V1 := any); [apply count_disc_app | |].
  { unfold Train.report_disc_loss. count_leaf. }
  intros _ _. eapply emits_bind with (V1 := any); [apply count_disc_app | |].
  { unfold Train.generator_phase. count_leaf. }
  intros _ _. unfold Train.housekeeping. count_leaf.
Qed.

Lemma train_level_stacked l :
  emits (count_stacked l) (Train.train_level K cfg l) (scheduled_stacked cfg) any.
Proof.
  unfold Train.train_level, scheduled_stacked.
  change (Z.to_nat (n_epochs cfg) * Z.to_nat (n_batch_per_epoch cfg - 1))%nat
    with (0 + Z.to_nat (n_epochs cfg) * Z.to_nat (n_batch_per_epoch cfg - 1))%nat.
  eapply emits_bind with (V1 := any); [apply count_stacked_app | |].
  { unfold Train.compile_level, Train.do_compile. count_leaf. }
  intros _ _. rewrite <- range_length.
  apply emits_for_each; [reflexivity | apply count_stacked_app |].
  intros e. unfold Train.epoch.
  replace (Z.to_nat (n_batch_per_epoch cfg - 1))
    with (Z.to_nat (n_batch_per_epoch cfg - 1) * 1)%nat by lia.
  apply emits_while; [reflexivity | apply count_stacked_app |].
  intros c. apply train_outer_iteration_stacked.
Qed.

Lemma train_level_disc l :
  emits (count_disc l) (Train.train_level K cfg l) (scheduled_disc cfg) any.
Proof.
  unfold Train.train_level, scheduled_disc.
  match goal with |- emits _ _ ?n _ => change n with (0 + n)%nat end.
  eapply emits_bind with (V1 := any); [apply count_disc_app | |].
  { unfold Train.compile_level, Train.do_compile. count_leaf. }
  intros _ _. rewrite <- range_length.
  apply emits_for_each; [reflexivity | apply count_disc_app |].
  intros e. unfold Train.epoch.
  apply emits_while; [reflexivity | apply count_disc_app |].
  intros c. apply train_outer_iteration_disc.
Qed.

End TrainCounts.

(** ** The order of the levels ([train.py]) *)

Lemma no_updates_of_other_levels (l : Z) (t : list event) :
  Forall (fun ev => event_level ev <> l) t ->
  count_stacked l t = 0%nat /\ count_disc l t = 0%nat.
Proof.
  intros H. unfold count_stacked, count_disc.
  induction H as [| ev t Hev _ [IH1 IH2]]; [split; reflexivity |].
  cbn [filter]. apply Z.eqb_neq in Hev. rewrite Hev, !andb_false_r. auto.
Qed.

Lemma trace_of_prepend {World A} (t : list event) (o : outcome World A) :
  trace_of (prepend t o) = t ++ trace_of o.
Proof. destruct o; reflexivity. Qed.

Ltac tag_leaf :=
  let s := fresh "s" in
  intros s ?; run_exec;
  (split; [repeat first [reflexivity | constructor] | exact I]).

Section TrainLevels.

Variable World : Type.
Variable K : Train.Collab World.
Variable cfg : config.

Let top := fun _ : state World => True.
Let any := fun (_ : exn) (_ : state World) => True.

(** Training level [l] logs events of level [l] only. *)
Lemma train_level_tags l s :
  Forall (fun ev => event_level ev = l) (trace_of (Train.train_level K cfg l s)).
Proof.
  eapply triple_trace with (P := top) (Q := fun _ => top) (E := any); [| exact I].
  unfold Train.train_level. eapply triple_bind with (Q1 := fun _ => top).
  { unfold Train.compile_level, Train.do_compile. tag_leaf. }
  intros []. apply triple_for_each. intros e _. unfold Train.epoch.
  apply triple_while with (lo := 1%Z); [| lia | lia].
  intros c _ _. apply triple_value; [| apply train_outer_iteration_counter].
  apply train_outer_iteration_triple with (J1 := top) (J2 := top) (J3 := top).
  - intros; exact I.
  - apply triple_for_each. intros _ _. unfold Train.critic_iteration. tag_leaf.
  - unfold Train.report_disc_loss. tag_leaf.
  - unfold Train.generator_phase. tag_leaf.
  - unfold Train.housekeeping. tag_leaf.
Qed.

(** The set-up loop logs nothing. *)
Lemma train_setup_silent s :
  trace_of (for_each (Np.range (n_levels cfg)) (Train.setup_level K cfg) s) = [].
Proof.
  assert (H : Forall (fun _ => False)
                     (trace_of (for_each (Np.range (n_levels cfg))
                                         (Train.setup_level K cfg) s))).
  { eapply triple_trace with (P := top) (Q := fun _ => top) (E := any); [| exact I].
    apply triple_for_each. intros l _. unfold Train.setup_level.
    intros s0 _. run_exec; (split; [constructor | exact I]). }
  destruct H as [| ev t []]. reflexivity.
Qed.

(** The loop over the levels [a, a+1, ..., a+k-1]. *)
Lemma train_levels_in_order (k a : nat) (s : state World) :
  let t := trace_of (for_each (map Z.of_nat (seq a k)) (Train.train_level K cfg) s) in
  Forall (fun ev => (Z.of_nat a <= event_level ev)%Z) t
  /\ forall t1 ev t2,
      t = t1 ++ ev :: t2 ->
      forall l', (Z.of_nat a <= l' < event_level ev)%Z ->
                 count_stacked l' t1 = scheduled_stacked cfg
                 /\ count_disc l' t1 = scheduled_disc cfg
                 /\ count_stacked l' t2 = 0%nat
                 /\ count_disc l' t2 = 0%nat.
Proof.
  revert a s. induction k as [| k IH]; intros a s; cbn zeta.
  - cbn. split; [constructor |]. intros t1 ev t2 H. now destruct t1.
  - cbn [seq map for_each]. unfold bind.
    pose proof (train_level_tags (Z.of_nat a) s) as Htags.
    pose proof (@train_level_stacked World K cfg (Z.of_nat a) s) as Hst.
    pose proof (@train_level_disc World K cfg (Z.of_nat a) s) as Hdi.
    destruct (Train.train_level K cfg (Z.of_nat a) s) as [ta [] s1 | ta e s1];
      cbn [trace_of] in *.
    + destruct Hst as [Hst _]. destruct Hdi as [Hdi _].
      rewrite trace_of_prepend.
      specialize (IH (S a) s1). cbn zeta in IH.
      set (T := trace_of (for_each (map Z.of_nat (seq (S a) k))
                                   (Train.train_level K cfg) s1)) in *.
      destruct IH as [IHlev IHord]. split.
      * apply Forall_app. split.
        -- eapply Forall_impl; [| exact Htags]. cbn. intros; lia.
        -- eapply Forall_impl; [| exact IHlev]. cbn. intros; lia.
      * assert (Hlater : forall u ev t2 l',
                   T = u ++ ev :: t2 ->
                   (Z.of_nat a <= l' < event_level ev)%Z ->
                   count_stacked l' (ta ++ u) = scheduled_stacked cfg
                   /\ count_disc l' (ta ++ u) = scheduled_disc cfg
                   /\ count_stacked l' t2 = 0%nat
                   /\ count_disc l' t2 = 0%nat).
        { intros u ev t2 l' H2 Hl'. specialize (IHord u ev t2 H2).
          rewrite H2 in IHlev. apply Forall_app in IHlev.
          destruct IHlev as [Hu Hrest]. inversion Hrest as [| ? ? Hev Ht2]; subst.
          rewrite count_stacked_app, count_disc_app.
          destruct (Z.eq_dec l' (Z.of_nat a)) as [-> | Hne].
          - assert (Hz : count_stacked (Z.of_nat a) u = 0%nat
                         /\ count_disc (Z.of_nat a) u = 0%nat).
            { apply no_updates_of_other_levels.
              eapply Forall_impl; [| exact Hu]. cbn. intros; lia. }
            assert (Hz2 : count_stacked (Z.of_nat a) t2 = 0%nat
                          /\ count_disc (Z.of_nat a) t2 = 0%nat).
            { apply no_updates_of_other_levels.
              eapply Forall_impl; [| exact Ht2]. cbn. intros; lia. }
            destruct Hz as [-> ->]. destruct Hz2 as [-> ->].
            rewrite !Nat.add_0_r. auto.
          - destruct (IHord l') as [E1 [E2 [E3 E4]]]; [lia |].
            assert (Hta : count_stacked l' ta = 0%nat /\ count_disc l' ta = 0%nat).
            { apply no_updates_of_other_levels.
              eapply Forall_impl; [| exact Htags]. cbn. intros; lia. }
            destruct Hta as [-> ->]. cbn [Nat.add]. auto. }
        intros t1 ev t2 Hsplit l' Hl'.
        apply app_eq_app in Hsplit. destruct Hsplit as [u [[H1 H2] | [H1 H2]]].
        -- destruct u as [| ev' u].
           ++ (* the event is the first of the later levels' part *)
              cbn in H2. rewrite app_nil_r in H1. subst t1.
              rewrite <- (app_nil_r ta). apply (Hlater [] ev t2 l'); [| exact Hl'].
              now rewrite <- H2.
           ++ (* the event is in this level's part: no level is below it *)
              cbn in H2. inversion H2; subst. exfalso.
              rewrite Forall_app in Htags. destruct Htags as [_ Htags].
              inversion Htags; subst. lia.
        -- (* the event is further in the later levels' part *)
           subst t1. now apply (Hlater u ev t2 l').
    + split.
      * eapply Forall_impl; [| exact Htags]. cbn. intros; lia.
      * intros t1 ev t2 Hsplit l' Hl'. exfalso. subst ta.
        apply Forall_app in Htags. destruct Htags as [_ Htags].
        inversion Htags; subst. lia.
Qed.

End TrainLevels.

(** C8.  In every run of [train.py], whenever an update of a level [l]
    happens, every level below [l] has had all its scheduled updates
    before it ([n_epochs] epochs of [n_batch_per_epoch - 1] outer
    iterations, each with [d_iters] critic updates and one stacked
    update), and has no update after it. *)
Theorem C8_levels_are_trained_in_increasing_order
        (World : Type) (K : Train.Collab World) (cfg : config) (w : World) :
  levels_in_order cfg (trace_of (Train.run K cfg w)).
Proof.
  unfold Train.run, Train.train_model, bind.
  pose proof (train_setup_silent K cfg (initial_state w)) as Hsilent.
  destruct (for_each (Np.range (n_levels cfg)) (Train.setup_level K cfg)
                     (initial_state w)) as [t0 [] s0 | t0 e s0];
    cbn [trace_of] in Hsilent; subst t0.
  - rewrite trace_of_prepend. cbn [app].
    destruct (train_levels_in_order K cfg (Z.to_nat (n_levels cfg)) 0 s0) as [_ H].
    intros t1 ev t2 Hsplit _ l' Hl'. eapply H; [exact Hsplit | exact Hl'].
  - intros t1 ev t2 Hsplit. now destruct t1.
Qed.

(** Two levels, two epochs of two outer iterations, three critic
    iterations: the updates of level 0 all precede those of level 1. *)
Example two_levels_in_order :
  Sample.update_levels
    (trace_of (Train.run (Sample.train_collab true) (Sample.two_levels 2 2 3 3) tt))
  = (repeat 0 16 ++ repeat 1 16)%Z.
Proof. vm_compute. reflexivity. Qed.

(** ** The end-to-end scenario *)

(** A test on closed terms is computed; another one is a case split. *)
Ltac run_case_closed :=
  match goal with
  | |- context [match ?x with (_, _) => _ end] => destruct x
  | |- context [if ?b then _ else _] =>
      first [ let v := eval vm_compute in b in
              (lazymatch v with true => idtac | false => idtac end;
               change b with v; cbv iota)
            | let H := fresh "Hif" in destruct b eqn:H ]
  | |- context [match ?o with Some _ => _ | None => _ end] =>
      first [ let v := eval vm_compute in o in
              (lazymatch v with Some _ => idtac | None => idtac end;
               change o with v; cbv iota)
            | let H := fresh "Hcall" in destruct o eqn:H ]
  end.

Ltac run_exec_closed := run_cbn; repeat (run_case_closed; run_cbn).

Section Scenario.

Variable World : Type.
Variable K : Train.Collab World.
Variable K' : TrainOneByOne.Collab World.

Hypothesis K_reliable : train_reliable K.
Hypothesis K'_reliable : one_by_one_reliable K'.

Ltac absurd_call :=
  exfalso;
  match goal with
  | H : _ = None |- _ =>
      revert H;
      first [ apply (train_build_returns K_reliable)
            | apply (train_compile_returns K_reliable)
            | apply (train_get_batch_returns K_reliable)
            | apply (train_gen_batch_returns K_reliable)
            | apply (train_randn_returns K_reliable)
            | apply (train_d_update_returns K_reliable)
            | apply (train_stacked_update_returns K_reliable)
            | apply (train_plot_returns K_reliable)
            | apply (train_show_returns K_reliable)
            | apply (obo_build_returns K'_reliable)
            | apply (obo_compile_returns K'_reliable)
            | apply (obo_get_batch_returns K'_reliable)
            | apply (obo_gen_batch_returns K'_reliable)
            | apply (obo_randn_returns K'_reliable)
            | apply (obo_d_update_returns K'_reliable)
            | apply (obo_stacked_update_returns K'_reliable)
            | apply (obo_plot_generated_returns K'_reliable)
            | apply (obo_plot_comparison_returns K'_reliable)
            | apply (obo_plot_loss_returns K'_reliable) ]
  end.

Ltac absurd_train_join Hagree :=
  exfalso;
  match goal with
  | Hget : Train.get_batch _ _ _ _ _ _ = Some _,
    Hgen : Train.gen_batch _ _ _ _ _ _ _ = Some _ |- _ =>
      destruct (Hagree 0%Z 5%Z _ _ _ _ _ _ _ _ _ _ eq_refl Hget Hgen) as [? ?]
  end;
  absurd_join.

Lemma train_scenario_completes td dim lrd lrg lo hi r alt tl v (w : World) :
  (lo <= hi)%Q ->
  train_batches_agree K (mkConfig td 1 [5%Z] dim 1 4 2 1 lrd lrg (lo, hi) r alt tl v) ->
  scenario_outcome
    (mkConfig td 1 [5%Z] dim 1 4 2 1 lrd lrg (lo, hi) r alt tl v)
    (Train.run K (mkConfig td 1 [5%Z] dim 1 4 2 1 lrd lrg (lo, hi) r alt tl v) w).
Proof.
  intros Hle Hagree.
  unfold Train.run, Train.train_model, Train.train_level, Train.epoch,
    Train.setup_level, Train.compile_level, Train.do_compile,
    Train.outer_iteration, Train.critic_phase, Train.critic_iteration,
    Train.report_disc_loss, Train.generator_phase, Train.housekeeping,
    initial_state.
  cbn [n_levels n_nodes n_epochs batch_size n_batch_per_epoch d_iters data
       input_dim lr_discriminator lr_generator weight_constraint verbose].
  change (Np.range 1) with [0%Z].
  change (Z.to_nat 2) with 2%nat.
  cbn [for_each while_batches].
  run_exec_closed; cbn [scenario_outcome]; try absurd_call;
    try absurd_train_join Hagree.
  all: split; [reflexivity |].
  all: repeat (constructor; try exact I).
  all: cbn; apply clip_weights_in_bounds; exact Hle.
Qed.

(** A test a data hypothesis decides is rewritten with it. *)
Ltac run_case_known H :=
  match type of H with
  | ?o' = Some _ =>
      match goal with
      | |- context [match ?o with Some _ => _ | None => _ end] =>
          unify o o'; change o with o'; rewrite H
      end
  end.

Ltac absurd_one_by_one_join Hagree Hgeo Hxl :=
  exfalso;
  match goal with
  | Hget : TrainOneByOne.get_batch _ _ _ _ _ = Some _,
    Hgen : TrainOneByOne.gen_batch _ _ _ _ _ _ _ _ = Some _ |- _ =>
      destruct (Hagree 0%Z 5%Z 1%Z _ _ _ _ _ _ _ _ _ _ _ eq_refl Hgeo Hxl Hget Hgen)
        as [? ?]
  end;
  absurd_join.

Lemma one_by_one_scenario_completes td dim lrd lrg lo hi r tl v (w : World) :
  (lo <= hi)%Q ->
  first_batch_available td ->
  one_by_one_batches_agree
    K' (mkConfig td 1 [5%Z] dim 1 4 2 1 lrd lrg (lo, hi) r false tl v) ->
  scenario_outcome
    (mkConfig td 1 [5%Z] dim 1 4 2 1 lrd lrg (lo, hi) r false tl v)
    (TrainOneByOne.run K' (mkConfig td 1 [5%Z] dim 1 4 2 1 lrd lrg (lo, hi) r false tl v) w).
Proof.
  intros Hle [geo [mor [Xl [rows [cut [Hgeo [Hxl [Hmor [Hrows Hcut]]]]]]]]] Hagree.
  unfold TrainOneByOne.run, TrainOneByOne.train_model, TrainOneByOne.train_level,
    TrainOneByOne.epoch, TrainOneByOne.setup_level, TrainOneByOne.compile_level,
    TrainOneByOne.do_compile, TrainOneByOne.outer_iteration,
    TrainOneByOne.critic_phase, TrainOneByOne.critic_iteration,
    TrainOneByOne.report_disc_loss, TrainOneByOne.generator_phase,
    TrainOneByOne.alternation, TrainOneByOne.housekeeping, initial_state.
  cbn [n_levels n_nodes n_epochs batch_size n_batch_per_epoch d_iters data
       input_dim lr_discriminator lr_generator weight_constraint verbose
       rule train_one_by_one train_loss].
  change (Np.range 1) with [0%Z].
  change (Z.to_nat 2) with 2%nat.
  cbn [for_each while_batches].
  run_cbn;
    repeat (first [ run_case_known Hgeo | run_case_known Hxl | run_case_known Hmor
                  | run_case_known Hrows | run_case_known Hcut | run_case_closed ];
            run_cbn);
    cbn [scenario_outcome]; try absurd_call;
    try absurd_one_by_one_join Hagree Hgeo Hxl.
  all: split; [reflexivity |].
  all: repeat (constructor; try exact I).
  all: cbn; apply clip_weights_in_bounds; exact Hle.
Qed.

End Scenario.

(** C2, as the scripts have it.  With one level of five nodes, batches
    of 4, one critic iteration, one epoch, [n_batch_per_epoch = 2], the
    alternation off, clip bounds [lo <= hi], collaborators that return,
    real and generated batches that agree in shape and data that holds
    the first batch, [train_model] of [train.py] and of
    [train_one_by_one.py] ends normally; it has made as many critic
    updates as stacked updates (one of each per outer iteration); and
    every critic update started from weights clipped to [[lo, hi]].  The
    clipping precedes the update (line 237): the weights an update
    leaves are not clipped again. *)
Theorem C2_scenario_runs_to_completion
        (World : Type) (K : Train.Collab World) (K' : TrainOneByOne.Collab World)
        (td : training_data) (dim : Z) (lrd lrg lo hi : Q) (r tl : string) (v : bool)
        (w : World) :
  (lo <= hi)%Q ->
  train_reliable K ->
  one_by_one_reliable K' ->
  first_batch_available td ->
  train_batches_agree
    K (mkConfig td 1 [5%Z] dim 1 4 2 1 lrd lrg (lo, hi) r false tl v) ->
  one_by_one_batches_agree
    K' (mkConfig td 1 [5%Z] dim 1 4 2 1 lrd lrg (lo, hi) r false tl v) ->
  scenario_outcome
    (mkConfig td 1 [5%Z] dim 1 4 2 1 lrd lrg (lo, hi) r false tl v)
    (Train.run K (mkConfig td 1 [5%Z] dim 1 4 2 1 lrd lrg (lo, hi) r false tl v) w)
  /\ scenario_outcome
       (mkConfig td 1 [5%Z] dim 1 4 2 1 lrd lrg (lo, hi) r false tl v)
       (TrainOneByOne.run K' (mkConfig td 1 [5%Z] dim 1 4 2 1 lrd lrg (lo, hi)
                                       r false tl v) w).
Proof.
  intros Hle HK HK' Htd Hagree Hagree'. split.
  - now apply train_scenario_completes.
  - now apply one_by_one_scenario_completes.
Qed.

Lemma sample_train_collab_reliable : train_reliable (Sample.train_collab true).
Proof. constructor; intros; cbn; discriminate. Qed.

Lemma sample_one_by_one_collab_reliable :
  one_by_one_reliable (Sample.one_by_one_collab true).
Proof. constructor; intros; cbn; discriminate. Qed.

Lemma sample_first_batch_available : first_batch_available Sample.samples.
Proof.
  unfold first_batch_available. do 5 eexists.
  repeat split; vm_compute; reflexivity.
Qed.

(** The sample batches are copies of one point: of shape [(_, 1, 3)]. *)
Lemma sample_train_batches_agree (cfg : config) :
  (0 < batch_size cfg)%Z ->
  train_batches_agree (Sample.train_collab true) cfg.
Proof.
  intros Hbs l n bc w Xl Xp w' st w1 Xl' Xp' w1' _ Hget Hgen.
  cbn in Hget, Hgen. inversion Hget; inversion Hgen; subst.
  split; apply agree_repeat with (r := 1%nat) (c := 3%nat);
    reflexivity || lia.
Qed.

Lemma sample_one_by_one_batches_agree (cfg : config) :
  data cfg = Sample.samples ->
  (0 < batch_size cfg)%Z ->
  one_by_one_batches_agree (Sample.one_by_one_collab true) cfg.
Proof.
  intros Hdata Hbs l n bc geo Xl cut w Xp w' st w1 Xl' Xp' w1' _ Hgeo Hxl Hget Hgen.
  rewrite Hdata in Hgeo. unfold Sample.samples in Hgeo. cbn [geometry] in Hgeo.
  assert (geo = repeat Sample.point 100) by congruence. subst geo.
  cbn in Hget, Hgen. inversion Hget; inversion Hgen; subst.
  split; [| apply agree_repeat with (r := 1%nat) (c := 3%nat); reflexivity || lia].
  pose proof (np_take_length _ _ Hxl) as Hlen. rewrite select_length in Hlen.
  split; [| split].
  - destruct Xl; [cbn in Hlen; lia | discriminate].
  - destruct (Z.to_nat (batch_size cfg)) eqn:E; [lia | discriminate].
  - exists 1%nat, 3%nat. split; [lia |]. split.
    + eapply np_take_of_shape; [| exact Hxl]. apply of_shape_repeat. reflexivity.
    + apply of_shape_repeat. reflexivity.
Qed.

(** C2 on the sample collaborators and data, bounds [[-0.01, 0.01]]. *)
Lemma C2_scenario_witness :
  scenario_outcome Sample.scenario
                   (Train.run (Sample.train_collab true) Sample.scenario tt)
  /\ scenario_outcome Sample.scenario
                      (TrainOneByOne.run (Sample.one_by_one_collab true)
                                         Sample.scenario tt).
Proof.
  apply (@C2_scenario_runs_to_completion
           unit (Sample.train_collab true) (Sample.one_by_one_collab true)
           Sample.samples 100 (5 # 1000)%Q (5 # 100000)%Q (-1 # 100)%Q (1 # 100)%Q
           "mgd" "wasserstein_loss" false tt).
  - vm_compute. discriminate.
  - exact sample_train_collab_reliable.
  - exact sample_one_by_one_collab_reliable.
  - exact sample_first_batch_available.
  - apply sample_train_batches_agree. reflexivity.
  - apply sample_one_by_one_batches_agree; reflexivity.
Defined.

(** C2 as stated fails: in the scenario each script makes one critic
    update and one stacked update, not two; and with a critic update
    that moves the weights (here up by one) the discriminator ends with
    the weights 1.01 and 0.99, outside the bounds [[-0.01, 0.01]]. *)
Lemma C2_scenario_counterexample :
  match Train.run (Sample.train_collab true) Sample.scenario tt with
  | Ok t _ s =>
      count_disc 0 t = 1%nat /\ count_stacked 0 t = 1%nat
      /\ layers (d_model (store s 0%Z))
         = [mkLayer "dense_1" [[(101 # 100)%Q; (99 # 100)%Q]]]
  | Raise _ _ _ => False
  end
  /\ match TrainOneByOne.run (Sample.one_by_one_collab true) Sample.scenario tt with
     | Ok t _ s =>
         count_disc 0 t = 1%nat /\ count_stacked 0 t = 1%nat
         /\ layers (d_model (store s 0%Z))
            = [mkLayer "dense_1" [[(101 # 100)%Q; (99 # 100)%Q]]]
     | Raise _ _ _ => False
     end
  /\ ~ Np.in_bounds (-1 # 100) (1 # 100) (101 # 100)%Q.
Proof.
  split; [vm_compute; repeat split; reflexivity |].
  split; [vm_compute; repeat split; reflexivity |].
  intros [_ H]. vm_compute in H. now apply H.
Qed.

(** ** The Wasserstein loss on the batches the scripts build *)

Lemma sum_app (a b : list Q) : (Loss.sum (a ++ b) == Loss.sum a + Loss.sum b)%Q.
Proof.
  unfold Loss.sum. induction a as [| x a IH]; cbn [app fold_right].
  - ring.
  - rewrite IH. ring.
Qed.

Lemma sum_scaled (c : Q) (l : list Q) :
  (Loss.sum (map (Qmult c) l) == c * Loss.sum l)%Q.
Proof.
  unfold Loss.sum. induction l as [| x l IH]; cbn [map fold_right].
  - ring.
  - rewrite IH. ring.
Qed.

(** The products of a constant label with the scores, then the rest. *)
Lemma flatten_mul_constant (c : Q) (l : list Q) (T S : Np.tensor3) :
  Loss.flatten (Loss.mul (repeat [[c]] (List.length l) ++ T) (Loss.scores l ++ S))
  = map (Qmult c) l ++ Loss.flatten (Loss.mul T S).
Proof.
  unfold Loss.flatten, Loss.mul, Loss.scores.
  induction l as [| x l IH]; [reflexivity |].
  cbn [List.length repeat map app zip_with List.concat]. now rewrite IH.
Qed.

Lemma flatten_mul_nil : Loss.flatten (Loss.mul [] []) = [].
Proof. reflexivity. Qed.

(** The mean of the products on a critic batch, in exact arithmetic:
    the scores of the generated samples count positively, those of the
    real samples negatively. *)
Lemma critic_loss_value (real gen : list Q) :
  (Loss.wasserstein_loss
     (Np.neg (Np.ones (List.length real)) ++ Np.ones (List.length gen))
     (Loss.scores (real ++ gen))
   == (Loss.sum gen - Loss.sum real)
      / inject_Z (Z.of_nat (List.length (real ++ gen))))%Q.
Proof.
  unfold Loss.wasserstein_loss, Loss.mean.
  rewrite neg_ones. unfold Np.ones, Loss.scores at 1 2. rewrite map_app.
  fold (Loss.scores real). fold (Loss.scores gen).
  rewrite flatten_mul_constant.
  rewrite <- (app_nil_r (repeat [[1%Q]] (List.length gen))).
  rewrite <- (app_nil_r (Loss.scores gen)).
  rewrite flatten_mul_constant, flatten_mul_nil, app_nil_r.
  rewrite !length_app, !length_map.
  unfold Qdiv. apply Qmult_comp; [| reflexivity].
  rewrite sum_app, !sum_scaled. ring.
Qed.

Lemma sum_le (l l' : list Q) : Forall2 Qle l l' -> (Loss.sum l <= Loss.sum l')%Q.
Proof.
  unfold Loss.sum. induction 1 as [| x y l l' Hxy _ IH]; cbn [fold_right].
  - apply Qle_refl.
  - now apply Qplus_le_compat.
Qed.

(** X13.  What the critic's loss rewards.  On a batch labelled as the
    docstring says and as the scripts label their critic batches (the
    real samples -1, then the generated ones +1), the Wasserstein loss
    does not grow when the scores of the real samples are raised and
    those of the generated samples are lowered: the critic lowers its
    loss by scoring the real samples higher and the generated ones
    lower.  (The values are rationals; rounding keeps the order.) *)
Theorem X13_wasserstein_loss_orders_critic_scores (real real' gen gen' : list Q) :
  Forall2 Qle real real' ->
  Forall2 Qle gen' gen ->
  (Loss.wasserstein_loss
     (Np.neg (Np.ones (List.length real')) ++ Np.ones (List.length gen'))
     (Loss.scores (real' ++ gen'))
   <= Loss.wasserstein_loss
        (Np.neg (Np.ones (List.length real)) ++ Np.ones (List.length gen))
        (Loss.scores (real ++ gen)))%Q.
Proof.
  intros Hreal Hgen. rewrite !critic_loss_value.
  rewrite !length_app.
  rewrite <- (Forall2_length Hreal), (Forall2_length Hgen).
  unfold Qdiv. apply Qmult_le_compat_r.
  - apply sum_le in Hreal. apply sum_le in Hgen. lra.
  - apply Qinv_le_0_compat. change 0%Q with (inject_Z 0).
    rewrite <- Zle_Qle. lia.
Qed.

Lemma X13_wasserstein_loss_witness :
  (Loss.wasserstein_loss
     (Np.neg (Np.ones 2) ++ Np.ones 1) (Loss.scores ([4; 5]%Q ++ [0]%Q))
   <= Loss.wasserstein_loss
        (Np.neg (Np.ones 2) ++ Np.ones 1) (Loss.scores ([3; 5]%Q ++ [1]%Q)))%Q.
Proof.
  apply (@X13_wasserstein_loss_orders_critic_scores [3; 5]%Q [4; 5]%Q [1]%Q [0]%Q).
  - repeat constructor; discriminate.
  - repeat constructor; discriminate.
Defined.

(** X14.  The loss of a generator update.  With the target the
    generator phase passes (every label -1, as for real samples), the
    Wasserstein loss of the stacked model is minus the mean score of
    the generated samples: lowering it raises the critic's scores. *)
Theorem X14_wasserstein_loss_of_generator_target (generated : list Q) :
  generated <> [] ->
  (Loss.wasserstein_loss (repeat [[(-1)%Q]] (List.length generated))
                         (Loss.scores generated)
   == - (Loss.sum generated / inject_Z (Z.of_nat (List.length generated))))%Q.
Proof.
  intros _. unfold Loss.wasserstein_loss, Loss.mean.
  rewrite <- (app_nil_r (repeat _ _)), <- (app_nil_r (Loss.scores generated)).
  rewrite flatten_mul_constant, flatten_mul_nil, app_nil_r, length_map.
  rewrite sum_scaled. unfold Qdiv. ring.
Qed.

Lemma X14_wasserstein_loss_witness :
  ([2; 4]%Q <> [])
  /\ (Loss.wasserstein_loss (repeat [[(-1)%Q]] 2) (Loss.scores [2; 4]%Q)
      == - (Loss.sum [2; 4]%Q / inject_Z 2))%Q.
Proof.
  split; [discriminate |].
  apply (@X14_wasserstein_loss_of_generator_target [2; 4]%Q). discriminate.
Defined.

(** ** The swc matrix of the plotting helpers *)

Import PlotUtils.

Lemma range2_cons (a : Z) (n : nat) :
  Np.range2 a (a + Z.of_nat (S n)) = a :: Np.range2 (a + 1) (a + 1 + Z.of_nat n).
Proof.
  unfold Np.range2.
  replace (Z.to_nat (a + Z.of_nat (S n) - a)) with (S n) by lia.
  replace (Z.to_nat (a + 1 + Z.of_nat n - (a + 1))) with n by lia.
  cbn [seq map]. f_equal; [lia |].
  rewrite <- seq_shift, map_map. apply map_ext. intros i. lia.
Qed.

(** The rows below the first, after the five assignments that reach
    them. *)
Lemma node_rows_assigned (prows : list (list Q)) :
  forall (k : nat) (locs : list (list Q)),
    List.length locs = List.length prows ->
    Forall (fun loc => List.length loc = 3%nat) locs ->
    zip_with (set_at 6)
             (map (fun i => inject_Z (Z.of_nat i + 1)) (map argmax prows))
             (zip_with (set_span 2) locs
                (zip_with (set_at 1) (repeat 2%Q (List.length prows))
                   (zip_with (set_at 0)
                      (map inject_Z
                           (Np.range2 (Z.of_nat k + 2)
                                      (Z.of_nat k + 2 + Z.of_nat (List.length prows))))
                      (repeat (repeat 0%Q 7) (List.length prows)))))
    = node_rows k locs prows.
Proof.
  induction prows as [| prow prows IH]; intros k locs Hlen Hlocs.
  - destruct locs; [reflexivity | discriminate].
  - destruct locs as [| loc locs]; [discriminate |].
    inversion Hlocs as [| ? ? Hloc Hrest]; subst.
    destruct loc as [| x [| y [| z [| ? ?]]]]; try discriminate.
    cbn [List.length]. rewrite range2_cons.
    cbn [map repeat zip_with node_rows]. f_equal.
    replace (Z.of_nat k + 2 + 1)%Z with (Z.of_nat (S k) + 2)%Z by lia.
    apply IH; [now injection Hlen | exact Hrest].
Qed.

(** What the broadcast hands to the block assignment. *)
Lemma broadcast_rows (a : ndarray) (n : nat) (locs : list (list Q)) :
  shaped a ->
  broadcast (squeeze a) n 3 = Some locs ->
  List.length locs = n /\ Forall (fun loc => List.length loc = 3%nat) locs.
Proof.
  intros Ha. unfold broadcast. destruct (squeeze a) as [x | v | b] eqn:Hsq.
  - intros [= <-]. split; [apply repeat_length |].
    apply Forall_forall. intros loc Hin. apply repeat_spec in Hin. now subst.
  - destruct (List.length v =? 3)%nat eqn:Hv; [| discriminate].
    apply Nat.eqb_eq in Hv. intros [= <-]. split; [apply repeat_length |].
    apply Forall_forall. intros loc Hin. apply repeat_spec in Hin. now subst.
  - assert (b = a) as ->.
    { unfold squeeze in Hsq.
      destruct (rows a) as [| r [| r' rs]]; destruct (ncols a) as [| [| c]];
        congruence. }
    destruct (nrows a =? n)%nat eqn:Hn; [| discriminate].
    destruct (ncols a =? 3)%nat eqn:Hc; [| discriminate].
    apply Nat.eqb_eq in Hn, Hc. intros [= <-]. split; [exact Hn |].
    unfold shaped in Ha. now rewrite Hc in Ha.
Qed.

Lemma argmax_axis1_rows (a : ndarray) (am : list nat) :
  argmax_axis1 (squeeze a) = inr am ->
  am = map argmax (rows a) /\ squeeze a = Matrix a /\ ncols a <> 0%nat.
Proof.
  unfold argmax_axis1. destruct (squeeze a) as [x | v | b] eqn:Hsq; try discriminate.
  assert (b = a) as ->.
  { unfold squeeze in Hsq.
    destruct (rows a) as [| r [| r' rs]]; destruct (ncols a) as [| [| c]];
      congruence. }
  destruct (ncols a =? 0)%nat eqn:Hc; [discriminate |].
  apply Nat.eqb_neq in Hc. intros [= <-]. auto.
Qed.

(** The matrix, once the two arrays pass the squeeze and the broadcast:
    the row of the soma, then one row per row of [X_parent]. *)
Lemma swc_matrix_rows (X_locations X_parent : ndarray) :
  shaped X_locations ->
  swc_matrix X_locations X_parent
  = match argmax_axis1 (squeeze X_parent) with
    | inl e => inl e
    | inr _ =>
        match broadcast (squeeze X_locations) (nrows X_parent) 3 with
        | None => inl ValueError
        | Some locs => inr (soma_row :: node_rows 0 locs (rows X_parent))
        end
    end.
Proof.
  intros Hl. unfold swc_matrix.
  destruct (argmax_axis1 (squeeze X_parent)) as [e | am] eqn:Ham; [reflexivity |].
  apply argmax_axis1_rows in Ham. destruct Ham as [-> [_ _]].
  rewrite !length_map. fold (nrows X_parent).
  destruct (broadcast (squeeze X_locations) (nrows X_parent) 3) as [locs |] eqn:Hb;
    [| reflexivity].
  destruct (broadcast_rows _ Hl Hb) as [Hlen Hlocs].
  f_equal. unfold zeros, arange. rewrite Nat.add_1_r.
  replace (Z.of_nat (nrows X_parent) + 2)%Z
    with (1 + Z.of_nat (S (nrows X_parent)))%Z by lia.
  rewrite range2_cons.
  cbn [map repeat assign_col zip_with assign_top assign_col_below assign_block_below].
  unfold soma_row. f_equal.
  change (1 + 1)%Z with (Z.of_nat 0 + 2)%Z. unfold nrows.
  apply node_rows_assigned; [exact Hlen | exact Hlocs].
Qed.

(** The scan keeps the first index of the largest entry seen so far. *)
Lemma argmax_from_spec (r : list Q) :
  forall (pre : list Q) (best : Q) (at_best : nat),
    (at_best < List.length pre)%nat ->
    nth at_best pre 0%Q = best ->
    (forall i, (i < List.length pre)%nat -> (nth i pre 0 <= best)%Q) ->
    (forall i, (i < at_best)%nat -> (nth i pre 0 < best)%Q) ->
    let j := argmax_from best at_best (List.length pre) r in
    (j < List.length (pre ++ r))%nat
    /\ (forall i, (i < List.length (pre ++ r))%nat ->
                  (nth i (pre ++ r) 0 <= nth j (pre ++ r) 0)%Q)
    /\ (forall i, (i < j)%nat -> (nth i (pre ++ r) 0 < nth j (pre ++ r) 0)%Q).
Proof.
  induction r as [| x r IH]; intros pre best at_best Hat Hbest Hmax Hfirst.
  - cbn [argmax_from]. rewrite app_nil_r, Hbest. auto.
  - cbn [argmax_from].
    replace (pre ++ x :: r) with ((pre ++ [x]) ++ r) by now rewrite <- app_assoc.
    replace (S (List.length pre)) with (List.length (pre ++ [x]))
      by (rewrite length_app; cbn; lia).
    destruct (Qle_bool x best) eqn:Hx.
    + apply Qle_bool_iff in Hx. apply IH.
      * rewrite length_app. cbn. lia.
      * rewrite app_nth1; assumption.
      * intros i Hi. rewrite length_app in Hi. cbn in Hi.
        destruct (Nat.eq_dec i (List.length pre)) as [-> | Hne].
        -- rewrite app_nth2, Nat.sub_diag; [exact Hx | lia].
        -- rewrite app_nth1; [apply Hmax |]; lia.
      * intros i Hi. rewrite app_nth1; [apply Hfirst; exact Hi | lia].
    + assert (Hlt : (best < x)%Q).
      { apply Qnot_le_lt. intros Hle. apply Qle_bool_iff in Hle. congruence. }
      apply IH.
      * rewrite !length_app. cbn. lia.
      * rewrite app_nth2, Nat.sub_diag; [reflexivity | lia].
      * intros i Hi. rewrite length_app in Hi. cbn in Hi.
        destruct (Nat.eq_dec i (List.length pre)) as [-> | Hne].
        -- rewrite app_nth2, Nat.sub_diag; [apply Qle_refl | lia].
        -- rewrite app_nth1 by lia. apply Qlt_le_weak.
           eapply Qle_lt_trans; [apply Hmax; lia | exact Hlt].
      * intros i Hi. rewrite app_nth1 by lia.
        eapply Qle_lt_trans; [apply Hmax; lia | exact Hlt].
Qed.

(** [argmax] is the first index of the maximum of a row that has one. *)
Lemma argmax_spec (r : list Q) :
  r <> [] ->
  (argmax r < List.length r)%nat
  /\ (forall i, (i < List.length r)%nat -> (nth i r 0 <= nth (argmax r) r 0)%Q)
  /\ (forall i, (i < argmax r)%nat -> (nth i r 0 < nth (argmax r) r 0)%Q).
Proof.
  destruct r as [| x r]; [congruence |]. intros _. unfold argmax.
  apply (argmax_from_spec r [x] (best := x) (at_best := 0)).
  - cbn. lia.
  - reflexivity.
  - intros i Hi. cbn in Hi. assert (i = 0)%nat as -> by lia. apply Qle_refl.
  - intros i Hi. lia.
Qed.

Lemma node_rows_nth (prows : list (list Q)) :
  forall (locs : list (list Q)) (k i : nat) (prow : list Q),
    List.length locs = List.length prows ->
    nth_error prows i = Some prow ->
    exists loc, nth_error locs i = Some loc
                /\ nth_error (node_rows k locs prows) i
                   = Some (node_row (k + i) loc prow).
Proof.
  induction prows as [| p prows IH]; intros locs k i prow Hlen Hi.
  - destruct i; discriminate.
  - destruct locs as [| loc locs]; [discriminate |].
    destruct i as [| i]; cbn [nth_error node_rows] in *.
    + injection Hi as <-. exists loc. now rewrite Nat.add_0_r.
    + destruct (IH locs (S k) i prow) as [loc' [Hloc Hrow]];
        [now injection Hlen | exact Hi |].
      exists loc'. split; [exact Hloc |].
      now replace (k + S i)%nat with (S k + i)%nat by lia.
Qed.

Lemma node_rows_length (prows : list (list Q)) :
  forall (locs : list (list Q)) (k : nat),
    List.length locs = List.length prows ->
    List.length (node_rows k locs prows) = List.length prows.
Proof.
  induction prows as [| p prows IH]; intros locs k Hlen.
  - destruct locs; [reflexivity | discriminate].
  - destruct locs as [| loc locs]; [discriminate |].
    cbn [node_rows List.length]. f_equal. apply IH. now injection Hlen.
Qed.

(** An array with neither extent equal to one is left as it is. *)
Lemma squeeze_matrix (a : ndarray) :
  nrows a <> 1%nat -> ncols a <> 1%nat -> squeeze a = Matrix a.
Proof.
  unfold squeeze, nrows. intros Hn Hc.
  destruct (rows a) as [| r [| r' rs]]; destruct (ncols a) as [| [| c]];
    cbn in *; try reflexivity; lia.
Qed.

(** X15.  The swc matrix of two arrays that match.  For locations of
    shape (n, 3) and a parent array of shape (n, c) with n other than
    1 and c at least 2, the matrix has the row of the soma (id 1, type
    1, at the origin, parent -1) and then one row per node: id i + 2,
    type 2, the three coordinates of the node, radius 0, and as parent
    one plus the first index of the maximum of its row of [X_parent]. *)
Theorem X15_swc_matrix_of_matching_arrays (X_locations X_parent : ndarray) :
  shaped X_locations -> shaped X_parent ->
  nrows X_parent <> 1%nat -> (2 <= ncols X_parent)%nat ->
  nrows X_locations = nrows X_parent -> ncols X_locations = 3%nat ->
  swc_matrix X_locations X_parent
  = inr (soma_row :: node_rows 0 (rows X_locations) (rows X_parent)).
Proof.
  intros Hl _ Hn Hc Hrows Hcols. rewrite swc_matrix_rows by exact Hl.
  rewrite !squeeze_matrix by lia. cbn [argmax_axis1 broadcast].
  destruct (ncols X_parent =? 0)%nat eqn:E; [apply Nat.eqb_eq in E; lia |].
  now rewrite Hrows, Hcols, !Nat.eqb_refl.
Qed.

Lemma X15_swc_matrix_witness :
  swc_matrix (mkNd [[1; 2; 3]; [4; 5; 6]]%Q 3) (mkNd [[0; 1; 0]; [1; 0; 0]]%Q 3)
  = inr [[1; 1; 0; 0; 0; 0; -1]; [2; 2; 1; 2; 3; 0; 2]; [3; 2; 4; 5; 6; 0; 1]]%Q.
Proof.
  apply (@X15_swc_matrix_of_matching_arrays
           (mkNd [[1; 2; 3]; [4; 5; 6]]%Q 3) (mkNd [[0; 1; 0]; [1; 0; 0]]%Q 3)).
  - repeat constructor.
  - repeat constructor.
  - cbn. lia.
  - cbn. lia.
  - reflexivity.
  - reflexivity.
Defined.

(** X16.  The parents of a matrix that was built.  Whenever the matrix
    is built it has one row more than [X_parent]; the first row, the
    soma, has parent -1; the row of every node has as parent an id
    between 1 and the number of columns of [X_parent], namely one plus
    the index of an entry of its row of [X_parent] that no entry of the
    row exceeds. *)
Theorem X16_swc_parents_come_from_the_row_maxima
        (X_locations X_parent : ndarray) (M : list (list Q)) :
  shaped X_locations -> shaped X_parent ->
  swc_matrix X_locations X_parent = inr M ->
  List.length M = S (nrows X_parent)
  /\ nth 6 (nth 0 M []) 0%Q = (-1)%Q
  /\ forall i prow,
       nth_error (rows X_parent) i = Some prow ->
       exists j, nth 6 (nth (S i) M []) 0%Q = inject_Z (Z.of_nat j + 1)
                 /\ (j < ncols X_parent)%nat
                 /\ (forall x, In x prow -> (x <= nth j prow 0)%Q).
Proof.
  intros Hl Hp. rewrite swc_matrix_rows by exact Hl.
  destruct (argmax_axis1 (squeeze X_parent)) as [e | am] eqn:Ham; [discriminate |].
  apply argmax_axis1_rows in Ham. destruct Ham as [_ [_ Hc]].
  destruct (broadcast (squeeze X_locations) (nrows X_parent) 3) as [locs |] eqn:Hb;
    [| discriminate].
  destruct (broadcast_rows _ Hl Hb) as [Hlen Hlocs]. intros [= <-].
  split; [cbn [List.length]; f_equal; now apply node_rows_length |].
  split; [reflexivity |].
  intros i prow Hi. cbn [nth].
  destruct (node_rows_nth (rows X_parent) locs 0 i Hlen Hi) as [loc [Hloc Hrow]].
  apply (nth_error_nth _ _ []) in Hrow. rewrite Hrow.
  assert (Hloc3 : List.length loc = 3%nat).
  { eapply Forall_forall in Hlocs; [exact Hlocs |]. eapply nth_error_In; eauto. }
  assert (Hprow : List.length prow = ncols X_parent).
  { unfold shaped in Hp. eapply Forall_forall in Hp; [exact Hp |].
    eapply nth_error_In; eauto. }
  destruct (argmax_spec (r := prow)) as [Hlt [Hmax _]].
  { intros ->. cbn in Hprow. lia. }
  exists (argmax prow). split; [| split].
  - destruct loc as [| x [| y [| z [| ? ?]]]]; try discriminate. reflexivity.
  - lia.
  - intros x Hx. destruct (In_nth _ _ 0%Q Hx) as [k [Hk <-]]. now apply Hmax.
Qed.

Lemma X16_swc_parents_witness :
  List.length [[1; 1; 0; 0; 0; 0; -1]; [2; 2; 1; 2; 3; 0; 2]; [3; 2; 4; 5; 6; 0; 1]]%Q
  = 3%nat
  /\ nth 6 (nth 0 [[1; 1; 0; 0; 0; 0; -1]; [2; 2; 1; 2; 3; 0; 2];
                   [3; 2; 4; 5; 6; 0; 1]]%Q []) 0%Q = (-1)%Q
  /\ forall i prow,
       nth_error [[0; 1; 0]; [1; 0; 0]]%Q i = Some prow ->
       exists j, nth 6 (nth (S i) [[1; 1; 0; 0; 0; 0; -1]; [2; 2; 1; 2; 3; 0; 2];
                                   [3; 2; 4; 5; 6; 0; 1]]%Q []) 0%Q
                 = inject_Z (Z.of_nat j + 1)
                 /\ (j < 3)%nat
                 /\ (forall x, In x prow -> (x <= nth j prow 0)%Q).
Proof.
  apply (@X16_swc_parents_come_from_the_row_maxima
           (mkNd [[1; 2; 3]; [4; 5; 6]]%Q 3) (mkNd [[0; 1; 0]; [1; 0; 0]]%Q 3)).
  - repeat constructor.
  - repeat constructor.
  - reflexivity.
Defined.

Lemma one_hot_length (c j : nat) : List.length (one_hot c j) = c.
Proof. unfold one_hot. now rewrite length_map, length_seq. Qed.

Lemma one_hot_nth (c j i : nat) :
  (i < c)%nat -> nth i (one_hot c j) 0%Q = if (i =? j)%nat then 1%Q else 0%Q.
Proof.
  intros Hi. unfold one_hot.
  set (f := fun k : nat => if (k =? j)%nat then 1%Q else 0%Q).
  rewrite (nth_indep _ 0%Q (f 0%nat)) by now rewrite length_map, length_seq.
  rewrite map_nth, seq_nth by exact Hi. reflexivity.
Qed.

(** Decoding a one-hot row gives back the index it encodes. *)
Lemma argmax_one_hot (c j : nat) : (j < c)%nat -> argmax (one_hot c j) = j.
Proof.
  intros Hj. destruct (argmax_spec (r := one_hot c j)) as [Hlt [Hmax _]].
  { intros H. apply (f_equal (@List.length Q)) in H.
    rewrite one_hot_length in H. cbn in H. lia. }
  rewrite one_hot_length in Hlt, Hmax. specialize (Hmax j Hj).
  rewrite !one_hot_nth in Hmax by assumption. rewrite Nat.eqb_refl in Hmax.
  destruct (argmax (one_hot c j) =? j)%nat eqn:E; [now apply Nat.eqb_eq in E |].
  exfalso. revert Hmax. apply Qlt_not_le. reflexivity.
Qed.

Lemma parent_column_one_hot (c : nat) (js : list nat) :
  Forall (fun j => (j < c)%nat) js ->
  forall (k : nat) (locs : list (list Q)),
    Forall (fun loc => List.length loc = 3%nat) locs ->
    List.length locs = List.length js ->
    map (fun row => nth 6 row 0%Q) (node_rows k locs (map (one_hot c) js))
    = map (fun j => inject_Z (Z.of_nat j + 1)) js.
Proof.
  induction 1 as [| j js Hj Hjs IH]; intros k locs Hlocs Hlen.
  - destruct locs; [reflexivity | discriminate].
  - destruct locs as [| loc locs]; [discriminate |].
    inversion Hlocs as [| ? ? Hloc Hrest]; subst.
    destruct loc as [| x [| y [| z [| ? ?]]]]; try discriminate.
    cbn [map node_rows]. f_equal.
    + unfold node_row. cbn [app nth]. now rewrite argmax_one_hot.
    + apply IH; [exact Hrest | now injection Hlen].
Qed.

(** X17.  One-hot parents are decoded.  When row i of [X_parent] is
    the one-hot row of an index [js_i] below the number of columns,
    the parent column of the matrix reads -1 for the soma and
    [js_i + 1] for node i. *)
Theorem X17_swc_matrix_decodes_one_hot_parents
        (locs : list (list Q)) (c : nat) (js : list nat) :
  Forall (fun loc => List.length loc = 3%nat) locs ->
  List.length locs = List.length js ->
  List.length js <> 1%nat -> (2 <= c)%nat ->
  Forall (fun j => (j < c)%nat) js ->
  exists M,
    swc_matrix (mkNd locs 3) (mkNd (map (one_hot c) js) c) = inr M
    /\ map (fun row => nth 6 row 0%Q) M
       = (-1)%Q :: map (fun j => inject_Z (Z.of_nat j + 1)) js.
Proof.
  intros Hlocs Hlen Hn Hc Hjs. eexists. split.
  - rewrite swc_matrix_rows by exact Hlocs.
    rewrite !squeeze_matrix
      by (unfold nrows; cbn [rows ncols]; rewrite ?length_map; lia).
    cbn [argmax_axis1 broadcast ncols rows]. unfold nrows. cbn [rows].
    destruct (c =? 0)%nat eqn:E; [apply Nat.eqb_eq in E; lia |].
    rewrite length_map, Hlen, !Nat.eqb_refl. reflexivity.
  - cbn [map rows]. f_equal. now apply parent_column_one_hot.
Qed.

Lemma X17_swc_one_hot_witness :
  exists M,
    swc_matrix (mkNd [[1; 2; 3]; [4; 5; 6]]%Q 3)
               (mkNd (map (one_hot 3) [1; 0]%nat) 3) = inr M
    /\ map (fun row => nth 6 row 0%Q) M
       = (-1)%Q :: map (fun j => inject_Z (Z.of_nat j + 1)) [1; 0]%nat.
Proof.
  apply (@X17_swc_matrix_decodes_one_hot_parents
           [[1; 2; 3]; [4; 5; 6]]%Q 3 [1; 0]%nat).
  - repeat constructor.
  - reflexivity.
  - cbn. lia.
  - lia.
  - repeat constructor.
Defined.

(** X18.  What the matrix cannot be built from.  A parent array with
    exactly one row, or with fewer than two columns, raises a
    [ValueError] whatever the locations are: squeezed, it has no axis
    1, or the axis is empty.  With a parent array of n rows (n other
    than 1) and at least two columns, a locations array that keeps two
    dimensions when squeezed and is not of shape (n, 3) raises a
    [ValueError] at the block assignment. *)
Theorem X18_swc_matrix_shape_errors (X_locations X_parent : ndarray) :
  (nrows X_parent = 1%nat \/ (ncols X_parent <= 1)%nat ->
   swc_matrix X_locations X_parent = inl ValueError)
  /\ (nrows X_parent <> 1%nat -> (2 <= ncols X_parent)%nat ->
      nrows X_locations <> 1%nat -> ncols X_locations <> 1%nat ->
      nrows X_locations <> nrows X_parent \/ ncols X_locations <> 3%nat ->
      swc_matrix X_locations X_parent = inl ValueError).
Proof.
  split.
  - intros H. destruct X_parent as [rs c]. unfold swc_matrix, squeeze, nrows in *.
    cbn [rows ncols] in *.
    destruct rs as [| r [| r' rs]]; destruct c as [| [| c]]; cbn in *;
      try reflexivity; destruct H; try discriminate; lia.
  - intros Hn Hc Hm Hk Hbad. unfold swc_matrix.
    rewrite !squeeze_matrix by lia. cbn [argmax_axis1 broadcast].
    destruct (ncols X_parent =? 0)%nat eqn:E; [apply Nat.eqb_eq in E; lia |].
    rewrite length_map, length_map. fold (nrows X_parent).
    destruct (nrows X_locations =? nrows X_parent)%nat eqn:E1;
      destruct (ncols X_locations =? 3)%nat eqn:E2; cbn [andb]; try reflexivity.
    apply Nat.eqb_eq in E1, E2. destruct Hbad; contradiction.
Qed.

Lemma X18_swc_matrix_shape_errors_witness :
  swc_matrix (mkNd [[1; 2; 3]]%Q 3) (mkNd [[0; 1; 0]]%Q 3) = inl ValueError
  /\ swc_matrix (mkNd [[1; 2]; [4; 5]]%Q 2) (mkNd [[0; 1; 0]; [1; 0; 0]]%Q 3)
     = inl ValueError.
Proof.
  split.
  - apply (proj1 (X18_swc_matrix_shape_errors
                    (mkNd [[1; 2; 3]]%Q 3) (mkNd [[0; 1; 0]]%Q 3))).
    left. reflexivity.
  - apply (proj2 (X18_swc_matrix_shape_errors
                    (mkNd [[1; 2]; [4; 5]]%Q 2) (mkNd [[0; 1; 0]; [1; 0; 0]]%Q 3)));
      cbn; try lia.
Defined.

(** ** Every critic update starts from clipped weights *)

Section Clipped.

Variable World : Type.
Variable cfg : config.

Hypothesis bounds_ordered : (fst (weight_constraint cfg) <= snd (weight_constraint cfg))%Q.

Let phi := clipped_at_critic (weight_constraint cfg).
Let top := fun _ : state World => True.
Let any := fun (_ : exn) (_ : state World) => True.

Ltac clipped_leaf :=
  let s := fresh "s" in
  intros s _; run_exec; (split; [| exact I]); try solve [repeat constructor];
  (constructor; [| constructor]); cbn; flag_cbn;
  destruct (weight_constraint cfg) as [lo hi];
  apply clip_weights_in_bounds; exact bounds_ordered.

Lemma train_run_clipped (K : Train.Collab World) (w : World) :
  Forall phi (trace_of (Train.run K cfg w)).
Proof.
  unfold Train.run. eapply triple_trace with (P := top); [| exact I].
  apply train_model_triple with (E := any).
  - intros l _. unfold Train.setup_level. trivial_leaf.
  - intros l _. unfold Train.compile_level, Train.do_compile. trivial_leaf.
  - intros l e bc _ _ _.
    apply train_outer_iteration_triple with (J1 := top) (J2 := top) (J3 := top).
    + intros; exact I.
    + apply triple_for_each. intros _ _. unfold Train.critic_iteration. clipped_leaf.
    + unfold Train.report_disc_loss. trivial_leaf.
    + unfold Train.generator_phase. trivial_leaf.
    + unfold Train.housekeeping. trivial_leaf.
Qed.

Lemma one_by_one_run_clipped (K : TrainOneByOne.Collab World) (w : World) :
  Forall phi (trace_of (TrainOneByOne.run K cfg w)).
Proof.
  unfold TrainOneByOne.run. eapply triple_trace with (P := top); [| exact I].
  apply one_by_one_model_triple with (E := any).
  - intros l _. unfold TrainOneByOne.setup_level. trivial_leaf.
  - intros l _. unfold TrainOneByOne.compile_level, TrainOneByOne.do_compile.
    trivial_leaf.
  - intros l e bc _ _ _.
    apply one_by_one_outer_iteration_triple with (J1 := top) (J2 := top) (J3 := top).
    + intros; exact I.
    + apply triple_for_each. intros _ _. unfold TrainOneByOne.critic_iteration.
      clipped_leaf.
    + unfold TrainOneByOne.report_disc_loss. trivial_leaf.
    + unfold TrainOneByOne.generator_phase, TrainOneByOne.alternation. trivial_leaf.
    + unfold TrainOneByOne.housekeeping. trivial_leaf.
Qed.

End Clipped.

(** X3.  The critic is always updated from clipped weights.  With clip
    bounds [low <= high], in every run of [train_model] of [train.py]
    and of [train_one_by_one.py], whatever the configuration and
    however the run ends, each critic update is called on a
    discriminator all of whose weights lie within the bounds. *)
Theorem X3_every_critic_update_starts_clipped
        (World : Type) (K : Train.Collab World) (K' : TrainOneByOne.Collab World)
        (cfg : config) (w : World) :
  (fst (weight_constraint cfg) <= snd (weight_constraint cfg))%Q ->
  Forall (clipped_at_critic (weight_constraint cfg)) (trace_of (Train.run K cfg w))
  /\ Forall (clipped_at_critic (weight_constraint cfg))
            (trace_of (TrainOneByOne.run K' cfg w)).
Proof.
  intros Hle. split.
  - now apply train_run_clipped.
  - now apply one_by_one_run_clipped.
Qed.

Lemma X3_critic_clipped_witness :
  Forall (clipped_at_critic (weight_constraint (Sample.two_levels 2 2 3 3)))
         (trace_of (Train.run (Sample.train_collab true) (Sample.two_levels 2 2 3 3) tt))
  /\ Forall (clipped_at_critic (weight_constraint (Sample.two_levels 2 2 3 3)))
            (trace_of (TrainOneByOne.run (Sample.one_by_one_collab true)
                                         (Sample.two_levels 2 2 3 3) tt)).
Proof.
  apply (@X3_every_critic_update_starts_clipped
           unit (Sample.train_collab true) (Sample.one_by_one_collab true)
           (Sample.two_levels 2 2 3 3) tt).
  vm_compute. discriminate.
Defined.

(** ** What the events of a run show *)

(** Settles a property of each event of a trace with [tac]. *)
Ltac each_event tac :=
  repeat first [ apply Forall_nil | apply Forall_cons; [tac |] ].

Ltac decided_tests :=
  repeat match goal with
         | H : (_ =? _)%Z = true |- _ => apply Z.eqb_eq in H
         end.

(** *** Reporting *)

Section Reports.

Variable World : Type.
Variable cfg : config.

Let top := fun _ : state World => True.
Let any := fun (_ : exn) (_ : state World) => True.

Ltac quiet_leaf :=
  let s := fresh "s" in
  intros s _; run_exec; (split; [| exact I]);
  each_event ltac:(cbn; decided_tests; auto).

Lemma train_run_reports (K : Train.Collab World) (w : World) :
  Forall (reports_every_25 cfg) (trace_of (Train.run K cfg w)).
Proof.
  unfold Train.run. eapply triple_trace with (P := top); [| exact I].
  apply train_model_triple with (E := any).
  - intros l _. unfold Train.setup_level. quiet_leaf.
  - intros l _. unfold Train.compile_level, Train.do_compile. quiet_leaf.
  - intros l e bc _ _ _.
    apply train_outer_iteration_triple with (J1 := top) (J2 := top) (J3 := top).
    + intros; exact I.
    + apply triple_for_each. intros _ _. unfold Train.critic_iteration. quiet_leaf.
    + unfold Train.report_disc_loss. quiet_leaf.
    + unfold Train.generator_phase. quiet_leaf.
    + unfold Train.housekeeping. quiet_leaf.
Qed.

Lemma one_by_one_run_reports (K : TrainOneByOne.Collab World) (w : World) :
  Forall (reports_when_verbose cfg) (trace_of (TrainOneByOne.run K cfg w)).
Proof.
  unfold TrainOneByOne.run. eapply triple_trace with (P := top); [| exact I].
  apply one_by_one_model_triple with (E := any).
  - intros l _. unfold TrainOneByOne.setup_level. quiet_leaf.
  - intros l _. unfold TrainOneByOne.compile_level, TrainOneByOne.do_compile.
    quiet_leaf.
  - intros l e bc _ _ _.
    apply one_by_one_outer_iteration_triple with (J1 := top) (J2 := top) (J3 := top).
    + intros; exact I.
    + apply triple_for_each. intros _ _. unfold TrainOneByOne.critic_iteration.
      quiet_leaf.
    + unfold TrainOneByOne.report_disc_loss. quiet_leaf.
    + unfold TrainOneByOne.generator_phase, TrainOneByOne.alternation. quiet_leaf.
    + unfold TrainOneByOne.housekeeping. quiet_leaf.
Qed.

End Reports.

(** X5.  When the plotting is called.  In every run of [train.py] the
    plotting is called only with [verbose] set, and only in a pass of
    the [while] loop whose incremented batch counter is a multiple of
    25; in every run of [train_one_by_one.py] it is called only with
    [verbose] set.  With [verbose] off neither script plots. *)
Theorem X5_plotting_only_when_verbose
        (World : Type) (K : Train.Collab World) (K' : TrainOneByOne.Collab World)
        (cfg : config) (w : World) :
  Forall (reports_every_25 cfg) (trace_of (Train.run K cfg w))
  /\ Forall (reports_when_verbose cfg) (trace_of (TrainOneByOne.run K' cfg w)).
Proof.
  split.
  - apply train_run_reports.
  - apply one_by_one_run_reports.
Qed.

(** *** The flags at compile time *)

Section CompileFlags.

Variable World : Type.
Variable cfg : config.

Let phi := compiled_under_flags.
Let Inv := @all_levels_trainable World.
Let any := fun (_ : exn) (_ : state World) => True.

(** The flags an event of level [l] shows, from the invariant [HI]. *)
Ltac shown_flags HI l :=
  cbn; try exact I;
  flag_facts HI l; unfold frozen_generators; flag_cbn;
  first [ let r := fresh "r" in intros r; destruct r; flag_cbn; solve [auto]
        | split; [reflexivity |]; cbn [filter]; flag_cbn;
          repeat match goal with H : trainable _ = true |- _ => rewrite H; clear H end;
          reflexivity ].

Ltac flags_leaf HI l :=
  run_exec; (split; [each_event ltac:(shown_flags HI l) |]);
  try exact I; try keep_flags HI.

Lemma train_model_compile_flags (K : Train.Collab World) :
  triple Inv (Train.train_model K cfg) phi (fun _ => Inv) any.
Proof.
  apply train_model_triple.
  - intros l _. unfold Train.setup_level. intros s HI. flags_leaf HI l.
  - intros l _. unfold Train.compile_level, Train.do_compile. intros s HI.
    flags_leaf HI l.
  - intros l e bc _ _ _.
    apply train_outer_iteration_triple with (J1 := Inv) (J2 := Inv) (J3 := Inv).
    + intros s HI. exact HI.
    + apply triple_for_each. intros _ _. unfold Train.critic_iteration.
      intros s HI. flags_leaf HI l.
    + unfold Train.report_disc_loss. intros s HI. flags_leaf HI l; exact HI.
    + unfold Train.generator_phase. intros s HI. flags_leaf HI l.
    + unfold Train.housekeeping. intros s HI. flags_leaf HI l.
Qed.

Lemma one_by_one_model_compile_flags (K : TrainOneByOne.Collab World) :
  triple Inv (TrainOneByOne.train_model K cfg) phi (fun _ => Inv) any.
Proof.
  apply one_by_one_model_triple.
  - intros l _. unfold TrainOneByOne.setup_level. intros s HI. flags_leaf HI l.
  - intros l _. unfold TrainOneByOne.compile_level, TrainOneByOne.do_compile.
    intros s HI. flags_leaf HI l.
  - intros l e bc _ _ _.
    apply one_by_one_outer_iteration_triple with (J1 := Inv) (J2 := Inv) (J3 := Inv).
    + intros s HI. exact HI.
    + apply triple_for_each. intros _ _. unfold TrainOneByOne.critic_iteration.
      intros s HI. flags_leaf HI l.
    + unfold TrainOneByOne.report_disc_loss. intros s HI. flags_leaf HI l; exact HI.
    + unfold TrainOneByOne.generator_phase, TrainOneByOne.alternation.
      intros s HI. flags_leaf HI l.
    + unfold TrainOneByOne.housekeeping. intros s HI. flags_leaf HI l.
Qed.

End CompileFlags.

(** X8.  The flags at compile time.  In every run of [train.py] and of
    [train_one_by_one.py], at every level, the stacked model is
    compiled while the discriminator's [trainable] flag is off and
    every generator's is on, and every other model (the generators, the
    discriminator itself) is compiled with every flag on. *)
Theorem X8_stacked_model_compiled_with_frozen_discriminator
        (World : Type) (K : Train.Collab World) (K' : TrainOneByOne.Collab World)
        (cfg : config) (w : World) :
  Forall compiled_under_flags (trace_of (Train.run K cfg w))
  /\ Forall compiled_under_flags (trace_of (TrainOneByOne.run K' cfg w)).
Proof.
  split.
  - unfold Train.run. eapply triple_trace.
    + apply train_model_compile_flags.
    + apply initial_all_trainable.
  - unfold TrainOneByOne.run. eapply triple_trace.
    + apply one_by_one_model_compile_flags.
    + apply initial_all_trainable.
Qed.

(** *** The samples a critic update reads *)

Lemma np_take_in_range {A} (arr : list A) (select : list Z) (xs : list A) :
  np_take arr select = Some xs ->
  forall i, In i select -> py_index arr i <> None.
Proof.
  revert xs. induction select as [| j rest IH]; intros xs H i Hi; [destruct Hi |].
  cbn [np_take] in H.
  destruct (py_index arr j) eqn:Hj; [| discriminate].
  destruct (np_take arr rest) eqn:Hrest; [| discriminate].
  destruct Hi as [<- | Hi]; [congruence |]. eapply IH; eauto.
Qed.

Lemma py_index_below {A} (arr : list A) (i : Z) :
  py_index arr i <> None -> (0 <= i)%Z -> (i < Z.of_nat (List.length arr))%Z.
Proof.
  unfold py_index. intros H Hi.
  destruct (i <? 0)%Z eqn:Hneg; [apply Z.ltb_lt in Hneg; lia |].
  destruct (0 <=? i)%Z; cbn [andb] in H; [| congruence].
  destruct (i <? Z.of_nat (List.length arr))%Z eqn:Hlt; [| congruence].
  now apply Z.ltb_lt in Hlt.
Qed.

(** A selection that was read reaches no further than the array. *)
Lemma slice_within {A} (arr : list A) (bc bs : Z) (xs : list A) :
  np_take arr (Np.range2 ((bc - 1) * bs) (bc * bs)) = Some xs ->
  (1 <= bc)%Z -> (0 < bs)%Z ->
  (bc * bs <= Z.of_nat (List.length arr))%Z.
Proof.
  intros H Hbc Hbs.
  assert (Hin : In (bc * bs - 1)%Z (Np.range2 ((bc - 1) * bs) (bc * bs))).
  { unfold Np.range2. apply in_map_iff. exists (Z.to_nat (bs - 1)). split; [lia |].
    apply in_seq. lia. }
  pose proof (py_index_below _ (np_take_in_range _ _ H _ Hin)). nia.
Qed.

Lemma reshape_row_entries (rows : list (list Q)) (m : Z) (cut : list (list Q)) :
  np_reshape_row rows m = Some cut ->
  (m = -1 \/ Z.of_nat (List.length (List.concat rows)) = m)%Z.
Proof.
  unfold np_reshape_row. destruct (m =? -1)%Z eqn:E1.
  - intros _. left. now apply Z.eqb_eq.
  - destruct (Z.of_nat (List.length (List.concat rows)) =? m)%Z eqn:E2;
      [| discriminate].
    intros _. right. now apply Z.eqb_eq.
Qed.

Section Slices.

Variable World : Type.
Variable K : TrainOneByOne.Collab World.
Variable cfg : config.

Let phi := critic_reads_slice cfg.
Let top := fun _ : state World => True.
Let any := fun (_ : exn) (_ : state World) => True.

Lemma one_by_one_critic_iteration_slice l e bc :
  (1 <= bc)%Z ->
  triple top (TrainOneByOne.critic_iteration K cfg l e bc) phi (fun _ => top) any.
Proof.
  intros Hbc. unfold TrainOneByOne.critic_iteration. intros s _.
  run_exec; (split; [| exact I]); try solve [repeat constructor].
  constructor; [| constructor].
  repeat match goal with
         | H : Np.concatenate _ _ = Some _ |- _ => apply concatenate_some in H; subst
         end.
  cbn.
  do 6 eexists. repeat (split; [eassumption || reflexivity |]).
  split; [eapply reshape_row_entries; eassumption |].
  split; [reflexivity |].
  intros Hbs. eapply slice_within; eauto.
Qed.

Lemma one_by_one_model_slices :
  triple top (TrainOneByOne.train_model K cfg) phi (fun _ => top) any.
Proof.
  apply one_by_one_model_triple with (E := any).
  - intros l _. unfold TrainOneByOne.setup_level. trivial_leaf.
  - intros l _. unfold TrainOneByOne.compile_level, TrainOneByOne.do_compile.
    trivial_leaf.
  - intros l e bc _ _ Hbc.
    apply one_by_one_outer_iteration_triple with (J1 := top) (J2 := top) (J3 := top).
    + intros; exact I.
    + apply triple_for_each. intros _ _.
      apply one_by_one_critic_iteration_slice. lia.
    + unfold TrainOneByOne.report_disc_loss. trivial_leaf.
    + unfold TrainOneByOne.generator_phase, TrainOneByOne.alternation. trivial_leaf.
    + unfold TrainOneByOne.housekeeping. trivial_leaf.
Qed.

End Slices.

(** X9.  The samples a critic update reads.  In every run of
    [train_one_by_one.py], a critic update at batch counter [bc] of a
    level with [n] nodes has read the samples number
    [(bc - 1) * batch_size] to [bc * batch_size - 1] of
    [training_data['geometry']['n<n>']], which come first in its
    geometry input, and the rows of the same numbers of
    [training_data['morphology']['n<n>']], which hold
    [(n - 1) * batch_size] numbers in all (unless that product is -1);
    so every epoch and every pass of
    the critic loop at that counter reads the same samples, and with a
    positive batch size the geometry array holds at least
    [bc * batch_size] samples. *)
Theorem X9_critic_reads_the_slice_of_its_batch_counter
        (World : Type) (K : TrainOneByOne.Collab World) (cfg : config) (w : World) :
  Forall (critic_reads_slice cfg) (trace_of (TrainOneByOne.run K cfg w)).
Proof.
  unfold TrainOneByOne.run.
  eapply triple_trace with (P := fun _ => True).
  - apply one_by_one_model_slices.
  - exact I.
Qed.

(** ** Runs that fail *)

(** *** A generator phase that fails *)

(** X7.  A failed generator phase leaves the discriminator frozen.
    The generator phase of [train.py] and of [train_one_by_one.py]
    switches the discriminator's [trainable] flag off first and on
    again last, with no handler in between: whenever the phase ends by
    an exception (of the batch utilities, the random generator, the
    stacked update, or an unbound target) the discriminator of the
    level is left with [trainable] off. *)
Theorem X7_failed_generator_phase_leaves_discriminator_frozen
        (World : Type) (K : Train.Collab World) (K' : TrainOneByOne.Collab World)
        (cfg : config) (l e bc : Z) (s : state World) :
  left_frozen l (Train.generator_phase K cfg l e bc s)
  /\ left_frozen l (TrainOneByOne.generator_phase K' cfg l e bc s).
Proof.
  split.
  - unfold Train.generator_phase.
    run_exec; cbn [left_frozen]; try exact I; run_cbn; flag_cbn; reflexivity.
  - unfold TrainOneByOne.generator_phase, TrainOneByOne.alternation.
    run_exec; cbn [left_frozen]; try exact I; run_cbn; flag_cbn; reflexivity.
Qed.

(** *** A list of node counts that is too short *)

Lemma py_index_beyond {A} (l : list A) (i : Z) :
  (Z.of_nat (List.length l) <= i)%Z -> py_index l i = None.
Proof.
  intros Hi. unfold py_index.
  destruct (i <? 0)%Z eqn:Hneg; [apply Z.ltb_lt in Hneg; lia |].
  destruct (i <? Z.of_nat (List.length l))%Z eqn:Hlt;
    [apply Z.ltb_lt in Hlt; lia |].
  now rewrite andb_false_r.
Qed.

Lemma py_index_last {A} (l : list A) : l <> [] -> py_index l (-1) <> None.
Proof.
  intros Hl. unfold py_index. cbn [Z.ltb Z.compare].
  destruct l as [| x l]; [congruence |].
  destruct (0 <=? -1 + Z.of_nat (List.length (x :: l)))%Z eqn:H0;
    [| apply Z.leb_gt in H0; cbn [List.length] in H0; lia].
  destruct (-1 + Z.of_nat (List.length (x :: l)) <? Z.of_nat (List.length (x :: l)))%Z
           eqn:H1; [| apply Z.ltb_ge in H1; lia].
  cbn [andb]. apply nth_error_Some. cbn [List.length]. lia.
Qed.

Section ShortNodes.

Variable World : Type.
Variable cfg : config.

Let len := List.length (n_nodes cfg).

(** How the set-up loop over the levels [a, ..., a + k - 1] ends. *)
Let ends_at (a k : nat) {A} (o : outcome World A) : Prop :=
  match o with
  | Ok t _ _ => t = [] /\ (a + k <= len)%nat
  | Raise t e _ => t = [] /\ e = IndexError /\ (len < a + k)%nat
  end.

Section Train.

Variable K : Train.Collab World.
Hypothesis build_returns : forall l u i n d w, Train.build K l u i n d w <> None.

Lemma train_setup_level_ends (a : nat) (s : state World) :
  (a <= len)%nat ->
  match Train.setup_level K cfg (Z.of_nat a) s with
  | Ok t _ _ => t = [] /\ (a < len)%nat
  | Raise t e _ => t = [] /\ e = IndexError /\ a = len
  end.
Proof.
  intros Ha. unfold Train.setup_level.
  destruct (Nat.eq_dec a len) as [-> | Hne].
  - rewrite (@py_index_beyond _ (n_nodes cfg) (Z.of_nat len)) by (unfold len; lia).
    run_cbn. auto.
  - run_exec; try (split; [reflexivity | lia]); exfalso;
      first [ eapply build_returns; eassumption
            | match goal with
              | H : py_index _ _ = None |- _ =>
                  revert H; apply py_index_in_range;
                  repeat match goal with
                         | H : (_ =? _)%Z = false |- _ => apply Z.eqb_neq in H
                         end; fold len; lia
              end ].
Qed.

Lemma train_setup_loop_ends (k : nat) :
  forall (a : nat) (s : state World),
    (a <= len)%nat ->
    ends_at a k (for_each (map Z.of_nat (seq a k)) (Train.setup_level K cfg) s).
Proof.
  induction k as [| k IH]; intros a s Ha; cbn [seq map for_each].
  - cbn. split; [reflexivity | lia].
  - unfold bind. pose proof (train_setup_level_ends s Ha) as H.
    destruct (Train.setup_level K cfg (Z.of_nat a) s) as [t [] s' | t e s'].
    + destruct H as [-> Hlt]. specialize (IH (S a) s' Hlt).
      destruct (for_each _ _ s'); cbn in *; intuition lia.
    + destruct H as [-> [-> ->]]. cbn. repeat split; lia.
Qed.

End Train.

Section OneByOne.

Variable K : TrainOneByOne.Collab World.
Hypothesis build_returns :
  forall l u i n d r tl bs w, TrainOneByOne.build K l u i n d r tl bs w <> None.

Lemma one_by_one_setup_level_ends (a : nat) (s : state World) :
  (a <= len)%nat ->
  match TrainOneByOne.setup_level K cfg (Z.of_nat a) s with
  | Ok t _ _ => t = [] /\ (a < len)%nat
  | Raise t e _ => t = [] /\ e = IndexError /\ a = len
  end.
Proof.
  intros Ha. unfold TrainOneByOne.setup_level.
  destruct (Nat.eq_dec a len) as [-> | Hne].
  - rewrite (@py_index_beyond _ (n_nodes cfg) (Z.of_nat len)) by (unfold len; lia).
    run_cbn. auto.
  - run_exec; try (split; [reflexivity | lia]); exfalso;
      first [ eapply build_returns; eassumption
            | match goal with
              | H : py_index _ (Z.of_nat a) = None |- _ =>
                  revert H; apply py_index_in_range; fold len; lia
              | H : py_index _ (Z.of_nat a - 1) = None |- _ =>
                  revert H; destruct a as [| a'];
                  [ apply py_index_last; intros E; unfold len in *;
                    rewrite E in *; cbn in *; lia
                  | apply py_index_in_range; fold len; lia ]
              end ].
Qed.

Lemma one_by_one_setup_loop_ends (k : nat) :
  forall (a : nat) (s : state World),
    (a <= len)%nat ->
    ends_at a k (for_each (map Z.of_nat (seq a k)) (TrainOneByOne.setup_level K cfg) s).
Proof.
  induction k as [| k IH]; intros a s Ha; cbn [seq map for_each].
  - cbn. split; [reflexivity | lia].
  - unfold bind. pose proof (one_by_one_setup_level_ends s Ha) as H.
    destruct (TrainOneByOne.setup_level K cfg (Z.of_nat a) s) as [t [] s' | t e s'].
    + destruct H as [-> Hlt]. specialize (IH (S a) s' Hlt).
      destruct (for_each _ _ s'); cbn in *; intuition lia.
    + destruct H as [-> [-> ->]]. cbn. repeat split; lia.
Qed.

End OneByOne.

End ShortNodes.

(** X6.  A list of node counts that is too short.  When [n_nodes] has
    fewer entries than [n_levels] (and building the models does not
    fail), [train_model] of [train.py] and of [train_one_by_one.py]
    ends by an [IndexError] raised while the models are set up, before
    any model is compiled or trained: all the levels are set up before
    the first is trained. *)
Theorem X6_short_n_nodes_fails_before_training
        (World : Type) (K : Train.Collab World) (K' : TrainOneByOne.Collab World)
        (cfg : config) (w : World) :
  (Z.of_nat (List.length (n_nodes cfg)) < n_levels cfg)%Z ->
  (forall l u i n d w, Train.build K l u i n d w <> None) ->
  (forall l u i n d r tl bs w, TrainOneByOne.build K' l u i n d r tl bs w <> None) ->
  fails_at_once IndexError (Train.run K cfg w)
  /\ fails_at_once IndexError (TrainOneByOne.run K' cfg w).
Proof.
  intros Hshort HK HK'. split.
  - unfold Train.run, Train.train_model, bind, Np.range.
    pose proof (@train_setup_loop_ends World cfg K HK (Z.to_nat (n_levels cfg))
                                       0%nat (initial_state w) (Nat.le_0_l _)) as H.
    destruct (for_each _ (Train.setup_level K cfg) (initial_state w));
      cbn in H |- *; [lia | intuition].
  - unfold TrainOneByOne.run, TrainOneByOne.train_model, bind, Np.range.
    pose proof (@one_by_one_setup_loop_ends World cfg K' HK' (Z.to_nat (n_levels cfg))
                                            0%nat (initial_state w) (Nat.le_0_l _)) as H.
    destruct (for_each _ (TrainOneByOne.setup_level K' cfg) (initial_state w));
      cbn in H |- *; [lia | intuition].
Qed.

Lemma X6_short_n_nodes_witness :
  fails_at_once IndexError
                (Train.run (Sample.train_collab true) MoreSamples.short_nodes tt)
  /\ fails_at_once IndexError
                   (TrainOneByOne.run (Sample.one_by_one_collab true)
                                      MoreSamples.short_nodes tt).
Proof.
  apply (@X6_short_n_nodes_fails_before_training
           unit (Sample.train_collab true) (Sample.one_by_one_collab true)
           MoreSamples.short_nodes tt).
  - vm_compute. reflexivity.
  - intros. discriminate.
  - intros. discriminate.
Defined.

(** ** The updates of every level *)

Section LevelLoop.

Variable World : Type.
Variable cfg : config.

(** The body of the loop over the levels: it logs events of its level
    only, and when it ends normally it has made the scheduled updates. *)
Variable train_level : Z -> M World unit.

Hypothesis level_tags :
  forall l s, Forall (fun ev => event_level ev = l) (trace_of (train_level l s)).
Hypothesis level_stacked :
  forall l, emits (count_stacked l) (train_level l) (scheduled_stacked cfg)
                  (fun _ => True).
Hypothesis level_disc :
  forall l, emits (count_disc l) (train_level l) (scheduled_disc cfg) (fun _ => True).

Lemma level_loop_schedule (k : nat) :
  forall (a : nat) (s : state World),
    match for_each (map Z.of_nat (seq a k)) train_level s with
    | Ok t _ _ =>
        forall l,
          if ((Z.of_nat a <=? l) && (l <? Z.of_nat (a + k)))%Z
          then count_stacked l t = scheduled_stacked cfg
               /\ count_disc l t = scheduled_disc cfg
          else count_stacked l t = 0%nat /\ count_disc l t = 0%nat
    | Raise _ _ _ => True
    end.
Proof.
  induction k as [| k IH]; intros a s; cbn [seq map for_each].
  - cbn. intros l.
    destruct ((Z.of_nat a <=? l) && (l <? Z.of_nat (a + 0)))%Z eqn:E; [| auto].
    apply andb_prop in E. destruct E as [E1 E2].
    apply Z.leb_le in E1. apply Z.ltb_lt in E2. lia.
  - unfold bind.
    pose proof (level_tags (Z.of_nat a) s) as Htag.
    pose proof (level_stacked (Z.of_nat a) s) as Hst.
    pose proof (level_disc (Z.of_nat a) s) as Hdi.
    destruct (train_level (Z.of_nat a) s) as [t1 [] s1 | t1 e s1]; [| exact I].
    cbn [trace_of] in Htag. destruct Hst as [Hst _]. destruct Hdi as [Hdi _].
    specialize (IH (S a) s1).
    destruct (for_each (map Z.of_nat (seq (S a) k)) train_level s1)
      as [t2 [] s2 | t2 e s2]; cbn [prepend]; [| exact I].
    intros l. specialize (IH l). rewrite count_stacked_app, count_disc_app.
    destruct (Z.eq_dec l (Z.of_nat a)) as [-> | Hne].
    + replace ((Z.of_nat a <=? Z.of_nat a) && (Z.of_nat a <? Z.of_nat (a + S k)))%Z
        with true
        by (symmetry; apply andb_true_intro; split;
            [apply Z.leb_le | apply Z.ltb_lt]; lia).
      replace ((Z.of_nat (S a) <=? Z.of_nat a) && (Z.of_nat a <? Z.of_nat (S a + k)))%Z
        with false in IH
        by (symmetry; apply andb_false_intro1; apply Z.leb_gt; lia).
      destruct IH as [-> ->]. rewrite Hst, Hdi. split; lia.
    + assert (Hother : count_stacked l t1 = 0%nat /\ count_disc l t1 = 0%nat).
      { apply no_updates_of_other_levels.
        eapply Forall_impl; [| exact Htag]. intros ev ->. auto. }
      destruct Hother as [-> ->]. cbn [Nat.add].
      replace ((Z.of_nat a <=? l) && (l <? Z.of_nat (a + S k)))%Z
        with ((Z.of_nat (S a) <=? l) && (l <? Z.of_nat (S a + k)))%Z; [exact IH |].
      replace (Z.of_nat (a + S k)) with (Z.of_nat (S a + k)) by lia. f_equal.
      destruct (Z.of_nat (S a) <=? l)%Z eqn:E1; destruct (Z.of_nat a <=? l)%Z eqn:E2;
        try reflexivity;
        [ apply Z.leb_le in E1; apply Z.leb_gt in E2
        | apply Z.leb_gt in E1; apply Z.leb_le in E2 ]; lia.
Qed.

(** The loop over [range(n_levels)]. *)
Lemma level_range_schedule (s : state World) :
  match for_each (Np.range (n_levels cfg)) train_level s with
  | Ok t _ _ => level_schedule cfg t
  | Raise _ _ _ => True
  end.
Proof.
  unfold Np.range. pose proof (level_loop_schedule (Z.to_nat (n_levels cfg)) 0 s) as H.
  destruct (for_each _ train_level s) as [t [] s' | t e s']; [| exact I].
  intros l. specialize (H l). cbn [Nat.add Z.of_nat] in H.
  destruct (0 <=? l)%Z eqn:E1; cbn [andb] in *; [| exact H].
  apply Z.leb_le in E1.
  destruct (l <? n_levels cfg)%Z eqn:E2;
    destruct (l <? Z.of_nat (Z.to_nat (n_levels cfg)))%Z eqn:E3; try exact H;
    [ apply Z.ltb_lt in E2; apply Z.ltb_ge in E3
    | apply Z.ltb_ge in E2; apply Z.ltb_lt in E3 ]; lia.
Qed.

End LevelLoop.

Section OneByOneCounts.

Variable World : Type.
Variable K : TrainOneByOne.Collab World.
Variable cfg : config.

Let any := fun _ : unit => True.
Let top := fun _ : state World => True.
Let anye := fun (_ : exn) (_ : state World) => True.

Lemma one_by_one_outer_iteration_stacked l e bc :
  emits (count_stacked l) (TrainOneByOne.outer_iteration K cfg l e bc) 1
        (fun r => r = (bc + 1)%Z).
Proof.
  unfold TrainOneByOne.outer_iteration.
  change 1%nat with (0 + (0 + (0 + (1 + 0))))%nat.
  eapply emits_bind with (V1 := any); [apply count_stacked_app | count_leaf |].
  intros _ _. eapply emits_bind with (V1 := any); [apply count_stacked_app | |].
  { unfold TrainOneByOne.critic_phase.
    replace 0%nat with (List.length (Np.range (d_iters cfg)) * 0)%nat by lia.
    apply emits_for_each; [reflexivity | apply count_stacked_app |].
    intros _. unfold TrainOneByOne.critic_iteration. count_leaf. }
  intros _ _. eapply emits_bind with (V1 := any); [apply count_stacked_app | |].
  { unfold TrainOneByOne.report_disc_loss. count_leaf. }
  intros _ _. eapply emits_bind with (V1 := any); [apply count_stacked_app | |].
  { unfold TrainOneByOne.generator_phase, TrainOneByOne.alternation. count_leaf. }
  intros _ _. unfold TrainOneByOne.housekeeping. count_leaf.
Qed.

Lemma one_by_one_outer_iteration_disc l e bc :
  emits (count_disc l) (TrainOneByOne.outer_iteration K cfg l e bc)
        (Z.to_nat (d_iters cfg)) (fun r => r = (bc + 1)%Z).
Proof.
  unfold TrainOneByOne.outer_iteration.
  replace (Z.to_nat (d_iters cfg))
    with (0 + (List.length (Np.range (d_iters cfg)) * 1 + (0 + (0 + 0))))%nat
    by (rewrite range_length; lia).
  eapply emits_bind with (V1 := any); [apply count_disc_app | count_leaf |].
  intros _ _. eapply emits_bind with (V1 := any); [apply count_disc_app | |].
  { unfold TrainOneByOne.critic_phase.
    apply emits_for_each; [reflexivity | apply count_disc_app |].
    intros _. unfold TrainOneByOne.critic_iteration. count_leaf. }
  intros _ _. eapply emits_bind with (V1 := any); [apply count_disc_app | |].
  { unfold TrainOneByOne.report_disc_loss. count_leaf. }
  intros _ _. eapply emits_bind with (V1 := any); [apply count_disc_app | |].
  { unfold TrainOneByOne.generator_phase, TrainOneByOne.alternation. count_leaf. }
  intros _ _. unfold TrainOneByOne.housekeeping. count_leaf.
Qed.

Lemma one_by_one_level_stacked l :
  emits (count_stacked l) (TrainOneByOne.train_level K cfg l) (scheduled_stacked cfg)
        any.
Proof.
  unfold TrainOneByOne.train_level, scheduled_stacked.
  change (Z.to_nat (n_epochs cfg) * Z.to_nat (n_batch_per_epoch cfg - 1))%nat
    with (0 + Z.to_nat (n_epochs cfg) * Z.to_nat (n_batch_per_epoch cfg - 1))%nat.
  eapply emits_bind with (V1 := any); [apply count_stacked_app | |].
  { unfold TrainOneByOne.compile_level, TrainOneByOne.do_compile. count_leaf. }
  intros _ _. rewrite <- range_length.
  apply emits_for_each; [reflexivity | apply count_stacked_app |].
  intros e. unfold TrainOneByOne.epoch.
  replace (Z.to_nat (n_batch_per_epoch cfg - 1))
    with (Z.to_nat (n_batch_per_epoch cfg - 1) * 1)%nat by lia.
  apply emits_while; [reflexivity | apply count_stacked_app |].
  intros c. apply one_by_one_outer_iteration_stacked.
Qed.

Lemma one_by_one_level_disc l :
  emits (count_disc l) (TrainOneByOne.train_level K cfg l) (scheduled_disc cfg) any.
Proof.
  unfold TrainOneByOne.train_level, scheduled_disc.
  match goal with |- emits _ _ ?n _ => change n with (0 + n)%nat end.
  eapply emits_bind with (V1 := any); [apply count_disc_app | |].
  { unfold TrainOneByOne.compile_level, TrainOneByOne.do_compile. count_leaf. }
  intros _ _. rewrite <- range_length.
  apply emits_for_each; [reflexivity | apply count_disc_app |].
  intros e. unfold TrainOneByOne.epoch.
  apply emits_while; [reflexivity | apply count_disc_app |].
  intros c. apply one_by_one_outer_iteration_disc.
Qed.

Lemma one_by_one_level_tags l s :
  Forall (fun ev => event_level ev = l)
         (trace_of (TrainOneByOne.train_level K cfg l s)).
Proof.
  eapply triple_trace with (P := top) (Q := fun _ => top) (E := anye); [| exact I].
  unfold TrainOneByOne.train_level. eapply triple_bind with (Q1 := fun _ => top).
  { unfold TrainOneByOne.compile_level, TrainOneByOne.do_compile. tag_leaf. }
  intros []. apply triple_for_each. intros e _. unfold TrainOneByOne.epoch.
  apply triple_while with (lo := 1%Z); [| lia | lia].
  intros c _ _. apply triple_value; [| apply one_by_one_outer_iteration_counter].
  apply one_by_one_outer_iteration_triple with (J1 := top) (J2 := top) (J3 := top).
  - intros; exact I.
  - apply triple_for_each. intros _ _. unfold TrainOneByOne.critic_iteration.
    tag_leaf.
  - unfold TrainOneByOne.report_disc_loss. tag_leaf.
  - unfold TrainOneByOne.generator_phase, TrainOneByOne.alternation. tag_leaf.
  - unfold TrainOneByOne.housekeeping. tag_leaf.
Qed.

Lemma one_by_one_setup_silent s :
  trace_of (for_each (Np.range (n_levels cfg)) (TrainOneByOne.setup_level K cfg) s)
  = [].
Proof.
  assert (H : Forall (fun _ => False)
                     (trace_of (for_each (Np.range (n_levels cfg))
                                         (TrainOneByOne.setup_level K cfg) s))).
  { eapply triple_trace with (P := top) (Q := fun _ => top) (E := anye); [| exact I].
    apply triple_for_each. intros l _. unfold TrainOneByOne.setup_level.
    intros s0 _. run_exec; (split; [constructor | exact I]). }
  destruct H as [| ev t []]. reflexivity.
Qed.

End OneByOneCounts.

(** X4.  The updates of every level.  A run of [train_model] of
    [train.py] or of [train_one_by_one.py] that ends normally has made,
    for every level of the hierarchy, [n_epochs] times
    [n_batch_per_epoch - 1] stacked updates (none when
    [n_batch_per_epoch] is 1 or less: the batch counter starts at 1 and
    the loop runs while it is below [n_batch_per_epoch]) and [d_iters]
    times as many critic updates, and no update of any other level. *)
Theorem X4_every_level_gets_its_scheduled_updates
        (World : Type) (K : Train.Collab World) (K' : TrainOneByOne.Collab World)
        (cfg : config) (w : World) :
  (ends_normally (Train.run K cfg w) ->
   level_schedule cfg (trace_of (Train.run K cfg w)))
  /\ (ends_normally (TrainOneByOne.run K' cfg w) ->
      level_schedule cfg (trace_of (TrainOneByOne.run K' cfg w))).
Proof.
  split.
  - unfold Train.run, Train.train_model, bind.
    pose proof (train_setup_silent K cfg (initial_state w)) as Hsilent.
    destruct (for_each (Np.range (n_levels cfg)) (Train.setup_level K cfg)
                       (initial_state w)) as [t0 [] s0 | t0 e s0];
      cbn [trace_of] in Hsilent; subst t0; [| intros []].
    pose proof (level_range_schedule
                  cfg (Train.train_level K cfg)
                  (train_level_tags K cfg) (train_level_stacked K cfg)
                  (train_level_disc K cfg) s0) as H.
    destruct (for_each (Np.range (n_levels cfg)) (Train.train_level K cfg) s0);
      cbn; [intros _; exact H | intros []].
  - unfold TrainOneByOne.run, TrainOneByOne.train_model, bind.
    pose proof (one_by_one_setup_silent K' cfg (initial_state w)) as Hsilent.
    destruct (for_each (Np.range (n_levels cfg)) (TrainOneByOne.setup_level K' cfg)
                       (initial_state w)) as [t0 [] s0 | t0 e s0];
      cbn [trace_of] in Hsilent; subst t0; [| intros []].
    pose proof (level_range_schedule
                  cfg (TrainOneByOne.train_level K' cfg)
                  (one_by_one_level_tags K' cfg) (one_by_one_level_stacked K' cfg)
                  (one_by_one_level_disc K' cfg) s0) as H.
    destruct (for_each (Np.range (n_levels cfg)) (TrainOneByOne.train_level K' cfg) s0);
      cbn; [intros _; exact H | intros []].
Qed.

Lemma X4_scheduled_updates_witness :
  level_schedule (Sample.two_levels 2 2 3 3)
                 (trace_of (Train.run (Sample.train_collab true)
                                      (Sample.two_levels 2 2 3 3) tt))
  /\ level_schedule (Sample.two_levels 2 2 3 3)
                    (trace_of (TrainOneByOne.run (Sample.one_by_one_collab true)
                                                 (Sample.two_levels 2 2 3 3) tt)).
Proof.
  split.
  - apply (proj1 (@X4_every_level_gets_its_scheduled_updates
                    unit (Sample.train_collab true) (Sample.one_by_one_collab true)
                    (Sample.two_levels 2 2 3 3) tt)).
    vm_compute. exact I.
  - apply (proj2 (@X4_every_level_gets_its_scheduled_updates
                    unit (Sample.train_collab true) (Sample.one_by_one_collab true)
                    (Sample.two_levels 2 2 3 3) tt)).
    vm_compute. exact I.
Defined.

(** ** Runs that end normally *)

Lemma py_index_head {A} (x : A) (xs : list A) : py_index (x :: xs) 0 = Some x.
Proof. reflexivity. Qed.

(** The next test reads a local the context knows, or the first entry
    of a list it knows not to be empty. *)
Ltac known_local :=
  match goal with
  | H : X_locations_gen ?s = Some _ |- context [X_locations_gen ?s] => rewrite H
  | H : X_prufer_gen ?s = Some _ |- context [X_prufer_gen ?s] => rewrite H
  | H : X_prufer_real ?s = Some _ |- context [X_prufer_real ?s] => rewrite H
  | H : y_real ?s = Some _ |- context [y_real ?s] => rewrite H
  | H : disc_loss ?s = Some _ |- context [disc_loss ?s] => rewrite H
  | |- context [py_index (?x :: ?xs) 0] => rewrite (py_index_head x xs)
  end.

Ltac run_exec_known := run_cbn; repeat (first [known_local | run_case]; run_cbn).

Ltac decided_levels :=
  repeat match goal with
         | H : (_ =? _)%Z = false |- _ => apply Z.eqb_neq in H
         | H : (_ =? _)%Z = true |- _ => apply Z.eqb_eq in H
         | H : (_ >? _)%Z = false |- _ => rewrite Z.gtb_ltb in H; apply Z.ltb_ge in H
         | H : (_ >? _)%Z = true |- _ => rewrite Z.gtb_ltb in H; apply Z.ltb_lt in H
         end.

Section TrainCompletes.

Variable World : Type.
Variable K : Train.Collab World.
Variable cfg : config.

Hypothesis K_reliable : train_reliable K.
Hypothesis K_nonempty : train_batches_nonempty K cfg.
Hypothesis K_agree : train_batches_agree K cfg.
Hypothesis nodes : enough_nodes cfg.
Hypothesis d_iters_positive : (1 <= d_iters cfg)%Z.

Let phi := fun _ : event => True.
Let top := fun _ : state World => True.
Let never := fun (_ : exn) (_ : state World) => False.

(** After the critic loop the locals the rest of the pass reads are
    bound, the generated arrays to batches that are not empty. *)
Let bound := fun s : state World =>
  exists y d x xs p ps,
    y_real s = Some y /\ disc_loss s = Some d
    /\ X_locations_gen s = Some (x :: xs) /\ X_prufer_gen s = Some (p :: ps).

Ltac absurd_raise :=
  exfalso; decided_levels;
  first [ eapply (train_build_returns K_reliable); eassumption
        | eapply (train_compile_returns K_reliable); eassumption
        | eapply (train_get_batch_returns K_reliable); eassumption
        | eapply (train_gen_batch_returns K_reliable); eassumption
        | eapply (train_randn_returns K_reliable); eassumption
        | eapply (train_d_update_returns K_reliable); eassumption
        | eapply (train_stacked_update_returns K_reliable); eassumption
        | eapply (train_plot_returns K_reliable); eassumption
        | eapply (train_show_returns K_reliable); eassumption
        | match goal with
          | H : py_index _ _ = None |- _ =>
              revert H; apply py_index_in_range; unfold enough_nodes in nodes; lia
          end
        | match goal with
          | Hn : py_index _ _ = Some _,
            Hget : Train.get_batch _ _ _ _ _ _ = Some _,
            Hgen : Train.gen_batch _ _ _ _ _ _ _ = Some _ |- _ =>
              destruct (@K_agree _ _ _ _ _ _ _ _ _ _ _ _ Hn Hget Hgen) as [? ?]
          end; absurd_join
        | congruence
        | lia ].

Ltac leaf := (split; [repeat constructor |]); try exact I; try absurd_raise.

Lemma train_setup_completes l :
  In l (Np.range (n_levels cfg)) ->
  triple top (Train.setup_level K cfg l) phi (fun _ => top) never.
Proof.
  intros Hl. apply in_range in Hl. unfold Train.setup_level. intros s _.
  run_exec; leaf.
Qed.

Lemma train_compile_completes l :
  triple top (Train.compile_level K cfg l) phi (fun _ => top) never.
Proof.
  unfold Train.compile_level, Train.do_compile. intros s _. run_exec; leaf.
Qed.

Lemma train_critic_iteration_completes l e bc :
  (0 <= l < n_levels cfg)%Z ->
  triple top (Train.critic_iteration K cfg l e bc) phi (fun _ => bound) never.
Proof.
  intros Hl. unfold Train.critic_iteration. intros s _. run_exec; leaf.
  unfold bound. run_cbn.
  match goal with H : Train.gen_batch _ _ _ _ _ _ _ = Some _ |- _ =>
    destruct (K_nonempty _ _ _ _ _ H) as [Hxl Hxp] end.
  match goal with |- context [Some ?Xl = Some (_ :: _) /\ Some ?Xp = _] =>
    destruct Xl as [| x xs]; [congruence |]; destruct Xp as [| p ps]; [congruence |]
  end.
  do 6 eexists. repeat split; reflexivity.
Qed.

Lemma train_generator_phase_completes l e bc :
  (0 <= l)%Z ->
  triple bound (Train.generator_phase K cfg l e bc) phi (fun _ => bound) never.
Proof.
  intros Hl. unfold Train.generator_phase.
  intros s [y [d [x [xs [p [ps [Hy [Hd [Hxl Hxp]]]]]]]]].
  run_exec_known; leaf.
  all: unfold bound; run_cbn; do 6 eexists; repeat split; eassumption.
Qed.

Lemma train_housekeeping_completes l e bc :
  triple bound (Train.housekeeping K cfg l e bc) phi (fun _ => top) never.
Proof.
  unfold Train.housekeeping.
  intros s [y [d [x [xs [p [ps [Hy [Hd [Hxl Hxp]]]]]]]]].
  run_exec_known; leaf.
Qed.

Lemma train_model_completes :
  triple top (Train.train_model K cfg) phi (fun _ => top) never.
Proof.
  apply train_model_triple.
  - apply train_setup_completes.
  - intros l _. apply train_compile_completes.
  - intros l e bc Hl _ _. apply in_range in Hl.
    apply train_outer_iteration_triple with (J1 := top) (J2 := bound) (J3 := bound).
    + intros; exact I.
    + apply triple_for_each_nonempty.
      * now apply range_nonempty.
      * intros _. now apply train_critic_iteration_completes.
      * intros; exact I.
    + unfold Train.report_disc_loss.
      intros s [y [d [x [xs [p [ps [Hy [Hd [Hxl Hxp]]]]]]]]].
      run_exec_known; leaf; do 6 eexists; repeat split; eassumption.
    + apply train_generator_phase_completes. lia.
    + apply train_housekeeping_completes.
Qed.

End TrainCompletes.

(** X1.  [train_model] of [train.py] ends normally.  If no collaborator
    call raises, the generated batches are not empty, the real and the
    generated batches agree in shape, [n_nodes] has an entry for every
    level and [d_iters] is at least 1, then [train_model] ends
    normally, whatever the other parameters are: it ends (the [while]
    loop runs out of batch counters), every local it reads is bound,
    every index it takes is in range and every [np.concatenate]
    returns. *)
Theorem X1_train_model_ends_normally
        (World : Type) (K : Train.Collab World) (cfg : config) (w : World) :
  train_reliable K ->
  train_batches_nonempty K cfg ->
  train_batches_agree K cfg ->
  enough_nodes cfg ->
  (1 <= d_iters cfg)%Z ->
  ends_normally (Train.run K cfg w).
Proof.
  intros HK Hne Hagree Hnodes Hd. unfold Train.run.
  pose proof (train_model_completes HK Hne Hagree Hnodes Hd) as H.
  specialize (H (initial_state w) I).
  destruct (Train.train_model K cfg (initial_state w)); cbn; tauto.
Qed.

Lemma sample_train_batches_nonempty :
  train_batches_nonempty (Sample.train_collab true) (Sample.two_levels 2 2 3 3).
Proof.
  intros ns l d st w Xl Xp w' H. cbn in H. injection H as <- <- _.
  split; discriminate.
Qed.

Lemma X1_train_model_witness :
  ends_normally (Train.run (Sample.train_collab true) (Sample.two_levels 2 2 3 3) tt).
Proof.
  apply (@X1_train_model_ends_normally
           unit (Sample.train_collab true) (Sample.two_levels 2 2 3 3) tt).
  - exact sample_train_collab_reliable.
  - exact sample_train_batches_nonempty.
  - apply sample_train_batches_agree. reflexivity.
  - unfold enough_nodes. cbn. lia.
  - cbn. lia.
Defined.

(** Without the agreement the run does not end normally: with real
    samples of one point and generated samples of two, the first
    [np.concatenate] raises, before any update. *)
Example mismatched_batches_raise :
  match Train.run MoreSamples.mismatched_collab Sample.scenario tt with
  | Raise t e _ => e = ValueError /\ filter is_update t = []
  | Ok _ _ _ => False
  end.
Proof. vm_compute. split; reflexivity. Qed.

Section OneByOneCompletes.

Variable World : Type.
Variable K : TrainOneByOne.Collab World.
Variable cfg : config.

Hypothesis K_reliable : one_by_one_reliable K.
Hypothesis K_nonempty : one_by_one_batches_nonempty K cfg.
Hypothesis K_agree : one_by_one_batches_agree K cfg.
Hypothesis nodes : enough_nodes cfg.
Hypothesis d_iters_positive : (1 <= d_iters cfg)%Z.
Hypothesis data_available : batches_available cfg.

Let phi := fun _ : event => True.
Let top := fun _ : state World => True.
Let never := fun (_ : exn) (_ : state World) => False.

Let bound := fun s : state World =>
  exists y d x xs p ps r rs,
    y_real s = Some y /\ disc_loss s = Some d
    /\ X_locations_gen s = Some (x :: xs) /\ X_prufer_gen s = Some (p :: ps)
    /\ X_prufer_real s = Some (r :: rs).

Ltac absurd_raise :=
  exfalso; decided_levels;
  first [ eapply (obo_build_returns K_reliable); eassumption
        | eapply (obo_compile_returns K_reliable); eassumption
        | eapply (obo_get_batch_returns K_reliable); eassumption
        | eapply (obo_gen_batch_returns K_reliable); eassumption
        | eapply (obo_randn_returns K_reliable); eassumption
        | eapply (obo_d_update_returns K_reliable); eassumption
        | eapply (obo_stacked_update_returns K_reliable); eassumption
        | eapply (obo_plot_generated_returns K_reliable); eassumption
        | eapply (obo_plot_comparison_returns K_reliable); eassumption
        | eapply (obo_plot_loss_returns K_reliable); eassumption
        | match goal with
          | H : py_index _ _ = None |- _ =>
              revert H; apply py_index_in_range; unfold enough_nodes in nodes; lia
          end
        | congruence
        | lia ].

Ltac leaf := (split; [repeat constructor |]); try exact I; try absurd_raise.

Lemma one_by_one_setup_completes l :
  In l (Np.range (n_levels cfg)) ->
  triple top (TrainOneByOne.setup_level K cfg l) phi (fun _ => top) never.
Proof.
  intros Hl. apply in_range in Hl. unfold TrainOneByOne.setup_level. intros s _.
  run_exec; leaf.
  exfalso. destruct (Z.eq_dec l 0) as [-> | Hne].
  - match goal with H : py_index _ _ = None |- _ =>
      revert H; apply py_index_last end.
    intros E. unfold enough_nodes in nodes. rewrite E in nodes. cbn in nodes. lia.
  - match goal with H : py_index _ _ = None |- _ =>
      revert H; apply py_index_in_range end.
    unfold enough_nodes in nodes. lia.
Qed.

Lemma one_by_one_compile_completes l :
  triple top (TrainOneByOne.compile_level K cfg l) phi (fun _ => top) never.
Proof.
  unfold TrainOneByOne.compile_level, TrainOneByOne.do_compile. intros s _.
  run_exec; leaf.
Qed.

Lemma one_by_one_critic_iteration_completes l e bc :
  (0 <= l < n_levels cfg)%Z ->
  (1 <= bc < n_batch_per_epoch cfg)%Z ->
  triple top (TrainOneByOne.critic_iteration K cfg l e bc) phi (fun _ => bound) never.
Proof.
  intros Hl Hbc.
  destruct (py_index (n_nodes cfg) l) as [n |] eqn:Hn;
    [| exfalso; revert Hn; apply py_index_in_range;
       unfold enough_nodes in nodes; lia].
  destruct (data_available Hl Hn Hbc)
    as [geo [mor [Xl [rows [cut [Hgeo [Hxl [Hmor [Hrows Hcut]]]]]]]]].
  unfold TrainOneByOne.critic_iteration. intros s _.
  run_cbn;
    repeat (first [ rewrite Hn | rewrite Hgeo | rewrite Hxl | rewrite Hmor
                  | rewrite Hrows | rewrite Hcut | run_case ];
            run_cbn);
    leaf;
    try (exfalso;
         match goal with
         | Hget : TrainOneByOne.get_batch _ _ _ _ _ = Some _,
           Hgen : TrainOneByOne.gen_batch _ _ _ _ _ _ _ _ = Some _ |- _ =>
             destruct (@K_agree _ _ _ _ _ _ _ _ _ _ _ _ _ _ Hn Hgeo Hxl Hget Hgen)
               as [? ?]
         end; absurd_join).
  unfold bound. run_cbn.
  destruct K_nonempty as [Hreal Hgen].
  match goal with H : TrainOneByOne.gen_batch _ _ _ _ _ _ _ _ = Some _ |- _ =>
    destruct (Hgen _ _ _ _ _ _ _ _ _ H) as [Hxg Hpg] end.
  match goal with H : TrainOneByOne.get_batch _ _ _ _ _ = Some _ |- _ =>
    pose proof (Hreal _ _ _ _ _ H) as Hpr end.
  match goal with
  | |- context [Some ?A = Some (_ :: _) /\ Some ?B = Some (_ :: _)
                /\ Some ?C = Some (_ :: _)] =>
      destruct A; [congruence |]; destruct B; [congruence |];
      destruct C; [congruence |]
  end.
  do 8 eexists. repeat split; reflexivity.
Qed.

Lemma one_by_one_generator_phase_completes l e bc :
  (0 <= l)%Z ->
  triple bound (TrainOneByOne.generator_phase K cfg l e bc) phi (fun _ => bound) never.
Proof.
  intros Hl. unfold TrainOneByOne.generator_phase, TrainOneByOne.alternation.
  intros s [y [d [x [xs [p [ps [r [rs [Hy [Hd [Hxl [Hxp Hr]]]]]]]]]]]].
  run_exec_known; leaf.
  all: unfold bound; run_cbn; do 8 eexists; repeat split; eassumption.
Qed.

Lemma one_by_one_housekeeping_completes l e bc :
  triple bound (TrainOneByOne.housekeeping K cfg l e bc) phi (fun _ => top) never.
Proof.
  unfold TrainOneByOne.housekeeping.
  intros s [y [d [x [xs [p [ps [r [rs [Hy [Hd [Hxl [Hxp Hr]]]]]]]]]]]].
  run_exec_known; leaf.
Qed.

Lemma one_by_one_model_completes :
  triple top (TrainOneByOne.train_model K cfg) phi (fun _ => top) never.
Proof.
  apply one_by_one_model_triple.
  - apply one_by_one_setup_completes.
  - intros l _. apply one_by_one_compile_completes.
  - intros l e bc Hl _ Hbc. apply in_range in Hl.
    apply one_by_one_outer_iteration_triple
      with (J1 := top) (J2 := bound) (J3 := bound).
    + intros; exact I.
    + apply triple_for_each_nonempty.
      * now apply range_nonempty.
      * intros _. now apply one_by_one_critic_iteration_completes.
      * intros; exact I.
    + unfold TrainOneByOne.report_disc_loss.
      intros s [y [d [x [xs [p [ps [r [rs [Hy [Hd [Hxl [Hxp Hr]]]]]]]]]]]].
      run_exec_known; leaf; do 8 eexists; repeat split; eassumption.
    + apply one_by_one_generator_phase_completes. lia.
    + apply one_by_one_housekeeping_completes.
Qed.

End OneByOneCompletes.

(** X2.  [train_model] of [train_one_by_one.py] ends normally.  If no
    collaborator call raises, the batches it is given are not empty,
    the real and the generated batches agree in shape, [n_nodes] has an
    entry for every level, [d_iters] is at least 1, and for every level
    (of [n] nodes) and every batch counter [bc] from 1 to
    [n_batch_per_epoch - 1] the training data holds the geometry
    samples and the morphology rows number [(bc - 1) * batch_size] to
    [bc * batch_size - 1] under the key of [n], the rows reshaping to
    one row of [(n - 1) * batch_size] entries, then [train_model] ends
    normally. *)
Theorem X2_one_by_one_train_model_ends_normally
        (World : Type) (K : TrainOneByOne.Collab World) (cfg : config) (w : World) :
  one_by_one_reliable K ->
  one_by_one_batches_nonempty K cfg ->
  one_by_one_batches_agree K cfg ->
  enough_nodes cfg ->
  (1 <= d_iters cfg)%Z ->
  batches_available cfg ->
  ends_normally (TrainOneByOne.run K cfg w).
Proof.
  intros HK Hne Hagree Hnodes Hd Hdata. unfold TrainOneByOne.run.
  pose proof (one_by_one_model_completes HK Hne Hagree Hnodes Hd Hdata) as H.
  specialize (H (initial_state w) I).
  destruct (TrainOneByOne.train_model K cfg (initial_state w)); cbn; tauto.
Qed.

Lemma sample_one_by_one_batches_nonempty :
  one_by_one_batches_nonempty (Sample.one_by_one_collab true)
                              (Sample.two_levels 2 2 3 3).
Proof.
  split.
  - intros cut n w Xp w' H. cbn in H. injection H as <- _. discriminate.
  - intros ns l d st r w Xl Xp w' H. cbn in H. injection H as <- <- _.
    split; discriminate.
Qed.

Lemma sample_batches_available : batches_available (Sample.two_levels 2 2 3 3).
Proof.
  intros l n bc Hl Hn Hbc. cbn in Hl, Hbc.
  assert (Hl' : l = 0%Z \/ l = 1%Z) by lia.
  assert (Hbc' : bc = 1%Z \/ bc = 2%Z) by lia.
  destruct Hl' as [-> | ->]; cbn in Hn; injection Hn as <-;
    destruct Hbc' as [-> | ->];
    do 5 eexists; repeat split; vm_compute; reflexivity.
Qed.

Lemma X2_one_by_one_train_model_witness :
  ends_normally (TrainOneByOne.run (Sample.one_by_one_collab true)
                                   (Sample.two_levels 2 2 3 3) tt).
Proof.
  apply (@X2_one_by_one_train_model_ends_normally
           unit (Sample.one_by_one_collab true) (Sample.two_levels 2 2 3 3) tt).
  - exact sample_one_by_one_collab_reliable.
  - exact sample_one_by_one_batches_nonempty.
  - apply sample_one_by_one_batches_agree; reflexivity.
  - unfold enough_nodes. cbn. lia.
  - cbn. lia.
  - exact sample_batches_available.
Defined.

(** ** More on the stacked-model composer *)

(** X10.  Where the composer follows the factorization.  Under ['mgd'],
    with or without context, and under ['gmd'] with context,
    [discriminator_on_generators] builds the model its docstring
    describes: the unconditioned generator of the rule is applied to
    the model's inputs, the conditional generator to the same inputs
    followed by that output, and the discriminator to the pair of the
    geometry and the morphology outputs, in that order. *)
Theorem X10_composer_follows_the_factorization
        (model : Type) (g cg m cm d : model) (input_dim n_in n_out : Z) :
  (forall use_context,
      exists sm,
        discriminator_on_generators g cg m cm d "mgd" input_dim n_in n_out use_context
        = inr sm
        /\ wired_as_factorization g cg m cm d "mgd" sm)
  /\ (exists sm,
         discriminator_on_generators g cg m cm d "gmd" input_dim n_in n_out true
         = inr sm
         /\ wired_as_factorization g cg m cm d "gmd" sm).
Proof.
  split.
  - intros use_context. destruct use_context; eexists; split; reflexivity.
  - eexists. split; reflexivity.
Qed.

(** X11.  A rule the composer does not know.  The composer has a
    branch for ['mgd'] and one for ['gmd'] and none for any other
    rule: with another [conditioning_rule] it reaches the discriminator
    call with [geometry_output] unbound and raises, whatever the other
    arguments are. *)
Theorem X11_composer_rejects_other_rules
        (model : Type) (g cg m cm d : model) (rule : string)
        (input_dim n_in n_out : Z) (use_context : bool) :
  rule <> "mgd"%string -> rule <> "gmd"%string ->
  discriminator_on_generators g cg m cm d rule input_dim n_in n_out use_context
  = inl (UnboundLocalError "geometry_output").
Proof.
  intros Hm Hg. unfold discriminator_on_generators.
  apply String.eqb_neq in Hm. apply String.eqb_neq in Hg.
  rewrite Hm, Hg. reflexivity.
Qed.

Lemma X11_composer_rejects_other_rules_witness :
  discriminator_on_generators Geom CondGeom Morph CondMorph Disc "dgm" 100 10 20 true
  = inl (UnboundLocalError "geometry_output").
Proof.
  apply (@X11_composer_rejects_other_rules
           role Geom CondGeom Morph CondMorph Disc "dgm" 100 10 20 true);
    discriminate.
Defined.

(** X12.  The inputs of the stacked model.  A stacked model that is
    built has one output.  Without context its one input is the noise,
    of shape (1, input_dim).  With context it has three inputs, in the
    order geometry context, morphology context, noise; the two context
    placeholders are the ones created after the noise input, of shapes
    (n_nodes_out - 1, 3) and (n_nodes_out - 2, n_nodes_in): the
    placeholders created first, shaped by [n_nodes_in], are rebound
    before any use. *)
Theorem X12_stacked_model_inputs
        (model : Type) (g cg m cm d : model) (rule : string)
        (input_dim n_in n_out : Z) (use_context : bool) (sm : StackedModel model) :
  discriminator_on_generators g cg m cm d rule input_dim n_in n_out use_context
  = inr sm ->
  List.length (outputs sm) = 1%nat
  /\ inputs sm
     = if use_context
       then [Input model 3 [n_out - 1; 3]%Z None;
             Input model 4 [n_out - 2; n_in]%Z None;
             Input model 2 [1; input_dim]%Z (Some "noise_input"%string)]
       else [Input model 0 [1; input_dim]%Z (Some "noise_input"%string)].
Proof.
  unfold discriminator_on_generators.
  destruct (rule =? "mgd")%string; [| destruct (rule =? "gmd")%string];
    destruct use_context; intros H; try discriminate;
    injection H as <-; split; reflexivity.
Qed.

Lemma X12_stacked_model_inputs_witness :
  exists sm,
    discriminator_on_generators Geom CondGeom Morph CondMorph Disc "mgd" 100 10 20 true
    = inr sm
    /\ List.length (outputs sm) = 1%nat
    /\ inputs sm
       = [Input role 3 [20 - 1; 3]%Z None;
          Input role 4 [20 - 2; 10]%Z None;
          Input role 2 [1; 100]%Z (Some "noise_input"%string)].
Proof.
  eexists. split; [reflexivity |].
  apply (@X12_stacked_model_inputs
           role Geom CondGeom Morph CondMorph Disc "mgd" 100 10 20 true).
  reflexivity.
Defined.

(** ** [train_one_by_one_morphology.py] *)

Section MorphologySkeleton.

Variable World : Type.
Variable K : TrainMorphology.Collab World.
Variable cfg : config.

Lemma morphology_outer_iteration_triple
      (I J1 J2 J3 : state World -> Prop) phi E e bc :
  (forall s, I s -> J1 (with_loss_lists [] [] s)) ->
  triple J1 (TrainMorphology.critic_phase K cfg e bc) phi (fun _ => J2) E ->
  triple J2 (TrainMorphology.report_disc_loss cfg) phi (fun _ => J2) E ->
  triple J2 (TrainMorphology.generator_phase K cfg e bc) phi (fun _ => J3) E ->
  triple J3 (TrainMorphology.housekeeping K cfg e bc) phi (fun _ => I) E ->
  triple I (TrainMorphology.outer_iteration K cfg e bc) phi (fun _ => I) E.
Proof.
  intros H0 H1 H2 H3 H4. unfold TrainMorphology.outer_iteration.
  eapply triple_bind with (Q1 := fun _ => J1).
  { intros s Hs. cbn. auto. }
  intros []. eapply triple_bind; [exact H1 |].
  intros []. eapply triple_bind; [exact H2 |].
  intros []. eapply triple_bind; [exact H3 |].
  intros []. exact H4.
Qed.

Lemma morphology_outer_iteration_counter e bc :
  triple (fun _ => True) (TrainMorphology.outer_iteration K cfg e bc) (fun _ => True)
         (fun r _ => r = (bc + 1)%Z) (fun _ _ => True).
Proof.
  unfold TrainMorphology.outer_iteration.
  eapply triple_bind; [apply triple_top |].
  intros []. eapply triple_bind; [apply triple_top |].
  intros []. eapply triple_bind; [apply triple_top |].
  intros []. eapply triple_bind; [apply triple_top |].
  intros []. unfold TrainMorphology.housekeeping.
  eapply triple_bind; [apply triple_top |].
  intros []. apply triple_ret. reflexivity.
Qed.

Lemma morphology_model_triple (I : state World -> Prop) phi E :
  triple I (TrainMorphology.setup K cfg) phi (fun _ => I) E ->
  triple I (TrainMorphology.compile_models K cfg) phi (fun _ => I) E ->
  (forall e bc,
      In e (Np.range (n_epochs cfg)) ->
      (1 <= bc < n_batch_per_epoch cfg)%Z ->
      triple I (TrainMorphology.outer_iteration K cfg e bc) phi (fun _ => I) E) ->
  triple I (TrainMorphology.train_model K cfg) phi (fun _ => I) E.
Proof.
  intros Hsetup Hcompile Hiter. unfold TrainMorphology.train_model.
  eapply triple_bind; [exact Hsetup |].
  intros []. eapply triple_bind; [exact Hcompile |].
  intros []. apply triple_for_each. intros e He. unfold TrainMorphology.epoch.
  apply triple_while with (lo := 1%Z); [| lia | lia].
  intros c Hc1 Hc2. apply triple_value.
  - apply Hiter; auto; lia.
  - apply morphology_outer_iteration_counter.
Qed.

End MorphologySkeleton.

(** The parts of the script, unfolded down to the run monad. *)
Ltac morphology_parts :=
  unfold TrainMorphology.setup, TrainMorphology.compile_models,
    TrainMorphology.do_compile, TrainMorphology.critic_iteration,
    TrainMorphology.report_disc_loss, TrainMorphology.generator_phase,
    TrainMorphology.housekeeping, TrainMorphology.level, with_parent_gen.

(** *** One level, whatever [n_levels] is *)

Section MorphologyCounts.

Variable World : Type.
Variable K : TrainMorphology.Collab World.
Variable cfg : config.

Let any := fun _ : unit => True.
Let top := fun _ : state World => True.
Let anye := fun (_ : exn) (_ : state World) => True.

Lemma morphology_outer_iteration_stacked e bc :
  emits (count_stacked 0) (TrainMorphology.outer_iteration K cfg e bc) 1
        (fun r => r = (bc + 1)%Z).
Proof.
  unfold TrainMorphology.outer_iteration.
  change 1%nat with (0 + (0 + (0 + (1 + 0))))%nat.
  eapply emits_bind with (V1 := any); [apply count_stacked_app | count_leaf |].
  intros _ _. eapply emits_bind with (V1 := any); [apply count_stacked_app | |].
  { unfold TrainMorphology.critic_phase.
    replace 0%nat with (List.length (Np.range (d_iters cfg)) * 0)%nat by lia.
    apply emits_for_each; [reflexivity | apply count_stacked_app |].
    intros _. morphology_parts. count_leaf. }
  intros _ _. eapply emits_bind with (V1 := any); [apply count_stacked_app | |].
  { morphology_parts. count_leaf. }
  intros _ _. eapply emits_bind with (V1 := any); [apply count_stacked_app | |].
  { morphology_parts. count_leaf. }
  intros _ _. morphology_parts. count_leaf.
Qed.

Lemma morphology_outer_iteration_disc e bc :
  emits (count_disc 0) (TrainMorphology.outer_iteration K cfg e bc)
        (Z.to_nat (d_iters cfg)) (fun r => r = (bc + 1)%Z).
Proof.
  unfold TrainMorphology.outer_iteration.
  replace (Z.to_nat (d_iters cfg))
    with (0 + (List.length (Np.range (d_iters cfg)) * 1 + (0 + (0 + 0))))%nat
    by (rewrite range_length; lia).
  eapply emits_bind with (V1 := any); [apply count_disc_app | count_leaf |].
  intros _ _. eapply emits_bind with (V1 := any); [apply count_disc_app | |].
  { unfold TrainMorphology.critic_phase.
    apply emits_for_each; [reflexivity | apply count_disc_app |].
    intros _. morphology_parts. count_leaf. }
  intros _ _. eapply emits_bind with (V1 := any); [apply count_disc_app | |].
  { morphology_parts. count_leaf. }
  intros _ _. eapply emits_bind with (V1 := any); [apply count_disc_app | |].
  { morphology_parts. count_leaf. }
  intros _ _. morphology_parts. count_leaf.
Qed.

Lemma morphology_model_stacked :
  emits (count_stacked 0) (TrainMorphology.train_model K cfg) (scheduled_stacked cfg) any.
Proof.
  unfold TrainMorphology.train_model, scheduled_stacked.
  match goal with |- emits _ _ ?n _ => change n with (0 + (0 + n))%nat end.
  eapply emits_bind with (V1 := any); [apply count_stacked_app | |].
  { morphology_parts. count_leaf. }
  intros _ _. eapply emits_bind with (V1 := any); [apply count_stacked_app | |].
  { morphology_parts. count_leaf. }
  intros _ _. rewrite <- range_length.
  apply emits_for_each; [reflexivity | apply count_stacked_app |].
  intros e. unfold TrainMorphology.epoch.
  replace (Z.to_nat (n_batch_per_epoch cfg - 1))
    with (Z.to_nat (n_batch_per_epoch cfg - 1) * 1)%nat by lia.
  apply emits_while; [reflexivity | apply count_stacked_app |].
  intros c. apply morphology_outer_iteration_stacked.
Qed.

Lemma morphology_model_disc :
  emits (count_disc 0) (TrainMorphology.train_model K cfg) (scheduled_disc cfg) any.
Proof.
  unfold TrainMorphology.train_model, scheduled_disc.
  match goal with |- emits _ _ ?n _ => change n with (0 + (0 + n))%nat end.
  eapply emits_bind with (V1 := any); [apply count_disc_app | |].
  { morphology_parts. count_leaf. }
  intros _ _. eapply emits_bind with (V1 := any); [apply count_disc_app | |].
  { morphology_parts. count_leaf. }
  intros _ _. rewrite <- range_length.
  apply emits_for_each; [reflexivity | apply count_disc_app |].
  intros e. unfold TrainMorphology.epoch.
  apply emits_while; [reflexivity | apply count_disc_app |].
  intros c. apply morphology_outer_iteration_disc.
Qed.

Lemma morphology_model_tags :
  triple top (TrainMorphology.train_model K cfg) at_level_zero (fun _ => top) anye.
Proof.
  apply morphology_model_triple.
  - morphology_parts. tag_leaf.
  - morphology_parts. tag_leaf.
  - intros e bc _ _.
    apply morphology_outer_iteration_triple with (J1 := top) (J2 := top) (J3 := top).
    + intros; exact I.
    + apply triple_for_each. intros _ _. morphology_parts. tag_leaf.
    + morphology_parts. tag_leaf.
    + morphology_parts. tag_leaf.
    + morphology_parts. tag_leaf.
Qed.

End MorphologyCounts.

(** X20.  The morphology script trains one level.  Whatever [n_levels]
    is, every model [train_model] of [train_one_by_one_morphology.py]
    compiles or updates, and every plot it makes, is of level 0; a run
    that ends normally has made [n_epochs] times
    [n_batch_per_epoch - 1] stacked updates and [d_iters] times as many
    critic updates of that level. *)
Theorem X20_morphology_script_trains_level_zero_only
        (World : Type) (K : TrainMorphology.Collab World) (cfg : config) (w : World) :
  Forall at_level_zero (trace_of (TrainMorphology.run K cfg w))
  /\ (ends_normally (TrainMorphology.run K cfg w) ->
      count_stacked 0 (trace_of (TrainMorphology.run K cfg w)) = scheduled_stacked cfg
      /\ count_disc 0 (trace_of (TrainMorphology.run K cfg w)) = scheduled_disc cfg).
Proof.
  unfold TrainMorphology.run. split.
  - eapply triple_trace with (P := fun _ => True).
    + apply morphology_model_tags.
    + exact I.
  - pose proof (morphology_model_stacked K cfg (initial_state w)) as Hst.
    pose proof (morphology_model_disc K cfg (initial_state w)) as Hdi.
    destruct (TrainMorphology.train_model K cfg (initial_state w)); cbn;
      [intros _; tauto | intros []].
Qed.

Lemma X20_morphology_level_witness :
  Forall at_level_zero
         (trace_of (TrainMorphology.run (MorphologySample.collab true)
                                        (MorphologySample.three_levels 2 2 3 3 false) tt))
  /\ count_stacked 0
       (trace_of (TrainMorphology.run (MorphologySample.collab true)
                                      (MorphologySample.three_levels 2 2 3 3 false) tt))
     = scheduled_stacked (MorphologySample.three_levels 2 2 3 3 false)
  /\ count_disc 0
       (trace_of (TrainMorphology.run (MorphologySample.collab true)
                                      (MorphologySample.three_levels 2 2 3 3 false) tt))
     = scheduled_disc (MorphologySample.three_levels 2 2 3 3 false).
Proof.
  destruct (@X20_morphology_script_trains_level_zero_only
              unit (MorphologySample.collab true)
              (MorphologySample.three_levels 2 2 3 3 false) tt) as [Hlevel Hcount].
  split; [exact Hlevel |]. apply Hcount. vm_compute. exact I.
Defined.

(** *** No alternation *)

Section MorphologyFlags.

Variable World : Type.
Variable K : TrainMorphology.Collab World.
Variable cfg : config.

Let phi := morphology_flags.
Let Inv := @all_levels_trainable World.
Let any := fun (_ : exn) (_ : state World) => True.

Ltac seen_flags HI :=
  unfold phi, morphology_flags, plain_flags, compiled_under_flags; cbv beta iota;
  split; try exact I;
  flag_facts HI 0%Z; unfold frozen_generators; flag_cbn;
  first [ let r := fresh "r" in intros r; destruct r; flag_cbn; solve [auto]
        | split; [reflexivity |]; cbn [filter]; flag_cbn;
          repeat match goal with H : trainable _ = true |- _ => rewrite H; clear H end;
          reflexivity ].

Ltac flags_leaf HI :=
  morphology_parts; unfold Morphology_clip.clip_weights;
  run_exec; (split; [each_event ltac:(seen_flags HI) |]);
  try exact I; try keep_flags HI.

Lemma morphology_model_flags :
  triple Inv (TrainMorphology.train_model K cfg) phi (fun _ => Inv) any.
Proof.
  apply morphology_model_triple.
  - intros s HI. flags_leaf HI.
  - intros s HI. flags_leaf HI.
  - intros e bc _ _.
    apply morphology_outer_iteration_triple with (J1 := Inv) (J2 := Inv) (J3 := Inv).
    + intros s HI. exact HI.
    + apply triple_for_each. intros _ _. intros s HI. flags_leaf HI.
    + intros s HI. flags_leaf HI; exact HI.
    + intros s HI. flags_leaf HI.
    + intros s HI. flags_leaf HI.
Qed.

End MorphologyFlags.

(** X21.  The morphology script has no alternation.  Whatever
    [train_one_by_one] and [rule] are, in every run of [train_model]
    of [train_one_by_one_morphology.py] a critic update sees every
    [trainable] flag on, a stacked update sees the discriminator's off
    and every generator's on, the stacked model is compiled with the
    discriminator's flag off and the other models with every flag on;
    a run that ends normally leaves every flag on. *)
Theorem X21_morphology_script_freezes_only_the_discriminator
        (World : Type) (K : TrainMorphology.Collab World) (cfg : config) (w : World) :
  Forall morphology_flags (trace_of (TrainMorphology.run K cfg w))
  /\ (ends_normally (TrainMorphology.run K cfg w) ->
      all_levels_trainable (final_state (TrainMorphology.run K cfg w))).
Proof.
  unfold TrainMorphology.run.
  pose proof (@morphology_model_flags World K cfg) as H.
  specialize (H (initial_state w) (initial_all_trainable w)).
  destruct (TrainMorphology.train_model K cfg (initial_state w)); cbn in *.
  - split; [tauto | intros _; tauto].
  - split; [tauto | intros []].
Qed.

Lemma X21_morphology_flags_witness :
  Forall morphology_flags
         (trace_of (TrainMorphology.run (MorphologySample.collab true)
                                        (MorphologySample.three_levels 2 2 3 3 false) tt))
  /\ all_levels_trainable
       (final_state (TrainMorphology.run (MorphologySample.collab true)
                                         (MorphologySample.three_levels 2 2 3 3 false)
                                         tt)).
Proof.
  destruct (@X21_morphology_script_freezes_only_the_discriminator
              unit (MorphologySample.collab true)
              (MorphologySample.three_levels 2 2 3 3 false) tt) as [Hflags Hend].
  split; [exact Hflags |]. apply Hend. vm_compute. exact I.
Defined.

(** *** The critic batch *)

Section MorphologyBatches.

Variable World : Type.
Variable K : TrainMorphology.Collab World.
Variable cfg : config.

Hypothesis bounds_ordered : (fst (weight_constraint cfg) <= snd (weight_constraint cfg))%Q.

Let phi := morphology_critic_update K cfg.
Let top := fun _ : state World => True.
Let any := fun (_ : exn) (_ : state World) => True.

Lemma morphology_critic_iteration_batches e bc :
  triple top (TrainMorphology.critic_iteration K cfg e bc) phi (fun _ => top) any.
Proof.
  morphology_parts. intros s _.
  run_exec; (split; [| exact I]); try solve [repeat constructor].
  constructor; [| constructor].
  repeat match goal with
         | H : Np.concatenate _ _ = Some _ |- _ => apply concatenate_some in H; subst
         end.
  split.
  - cbn. split; [reflexivity |].
    match goal with
    | Hn : py_index _ _ = Some ?n,
      Hget : TrainMorphology.get_batch _ _ _ _ _ _ = Some (?real, _),
      Hgen : TrainMorphology.gen_batch _ _ _ _ _ _ _ _ = Some (?gen, _) |- _ =>
        exists real, gen; split;
        [ eexists n, _, _, _, _; repeat split;
          [exact Hn | exact Hget | exact Hgen | cbv beta; now rewrite ?Z.eqb_refl]
        | split; [reflexivity |] ]
    end.
    rewrite !scaled_ones. reflexivity.
  - cbn. flag_cbn. destruct (weight_constraint cfg) as [lo hi].
    apply morphology_clip_dense_in_bounds. exact bounds_ordered.
Qed.

Ltac other_leaf :=
  let s := fresh "s" in
  morphology_parts; intros s _; run_exec; (split; [| exact I]);
  each_event ltac:(split; exact I).

Lemma morphology_model_batches :
  triple top (TrainMorphology.train_model K cfg) phi (fun _ => top) any.
Proof.
  apply morphology_model_triple.
  - other_leaf.
  - other_leaf.
  - intros e bc _ _.
    apply morphology_outer_iteration_triple with (J1 := top) (J2 := top) (J3 := top).
    + intros; exact I.
    + apply triple_for_each. intros _ _. apply morphology_critic_iteration_batches.
    + other_leaf.
    + other_leaf.
    + other_leaf.
Qed.

End MorphologyBatches.

(** X22.  The critic updates of the morphology script.  In every run
    of [train_model] of [train_one_by_one_morphology.py], each critic
    update is given one array: the real batch, which [get_batch]
    returned for the batch counter, followed by the generated batch,
    which [gen_batch] returned next; the labels are -1 on the real
    rows and +1 on the generated ones whatever the loss setting is;
    and, with clip bounds [low <= high], it is called on a
    discriminator whose layers named '...dense...' have all their
    weights within the bounds (the other layers are not clipped). *)
Theorem X22_morphology_critic_updates
        (World : Type) (K : TrainMorphology.Collab World) (cfg : config) (w : World) :
  (fst (weight_constraint cfg) <= snd (weight_constraint cfg))%Q ->
  Forall (morphology_critic_update K cfg) (trace_of (TrainMorphology.run K cfg w)).
Proof.
  intros Hle. unfold TrainMorphology.run.
  eapply triple_trace with (P := fun _ => True).
  - now apply morphology_model_batches.
  - exact I.
Qed.

Lemma X22_morphology_critic_witness :
  Forall (morphology_critic_update (MorphologySample.collab true)
                                   (MorphologySample.three_levels 2 2 3 3 false))
         (trace_of (TrainMorphology.run (MorphologySample.collab true)
                                        (MorphologySample.three_levels 2 2 3 3 false) tt)).
Proof.
  apply (@X22_morphology_critic_updates
           unit (MorphologySample.collab true)
           (MorphologySample.three_levels 2 2 3 3 false) tt).
  vm_compute. discriminate.
Defined.

(** *** Runs that end normally *)

Section MorphologyCompletes.

Variable World : Type.
Variable K : TrainMorphology.Collab World.
Variable cfg : config.

Hypothesis K_reliable : morphology_reliable K.
Hypothesis K_nonempty : morphology_batches_nonempty K cfg.
Hypothesis K_agree : morphology_batches_agree K cfg.
Hypothesis some_nodes : n_nodes cfg <> [].
Hypothesis d_iters_positive : (1 <= d_iters cfg)%Z.

Let phi := fun _ : event => True.
Let top := fun _ : state World => True.
Let never := fun (_ : exn) (_ : state World) => False.

Let bound := fun s : state World =>
  exists y d p ps r rs,
    y_real s = Some y /\ disc_loss s = Some d
    /\ X_prufer_gen s = Some (p :: ps) /\ X_prufer_real s = Some (r :: rs).

Ltac absurd_raise :=
  exfalso;
  first [ eapply (mor_build_returns K_reliable); eassumption
        | eapply (mor_compile_returns K_reliable); eassumption
        | eapply (mor_get_batch_returns K_reliable); eassumption
        | eapply (mor_gen_batch_returns K_reliable); eassumption
        | eapply (mor_randn_returns K_reliable); eassumption
        | eapply (mor_d_update_returns K_reliable); eassumption
        | eapply (mor_stacked_update_returns K_reliable); eassumption
        | eapply (mor_invert_returns K_reliable); eassumption
        | eapply (mor_show_returns K_reliable); eassumption
        | eapply (mor_plot_returns K_reliable); eassumption
        | match goal with
          | H : py_index _ 0 = None |- _ =>
              revert H; apply py_index_in_range;
              destruct (n_nodes cfg); [congruence | cbn [List.length]; lia]
          | H : py_index _ _ = None |- _ =>
              revert H; apply py_index_last; exact some_nodes
          end
        | match goal with
          | Hn : py_index _ _ = Some _,
            Hget : TrainMorphology.get_batch _ _ _ _ _ _ = Some _,
            Hgen : TrainMorphology.gen_batch _ _ _ _ _ _ _ _ = Some _ |- _ =>
              pose proof (@K_agree _ _ _ _ _ _ _ _ _ Hn Hget Hgen)
          end; absurd_join
        | congruence ].

Ltac leaf := (split; [repeat constructor |]); try exact I; try absurd_raise.

Lemma morphology_critic_iteration_completes e bc :
  triple top (TrainMorphology.critic_iteration K cfg e bc) phi (fun _ => bound) never.
Proof.
  morphology_parts. intros s _. run_exec; leaf.
  unfold bound. run_cbn.
  destruct K_nonempty as [Hreal Hgen].
  match goal with H : TrainMorphology.gen_batch _ _ _ _ _ _ _ _ = Some _ |- _ =>
    pose proof (Hgen _ _ _ _ _ _ _ _ H) as Hpg end.
  match goal with H : TrainMorphology.get_batch _ _ _ _ _ _ = Some _ |- _ =>
    pose proof (Hreal _ _ _ _ _ _ H) as Hpr end.
  match goal with
  | |- context [Some ?A = Some (_ :: _) /\ Some ?B = Some (_ :: _)] =>
      destruct A; [congruence |]; destruct B; [congruence |]
  end.
  do 6 eexists. repeat split; reflexivity.
Qed.

Lemma morphology_model_completes :
  triple top (TrainMorphology.train_model K cfg) phi (fun _ => top) never.
Proof.
  apply morphology_model_triple.
  - morphology_parts. intros s _. run_exec; leaf.
  - morphology_parts. intros s _. run_exec; leaf.
  - intros e bc _ _.
    apply morphology_outer_iteration_triple with (J1 := top) (J2 := bound) (J3 := bound).
    + intros; exact I.
    + apply triple_for_each_nonempty.
      * now apply range_nonempty.
      * intros _. apply morphology_critic_iteration_completes.
      * intros; exact I.
    + morphology_parts. intros s [y [d [p [ps [r [rs [Hy [Hd [Hp Hr]]]]]]]]].
      run_exec_known; leaf; do 6 eexists; repeat split; eassumption.
    + morphology_parts. intros s [y [d [p [ps [r [rs [Hy [Hd [Hp Hr]]]]]]]]].
      run_exec_known; leaf.
      all: unfold bound; run_cbn; do 6 eexists; repeat split; eassumption.
    + morphology_parts. intros s [y [d [p [ps [r [rs [Hy [Hd [Hp Hr]]]]]]]]].
      run_exec_known; leaf.
Qed.

End MorphologyCompletes.

(** X23.  [train_model] of the morphology script ends normally.  If no
    collaborator call raises, the batches it is given are not empty,
    the real and the generated batches agree in shape, [n_nodes] is
    not empty and [d_iters] is at least 1, then [train_model] of
    [train_one_by_one_morphology.py] ends normally, whatever
    [n_levels] is (0 included: the level trained is fixed) and however
    long [n_nodes] is. *)
Theorem X23_morphology_train_model_ends_normally
        (World : Type) (K : TrainMorphology.Collab World) (cfg : config) (w : World) :
  morphology_reliable K ->
  morphology_batches_nonempty K cfg ->
  morphology_batches_agree K cfg ->
  n_nodes cfg <> [] ->
  (1 <= d_iters cfg)%Z ->
  ends_normally (TrainMorphology.run K cfg w).
Proof.
  intros HK Hne Hagree Hnodes Hd. unfold TrainMorphology.run.
  pose proof (morphology_model_completes HK Hne Hagree Hnodes Hd) as H.
  specialize (H (initial_state w) I).
  destruct (TrainMorphology.train_model K cfg (initial_state w)); cbn; tauto.
Qed.

Lemma sample_morphology_collab_reliable :
  morphology_reliable (MorphologySample.collab true).
Proof. constructor; intros; cbn; discriminate. Qed.

Lemma sample_morphology_batches_nonempty :
  morphology_batches_nonempty (MorphologySample.collab true)
                              (MorphologySample.three_levels 2 1 26 1 true).
Proof.
  split.
  - intros td bc n w X w' H. cbn in H. injection H as <- _. discriminate.
  - intros ns l d st r w X w' H. cbn in H. injection H as <- _. discriminate.
Qed.

(** The sample batches are copies of one 2-by-2 sample. *)
Lemma sample_morphology_batches_agree (cfg : config) :
  (0 < batch_size cfg)%Z ->
  morphology_batches_agree (MorphologySample.collab true) cfg.
Proof.
  intros Hbs n bc w X w' st w1 X' w1' _ Hget Hgen.
  cbn in Hget, Hgen. inversion Hget; inversion Hgen; subst.
  apply agree_repeat with (r := 2%nat) (c := 2%nat); reflexivity || lia.
Qed.

Lemma X23_morphology_train_model_witness :
  ends_normally (TrainMorphology.run (MorphologySample.collab true)
                                     (MorphologySample.three_levels 2 1 26 1 true) tt).
Proof.
  apply (@X23_morphology_train_model_ends_normally
           unit (MorphologySample.collab true)
           (MorphologySample.three_levels 2 1 26 1 true) tt).
  - exact sample_morphology_collab_reliable.
  - exact sample_morphology_batches_nonempty.
  - apply sample_morphology_batches_agree. reflexivity.
  - discriminate.
  - cbn. lia.
Defined.

(** ** The figures of [plot_adjacency] *)

Lemma py_index_middle {A} (pre : list A) (x : A) (rest : list A) :
  py_index (pre ++ x :: rest) (Z.of_nat (List.length pre)) = Some x.
Proof.
  unfold py_index.
  destruct (Z.of_nat (List.length pre) <? 0)%Z eqn:Hneg;
    [apply Z.ltb_lt in Hneg; lia |].
  destruct (0 <=? Z.of_nat (List.length pre))%Z eqn:H0;
    [| apply Z.leb_gt in H0; lia].
  destruct (Z.of_nat (List.length pre) <? Z.of_nat (List.length (pre ++ x :: rest)))%Z
           eqn:H1;
    [| apply Z.ltb_ge in H1; rewrite length_app in H1; cbn [List.length] in H1; lia].
  cbn [andb]. rewrite Nat2Z.id, nth_error_app2, Nat.sub_diag by lia. reflexivity.
Qed.

Section PlotAdjacency.

Variable World : Type.
Variable plt : plt_call -> World -> option World.

Hypothesis plt_returns : forall c w, plt c w <> None.

Lemma and_then_raised (a b : plotter World) (w : World) (e : exn) :
  raised (a w) = Some e -> and_then a b w = a w.
Proof. intros H. unfold and_then. cbv zeta. now rewrite H. Qed.

Lemma and_then_returned (a b : plotter World) (w : World) :
  raised (a w) = None ->
  calls (and_then a b w) = calls (a w) ++ calls (b (after (a w)))
  /\ raised (and_then a b w) = raised (b (after (a w))).
Proof. intros H. unfold and_then. cbv zeta. rewrite H. split; reflexivity. Qed.

(** A call that returns, and then the rest. *)
Lemma and_then_call (c : plt_call) (b : plotter World) (w : World) :
  exists w',
    calls (and_then (do_call plt c) b w) = c :: calls (b w')
    /\ raised (and_then (do_call plt c) b w) = raised (b w').
Proof.
  unfold and_then, do_call.
  destruct (plt c w) as [w' |] eqn:Hc; [| exfalso; eapply plt_returns; eassumption].
  cbn. exists w'. auto.
Qed.

Lemma imshow_then (X : array) (i : Z) (img : sample) (b : plotter World) (w : World) :
  py_index X i = Some img ->
  exists w',
    calls (and_then (imshow_at plt X i) b w) = PltImshow img :: calls (b w')
    /\ raised (and_then (imshow_at plt X i) b w) = raised (b w').
Proof.
  intros Hi. unfold imshow_at. rewrite Hi. apply and_then_call.
Qed.

(** One pass of the loop of [plot_adjacency]. *)
Let figure_of (X_real X_gen : array) (sample : Z) : plotter World :=
  and_then (do_call plt (PltFigure 10 5))
 (and_then (do_call plt (PltSubplot 1 2 1))
 (and_then (imshow_at plt X_real sample)
 (and_then (do_call plt (PltSubplot 1 2 2))
           (imshow_at plt X_gen sample)))).

(** The passes from sample [length pre_r] on. *)
Lemma figures_from (rs : list sample) :
  forall (gs pre_r pre_g : list sample) (w : World),
    List.length pre_r = List.length pre_g ->
    let r := for_samples (map Z.of_nat (seq (List.length pre_r) (List.length rs)))
                         (figure_of (pre_r ++ rs) (pre_g ++ gs)) w in
    ((List.length rs <= List.length gs)%nat ->
     calls r = pair_figures rs gs /\ raised r = None)
    /\ ((List.length gs < List.length rs)%nat ->
        calls r = pair_figures rs gs
                  ++ [PltFigure 10 5; PltSubplot 1 2 1;
                      PltImshow (nth (List.length gs) rs []); PltSubplot 1 2 2]
        /\ raised r = Some IndexError).
Proof.
  induction rs as [| x rs IH]; intros gs pre_r pre_g w Hpre; cbn zeta.
  - cbn. split; [auto | lia].
  - cbn [List.length seq map for_samples].
    set (rest := for_samples _ _).
    assert (Hbody :
      match gs with
      | [] => calls (figure_of (pre_r ++ x :: rs) (pre_g ++ gs)
                               (Z.of_nat (List.length pre_r)) w)
              = [PltFigure 10 5; PltSubplot 1 2 1; PltImshow x; PltSubplot 1 2 2]
              /\ raised (figure_of (pre_r ++ x :: rs) (pre_g ++ gs)
                                   (Z.of_nat (List.length pre_r)) w)
                 = Some IndexError
      | g :: _ => calls (figure_of (pre_r ++ x :: rs) (pre_g ++ gs)
                                   (Z.of_nat (List.length pre_r)) w)
                  = pair_figure x g
                  /\ raised (figure_of (pre_r ++ x :: rs) (pre_g ++ gs)
                                       (Z.of_nat (List.length pre_r)) w)
                     = None
      end).
    { unfold figure_of.
      destruct (and_then_call (PltFigure 10 5)
                  (and_then (do_call plt (PltSubplot 1 2 1))
                  (and_then (imshow_at plt (pre_r ++ x :: rs)
                                       (Z.of_nat (List.length pre_r)))
                  (and_then (do_call plt (PltSubplot 1 2 2))
                            (imshow_at plt (pre_g ++ gs)
                                       (Z.of_nat (List.length pre_r)))))) w)
        as [w1 [-> ->]].
      destruct (and_then_call (PltSubplot 1 2 1)
                  (and_then (imshow_at plt (pre_r ++ x :: rs)
                                       (Z.of_nat (List.length pre_r)))
                  (and_then (do_call plt (PltSubplot 1 2 2))
                            (imshow_at plt (pre_g ++ gs)
                                       (Z.of_nat (List.length pre_r))))) w1)
        as [w2 [-> ->]].
      destruct (imshow_then (pre_r ++ x :: rs) (Z.of_nat (List.length pre_r))
                  (and_then (do_call plt (PltSubplot 1 2 2))
                            (imshow_at plt (pre_g ++ gs)
                                       (Z.of_nat (List.length pre_r)))) w2
                  (py_index_middle pre_r x rs))
        as [w3 [-> ->]].
      destruct (and_then_call (PltSubplot 1 2 2)
                  (imshow_at plt (pre_g ++ gs) (Z.of_nat (List.length pre_r))) w3)
        as [w4 [-> ->]].
      unfold imshow_at. rewrite Hpre.
      destruct gs as [| g gs].
      - rewrite app_nil_r, py_index_beyond by lia. cbn. split; reflexivity.
      - rewrite py_index_middle. unfold do_call.
        destruct (plt (PltImshow g) w4) as [w5 |] eqn:Hc;
          [| exfalso; eapply plt_returns; eassumption].
        cbn. split; reflexivity. }
    destruct gs as [| g gs].
    + destruct Hbody as [Hc Hr]. rewrite (and_then_raised _ rest _ Hr).
      split; [cbn; lia |].
      intros _. rewrite Hc, Hr. cbn. auto.
    + destruct Hbody as [Hc Hr].
      destruct (and_then_returned _ rest _ Hr) as [-> ->]. rewrite Hc.
      subst rest.
      set (w1 := after _).
      replace (pre_r ++ x :: rs) with ((pre_r ++ [x]) ++ rs)
        by now rewrite <- app_assoc.
      replace (pre_g ++ g :: gs) with ((pre_g ++ [g]) ++ gs)
        by now rewrite <- app_assoc.
      replace (S (List.length pre_r)) with (List.length (pre_r ++ [x]))
        by (rewrite length_app; cbn; lia).
      specialize (IH gs (pre_r ++ [x]) (pre_g ++ [g]) w1).
      cbn zeta in IH. destruct IH as [IHa IHb].
      { rewrite !length_app. cbn. lia. }
      cbn [List.length]. split; intros Hlen.
      * destruct IHa as [-> ->]; [lia |]. split; reflexivity.
      * destruct IHb as [-> ->]; [lia |]. split; reflexivity.
Qed.

End PlotAdjacency.

(** X19.  The figures of [plot_adjacency].  If no [pyplot] call raises:
    with at least as many generated samples as real ones,
    [plot_adjacency] makes one figure per real sample, the real sample
    in the left panel and the generated sample of the same number in
    the right one, and ends normally (generated samples beyond the
    real ones are not drawn); with fewer generated samples it raises an
    [IndexError] after one such figure per generated sample, a further
    figure holding only the next real sample.  It never calls
    [plt.show()]. *)
Theorem X19_plot_adjacency_draws_pairs
        (World : Type) (plt : plt_call -> World -> option World)
        (X_parent_real X_parent_gen : array) (w : World) :
  (forall c w', plt c w' <> None) ->
  ((List.length X_parent_real <= List.length X_parent_gen)%nat ->
   calls (plot_adjacency plt X_parent_real X_parent_gen w)
   = pair_figures X_parent_real X_parent_gen
   /\ raised (plot_adjacency plt X_parent_real X_parent_gen w) = None)
  /\ ((List.length X_parent_gen < List.length X_parent_real)%nat ->
      calls (plot_adjacency plt X_parent_real X_parent_gen w)
      = pair_figures X_parent_real X_parent_gen
        ++ [PltFigure 10 5; PltSubplot 1 2 1;
            PltImshow (nth (List.length X_parent_gen) X_parent_real []);
            PltSubplot 1 2 2]
      /\ raised (plot_adjacency plt X_parent_real X_parent_gen w) = Some IndexError)
  /\ ~ In PltShow (calls (plot_adjacency plt X_parent_real X_parent_gen w)).
Proof.
  intros Hplt.
  pose proof (@figures_from World plt Hplt X_parent_real X_parent_gen [] [] w eq_refl)
    as H.
  cbn zeta in H. cbn [List.length app] in H.
  unfold plot_adjacency, Np.range. rewrite Nat2Z.id.
  destruct H as [Ha Hb]. split; [exact Ha | split; [exact Hb |]].
  assert (Hpairs : ~ In PltShow (pair_figures X_parent_real X_parent_gen)).
  { unfold pair_figures. rewrite in_flat_map. intros [rg [_ Hin]].
    cbn in Hin. intuition discriminate. }
  destruct (Nat.le_gt_cases (List.length X_parent_real) (List.length X_parent_gen))
    as [Hle | Hgt].
  - destruct (Ha Hle) as [-> _]. exact Hpairs.
  - destruct (Hb Hgt) as [-> _]. rewrite in_app_iff. intros [Hin | Hin].
    + now apply Hpairs.
    + cbn in Hin. intuition discriminate.
Qed.

Lemma X19_plot_adjacency_witness :
  ((2 <= 1)%nat ->
   calls (plot_adjacency (fun _ w => Some w)
                         [MorphologySample.row; Sample.point] [Sample.point] tt)
   = pair_figures [MorphologySample.row; Sample.point] [Sample.point]
   /\ raised (plot_adjacency (fun _ w => Some w)
                             [MorphologySample.row; Sample.point] [Sample.point] tt)
      = None)
  /\ ((1 < 2)%nat ->
      calls (plot_adjacency (fun _ w => Some w)
                            [MorphologySample.row; Sample.point] [Sample.point] tt)
      = pair_figures [MorphologySample.row; Sample.point] [Sample.point]
        ++ [PltFigure 10 5; PltSubplot 1 2 1;
            PltImshow (nth 1 [MorphologySample.row; Sample.point] []);
            PltSubplot 1 2 2]
      /\ raised (plot_adjacency (fun _ w => Some w)
                                [MorphologySample.row; Sample.point] [Sample.point] tt)
         = Some IndexError)
  /\ ~ In PltShow
          (calls (plot_adjacency (fun _ w => Some w)
                                 [MorphologySample.row; Sample.point] [Sample.point] tt)).
Proof.
  apply (@X19_plot_adjacency_draws_pairs
           unit (fun _ w => Some w) [MorphologySample.row; Sample.point]
           [Sample.point] tt).
  intros c w'. discriminate.
Defined.

(** ** The sequence of the updates *)

Lemma updates_app (t1 t2 : list event) : updates (t1 ++ t2) = updates t1 ++ updates t2.
Proof. unfold updates. apply flat_map_app. Qed.

Lemma flat_map_constant {A B} (u : B) (xs : list A) :
  flat_map (fun _ => [u]) xs = repeat u (List.length xs).
Proof. induction xs as [| x xs IH]; [reflexivity |]. cbn. now rewrite IH. Qed.

Lemma range2_step (a b : Z) :
  (a < b)%Z -> Np.range2 a b = a :: Np.range2 (a + 1) b.
Proof.
  intros Hab. replace b with (a + Z.of_nat (S (Z.to_nat (b - a - 1))))%Z at 1 by lia.
  rewrite range2_cons. f_equal. f_equal. lia.
Qed.

Lemma range2_empty (a b : Z) : (b <= a)%Z -> Np.range2 a b = [].
Proof.
  intros Hab. unfold Np.range2. now replace (Z.to_nat (b - a)) with 0%nat by lia.
Qed.

Section Yields.

Variable World : Type.

Lemma yields_ret {A} (a : A) (V : A -> Prop) : V a -> yields (@ret World A a) [] V.
Proof. intros Ha s. cbn. auto. Qed.

Lemma yields_bind {A B} (m : M World A) (k : A -> M World B) us1 us2
      (V1 : A -> Prop) (V : B -> Prop) :
  yields m us1 V1 ->
  (forall a, V1 a -> yields (k a) us2 V) ->
  yields (bind m k) (us1 ++ us2) V.
Proof.
  intros Hm Hk s. unfold bind. specialize (Hm s).
  destruct (m s) as [t a s' | t e s']; [| exact I].
  destruct Hm as [Ht Ha]. specialize (Hk a Ha s').
  destruct (k a s') as [t' b s'' | t' e s'']; cbn; [| exact I].
  destruct Hk as [Ht' Hb]. rewrite updates_app, Ht, Ht'. auto.
Qed.

Lemma yields_for_each (xs : list Z) (body : Z -> M World unit) (f : Z -> list update) :
  (forall x, yields (body x) (f x) (fun _ => True)) ->
  yields (for_each xs body) (flat_map f xs) (fun _ => True).
Proof.
  intros Hbody. induction xs as [| x xs IH]; cbn [for_each flat_map].
  - now apply yields_ret.
  - eapply yields_bind; [apply Hbody | intros _ _; exact IH].
Qed.

Lemma yields_while (n : Z) (body : Z -> M World Z) (f : Z -> list update) :
  (forall c, yields (body c) (f c) (fun r => r = (c + 1)%Z)) ->
  forall (fuel : nat) (bc : Z),
    yields (while_batches fuel n body bc) (flat_map f (Np.range2 bc n)) (fun _ => True).
Proof.
  intros Hbody. induction fuel as [| fuel IH]; intros bc; cbn [while_batches].
  - intros s. exact I.
  - destruct (bc <? n)%Z eqn:Hlt.
    + apply Z.ltb_lt in Hlt. rewrite range2_step by exact Hlt. cbn [flat_map].
      eapply yields_bind; [apply Hbody |]. intros c ->. apply IH.
    + apply Z.ltb_ge in Hlt. rewrite range2_empty by exact Hlt.
      now apply yields_ret.
Qed.

End Yields.

(** A leaf of the program and the updates it makes. *)
Ltac yields_leaf :=
  let s := fresh "s" in
  intros s; run_exec; try exact I;
  (split; [reflexivity | first [exact I | reflexivity]]).

Section TrainSequence.

Variable World : Type.
Variable K : Train.Collab World.
Variable cfg : config.

Let any := fun _ : unit => True.

Lemma train_outer_iteration_yields l e bc :
  yields (Train.outer_iteration K cfg l e bc) (pass_updates cfg l e bc)
         (fun r => r = (bc + 1)%Z).
Proof.
  unfold Train.outer_iteration, pass_updates.
  change (repeat (CriticUpdate l e bc) (Z.to_nat (d_iters cfg)) ++ [StackedUpdate l e bc])
    with ([] ++ repeat (CriticUpdate l e bc) (Z.to_nat (d_iters cfg))
             ++ [] ++ [StackedUpdate l e bc] ++ []).
  eapply yields_bind with (V1 := any); [yields_leaf |].
  intros _ _. eapply yields_bind with (V1 := any).
  { unfold Train.critic_phase. rewrite <- range_length, <- flat_map_constant.
    apply yields_for_each. intros _. unfold Train.critic_iteration. yields_leaf. }
  intros _ _. eapply yields_bind with (V1 := any).
  { unfold Train.report_disc_loss. yields_leaf. }
  intros _ _. eapply yields_bind with (V1 := any).
  { unfold Train.generator_phase. yields_leaf. }
  intros _ _. unfold Train.housekeeping. yields_leaf.
Qed.

Lemma train_level_yields l :
  yields (Train.train_level K cfg l) (level_updates cfg l) any.
Proof.
  unfold Train.train_level, level_updates.
  match goal with |- yields _ ?us _ => change us with ([] ++ us) end.
  eapply yields_bind with (V1 := any).
  { unfold Train.compile_level, Train.do_compile. yields_leaf. }
  intros _ _. apply yields_for_each. intros e. unfold Train.epoch, epoch_updates.
  apply yields_while. intros c. apply train_outer_iteration_yields.
Qed.

Lemma train_model_yields :
  yields (Train.train_model K cfg) (run_updates cfg) any.
Proof.
  unfold Train.train_model, run_updates.
  match goal with |- yields _ ?us _ => change us with ([] ++ us) end.
  eapply yields_bind with (V1 := any).
  { replace (@nil update) with (flat_map (fun _ : Z => @nil update)
                                         (Np.range (n_levels cfg)))
      by (induction (Np.range (n_levels cfg)); auto).
    apply yields_for_each. intros l. unfold Train.setup_level. yields_leaf. }
  intros _ _. apply yields_for_each. intros l. apply train_level_yields.
Qed.

End TrainSequence.

Section OneByOneSequence.

Variable World : Type.
Variable K : TrainOneByOne.Collab World.
Variable cfg : config.

Let any := fun _ : unit => True.

Lemma one_by_one_outer_iteration_yields l e bc :
  yields (TrainOneByOne.outer_iteration K cfg l e bc) (pass_updates cfg l e bc)
         (fun r => r = (bc + 1)%Z).
Proof.
  unfold TrainOneByOne.outer_iteration, pass_updates.
  change (repeat (CriticUpdate l e bc) (Z.to_nat (d_iters cfg)) ++ [StackedUpdate l e bc])
    with ([] ++ repeat (CriticUpdate l e bc) (Z.to_nat (d_iters cfg))
             ++ [] ++ [StackedUpdate l e bc] ++ []).
  eapply yields_bind with (V1 := any); [yields_leaf |].
  intros _ _. eapply yields_bind with (V1 := any).
  { unfold TrainOneByOne.critic_phase. rewrite <- range_length, <- flat_map_constant.
    apply yields_for_each. intros _. unfold TrainOneByOne.critic_iteration.
    yields_leaf. }
  intros _ _. eapply yields_bind with (V1 := any).
  { unfold TrainOneByOne.report_disc_loss. yields_leaf. }
  intros _ _. eapply yields_bind with (V1 := any).
  { unfold TrainOneByOne.generator_phase, TrainOneByOne.alternation. yields_leaf. }
  intros _ _. unfold TrainOneByOne.housekeeping. yields_leaf.
Qed.

Lemma one_by_one_model_yields :
  yields (TrainOneByOne.train_model K cfg) (run_updates cfg) any.
Proof.
  unfold TrainOneByOne.train_model, run_updates.
  match goal with |- yields _ ?us _ => change us with ([] ++ us) end.
  eapply yields_bind with (V1 := any).
  { replace (@nil update) with (flat_map (fun _ : Z => @nil update)
                                         (Np.range (n_levels cfg)))
      by (induction (Np.range (n_levels cfg)); auto).
    apply yields_for_each. intros l. unfold TrainOneByOne.setup_level. yields_leaf. }
  intros _ _. apply yields_for_each. intros l.
  unfold TrainOneByOne.train_level, level_updates.
  match goal with |- yields _ ?us _ => change us with ([] ++ us) end.
  eapply yields_bind with (V1 := any).
  { unfold TrainOneByOne.compile_level, TrainOneByOne.do_compile. yields_leaf. }
  intros _ _. apply yields_for_each. intros e.
  unfold TrainOneByOne.epoch, epoch_updates.
  apply yields_while. intros c. apply one_by_one_outer_iteration_yields.
Qed.

End OneByOneSequence.

Section MorphologySequence.

Variable World : Type.
Variable K : TrainMorphology.Collab World.
Variable cfg : config.

Let any := fun _ : unit => True.

Lemma morphology_outer_iteration_yields e bc :
  yields (TrainMorphology.outer_iteration K cfg e bc) (pass_updates cfg 0 e bc)
         (fun r => r = (bc + 1)%Z).
Proof.
  unfold TrainMorphology.outer_iteration, pass_updates.
  change (repeat (CriticUpdate 0 e bc) (Z.to_nat (d_iters cfg)) ++ [StackedUpdate 0 e bc])
    with ([] ++ repeat (CriticUpdate 0 e bc) (Z.to_nat (d_iters cfg))
             ++ [] ++ [StackedUpdate 0 e bc] ++ []).
  eapply yields_bind with (V1 := any); [yields_leaf |].
  intros _ _. eapply yields_bind with (V1 := any).
  { unfold TrainMorphology.critic_phase. rewrite <- range_length, <- flat_map_constant.
    apply yields_for_each. intros _. morphology_parts. yields_leaf. }
  intros _ _. eapply yields_bind with (V1 := any).
  { morphology_parts. yields_leaf. }
  intros _ _. eapply yields_bind with (V1 := any).
  { morphology_parts. yields_leaf. }
  intros _ _. morphology_parts. yields_leaf.
Qed.

Lemma morphology_model_yields :
  yields (TrainMorphology.train_model K cfg) (level_updates cfg 0) any.
Proof.
  unfold TrainMorphology.train_model, level_updates.
  match goal with |- yields _ ?us _ => change us with ([] ++ [] ++ us) end.
  eapply yields_bind with (V1 := any).
  { morphology_parts. yields_leaf. }
  intros _ _. eapply yields_bind with (V1 := any).
  { morphology_parts. yields_leaf. }
  intros _ _. apply yields_for_each. intros e.
  unfold TrainMorphology.epoch, epoch_updates.
  apply yields_while. intros c. apply morphology_outer_iteration_yields.
Qed.

End MorphologySequence.

(** X24.  The sequence of the updates.  A run of [train_model] that
    ends normally has made exactly these updates, in this order: for
    each level from 0 to [n_levels - 1], for each epoch from 0 to
    [n_epochs - 1], for each batch counter from 1 to
    [n_batch_per_epoch - 1], [d_iters] critic updates and then one
    stacked update, all at that level, epoch and batch counter.  This
    holds of [train.py] and of [train_one_by_one.py];
    [train_one_by_one_morphology.py] makes the updates of level 0
    only. *)
Theorem X24_updates_follow_the_nested_loops
        (World : Type) (K : Train.Collab World) (K' : TrainOneByOne.Collab World)
        (K'' : TrainMorphology.Collab World) (cfg : config) (w : World) :
  (ends_normally (Train.run K cfg w) ->
   updates (trace_of (Train.run K cfg w)) = run_updates cfg)
  /\ (ends_normally (TrainOneByOne.run K' cfg w) ->
      updates (trace_of (TrainOneByOne.run K' cfg w)) = run_updates cfg)
  /\ (ends_normally (TrainMorphology.run K'' cfg w) ->
      updates (trace_of (TrainMorphology.run K'' cfg w)) = level_updates cfg 0).
Proof.
  split; [| split].
  - unfold Train.run. pose proof (train_model_yields K cfg (initial_state w)) as H.
    destruct (Train.train_model K cfg (initial_state w)); cbn;
      [intros _; tauto | intros []].
  - unfold TrainOneByOne.run.
    pose proof (one_by_one_model_yields K' cfg (initial_state w)) as H.
    destruct (TrainOneByOne.train_model K' cfg (initial_state w)); cbn;
      [intros _; tauto | intros []].
  - unfold TrainMorphology.run.
    pose proof (morphology_model_yields K'' cfg (initial_state w)) as H.
    destruct (TrainMorphology.train_model K'' cfg (initial_state w)); cbn;
      [intros _; tauto | intros []].
Qed.

Lemma X24_updates_witness :
  updates (trace_of (Train.run (Sample.train_collab true) (Sample.two_levels 2 2 3 3) tt))
  = run_updates (Sample.two_levels 2 2 3 3)
  /\ updates (trace_of (TrainOneByOne.run (Sample.one_by_one_collab true)
                                          (Sample.two_levels 2 2 3 3) tt))
     = run_updates (Sample.two_levels 2 2 3 3)
  /\ updates (trace_of (TrainMorphology.run (MorphologySample.collab true)
                                            (Sample.two_levels 2 2 3 3) tt))
     = level_updates (Sample.two_levels 2 2 3 3) 0.
Proof.
  destruct (@X24_updates_follow_the_nested_loops
              unit (Sample.train_collab true) (Sample.one_by_one_collab true)
              (MorphologySample.collab true) (Sample.two_levels 2 2 3 3) tt)
    as [H1 [H2 H3]].
  split; [apply H1; vm_compute; exact I |].
  split; [apply H2; vm_compute; exact I | apply H3; vm_compute; exact I].
Defined.

(** ** Without a critic iteration, in the other two scripts *)

Section OneByOneWithoutCritic.

Variable World : Type.
Variable K : TrainOneByOne.Collab World.
Variable cfg : config.

Hypothesis no_critic : (d_iters cfg <= 0)%Z.
Hypothesis some_batches : (1 < n_batch_per_epoch cfg)%Z.
Hypothesis some_levels : (1 <= n_levels cfg)%Z.
Hypothesis some_epochs : (1 <= n_epochs cfg)%Z.
Hypothesis nodes : enough_nodes cfg.
Hypothesis build_returns :
  forall l u i n d r tl bs w, TrainOneByOne.build K l u i n d r tl bs w <> None.
Hypothesis compile_returns :
  forall l c f r ms w, TrainOneByOne.compile K l c f r ms w <> None.
Hypothesis randn_returns : forall a b c w, TrainOneByOne.randn K a b c w <> None.

Let phi := fun ev : event => is_update ev = false.

Let Inv := fun s : state World =>
  all_levels_trainable s /\ y_real s = None /\ disc_loss s = None.

Let Efail := fun (e : exn) (s : state World) =>
  (verbose cfg = true ->
   e = UnboundLocalError "disc_loss" /\ trainable (d_model (store s 0%Z)) = true)
  /\ (verbose cfg = false ->
      e = UnboundLocalError "y_real" /\ trainable (d_model (store s 0%Z)) = false).

Let never := fun (_ : unit) (_ : state World) => False.

Ltac absurd_failure :=
  exfalso;
  first [ eapply build_returns; eassumption
        | eapply compile_returns; eassumption
        | eapply randn_returns; eassumption
        | match goal with
          | H : py_index _ _ = None |- _ =>
              revert H; apply py_index_in_range; unfold enough_nodes in nodes; lia
          end
        | congruence ].

Lemma one_by_one_setup_binds_nothing l :
  In l (Np.range (n_levels cfg)) ->
  triple Inv (TrainOneByOne.setup_level K cfg l) phi (fun _ => Inv) Efail.
Proof.
  intros Hl. apply in_range in Hl.
  unfold TrainOneByOne.setup_level. intros s [HI [Hy Hd]].
  run_exec; (split; [repeat constructor |]); try absurd_failure;
    try (split; [keep_flags HI | split; assumption]).
  exfalso. destruct (Z.eq_dec l 0) as [-> | Hne].
  - match goal with H : py_index _ _ = None |- _ =>
      revert H; apply py_index_last end.
    intros E. unfold enough_nodes in nodes. rewrite E in nodes. cbn in nodes. lia.
  - match goal with H : py_index _ _ = None |- _ =>
      revert H; apply py_index_in_range end.
    unfold enough_nodes in nodes. lia.
Qed.

Lemma one_by_one_compile_binds_nothing l :
  triple Inv (TrainOneByOne.compile_level K cfg l) phi (fun _ => Inv) Efail.
Proof.
  unfold TrainOneByOne.compile_level, TrainOneByOne.do_compile. intros s [HI [Hy Hd]].
  run_exec; (split; [repeat constructor |]); try absurd_failure;
    (split; [keep_flags HI | split; assumption]).
Qed.

Lemma one_by_one_first_iteration_fails e :
  triple Inv (TrainOneByOne.outer_iteration K cfg 0 e 1) phi (fun _ _ => False) Efail.
Proof.
  unfold TrainOneByOne.outer_iteration, TrainOneByOne.critic_phase, Np.range.
  replace (Z.to_nat (d_iters cfg)) with 0%nat by lia. cbn [seq map for_each].
  unfold TrainOneByOne.report_disc_loss, TrainOneByOne.generator_phase,
    TrainOneByOne.alternation.
  change (0 >? 0)%Z with false. change (0 =? 0)%Z with true.
  intros s [HI [Hy Hd]]. run_exec; try solve [exfalso; congruence];
    (split; [repeat constructor |]);
    try absurd_failure; unfold Efail; run_cbn; flag_facts HI 0%Z; flag_cbn;
    (split; intros Hv; [split |]); congruence || (split; congruence) || auto.
Qed.

Lemma one_by_one_without_critic_fails w :
  unbound_before_first_update cfg (TrainOneByOne.run K cfg w).
Proof.
  assert (H : triple Inv (TrainOneByOne.train_model K cfg) phi never Efail).
  { unfold TrainOneByOne.train_model.
    eapply triple_bind;
      [apply triple_for_each; intros; now apply one_by_one_setup_binds_nothing |].
    intros []. destruct (range_starts_at_zero some_levels) as [ls ->].
    cbn [for_each]. eapply triple_bind with (Q1 := never); [| intros _ s []].
    unfold TrainOneByOne.train_level.
    eapply triple_bind; [apply one_by_one_compile_binds_nothing |].
    intros []. destruct (range_starts_at_zero some_epochs) as [es ->].
    cbn [for_each]. eapply triple_bind with (Q1 := never); [| intros _ s []].
    unfold TrainOneByOne.epoch. cbn [while_batches].
    destruct (1 <? n_batch_per_epoch cfg)%Z eqn:Hlt; [| apply Z.ltb_ge in Hlt; lia].
    eapply triple_bind with (Q1 := fun _ _ => False); [| intros _ s []].
    apply one_by_one_first_iteration_fails. }
  unfold TrainOneByOne.run, unbound_before_first_update.
  specialize (H (initial_state w)).
  destruct (TrainOneByOne.train_model K cfg (initial_state w)).
  - apply H. split; [apply initial_all_trainable | split; reflexivity].
  - destruct H as [Ht He].
    + split; [apply initial_all_trainable | split; reflexivity].
    + split; [exact Ht | exact He].
Qed.

End OneByOneWithoutCritic.

Section MorphologyWithoutCritic.

Variable World : Type.
Variable K : TrainMorphology.Collab World.
Variable cfg : config.

Hypothesis no_critic : (d_iters cfg <= 0)%Z.
Hypothesis some_batches : (1 < n_batch_per_epoch cfg)%Z.
Hypothesis some_epochs : (1 <= n_epochs cfg)%Z.
Hypothesis some_nodes : n_nodes cfg <> [].
Hypothesis build_returns :
  forall i n d r tl bs w, TrainMorphology.build K i n d r tl bs w <> None.
Hypothesis compile_returns :
  forall c f ms w, TrainMorphology.compile K c f ms w <> None.
Hypothesis randn_returns : forall a b c w, TrainMorphology.randn K a b c w <> None.

Let phi := fun ev : event => is_update ev = false.

Let Inv := fun s : state World =>
  all_levels_trainable s /\ y_real s = None /\ disc_loss s = None.

Let Efail := fun (e : exn) (s : state World) =>
  (verbose cfg = true ->
   e = UnboundLocalError "disc_loss" /\ trainable (d_model (store s 0%Z)) = true)
  /\ (verbose cfg = false ->
      e = UnboundLocalError "y_real" /\ trainable (d_model (store s 0%Z)) = false).

Let never := fun (_ : unit) (_ : state World) => False.

Ltac absurd_failure :=
  exfalso;
  first [ eapply build_returns; eassumption
        | eapply compile_returns; eassumption
        | eapply randn_returns; eassumption
        | match goal with
          | H : py_index _ 0 = None |- _ =>
              revert H; apply py_index_in_range;
              destruct (n_nodes cfg); [congruence | cbn [List.length]; lia]
          | H : py_index _ _ = None |- _ =>
              revert H; apply py_index_last; exact some_nodes
          end
        | congruence ].

Lemma morphology_setup_binds_nothing :
  triple Inv (TrainMorphology.setup K cfg) phi (fun _ => Inv) Efail.
Proof.
  morphology_parts. intros s [HI [Hy Hd]].
  run_exec; (split; [repeat constructor |]); try absurd_failure;
    (split; [keep_flags HI | split; assumption]).
Qed.

Lemma morphology_compile_binds_nothing :
  triple Inv (TrainMorphology.compile_models K cfg) phi (fun _ => Inv) Efail.
Proof.
  morphology_parts. intros s [HI [Hy Hd]].
  run_exec; (split; [repeat constructor |]); try absurd_failure;
    (split; [keep_flags HI | split; assumption]).
Qed.

Lemma morphology_first_iteration_fails e :
  triple Inv (TrainMorphology.outer_iteration K cfg e 1) phi (fun _ _ => False) Efail.
Proof.
  unfold TrainMorphology.outer_iteration, TrainMorphology.critic_phase, Np.range.
  replace (Z.to_nat (d_iters cfg)) with 0%nat by lia. cbn [seq map for_each].
  morphology_parts.
  intros s [HI [Hy Hd]]. run_exec; (split; [repeat constructor |]);
    try absurd_failure; unfold Efail; run_cbn; flag_facts HI 0%Z; flag_cbn;
    (split; intros Hv; [split |]); congruence || (split; congruence) || auto.
Qed.

Lemma morphology_without_critic_fails w :
  unbound_before_first_update cfg (TrainMorphology.run K cfg w).
Proof.
  assert (H : triple Inv (TrainMorphology.train_model K cfg) phi never Efail).
  { unfold TrainMorphology.train_model.
    eapply triple_bind; [apply morphology_setup_binds_nothing |].
    intros []. eapply triple_bind; [apply morphology_compile_binds_nothing |].
    intros []. destruct (range_starts_at_zero some_epochs) as [es ->].
    cbn [for_each]. eapply triple_bind with (Q1 := never); [| intros _ s []].
    unfold TrainMorphology.epoch. cbn [while_batches].
    destruct (1 <? n_batch_per_epoch cfg)%Z eqn:Hlt; [| apply Z.ltb_ge in Hlt; lia].
    eapply triple_bind with (Q1 := fun _ _ => False); [| intros _ s []].
    apply morphology_first_iteration_fails. }
  unfold TrainMorphology.run, unbound_before_first_update.
  specialize (H (initial_state w)).
  destruct (TrainMorphology.train_model K cfg (initial_state w)).
  - apply H. split; [apply initial_all_trainable | split; reflexivity].
  - destruct H as [Ht He].
    + split; [apply initial_all_trainable | split; reflexivity].
    + split; [exact Ht | exact He].
Qed.

End MorphologyWithoutCritic.

(** X25.  Without a critic iteration, in the other two scripts.  As in
    [train.py], the locals [y_real] and [disc_loss] of
    [train_one_by_one.py] and of [train_one_by_one_morphology.py] are
    bound only inside the critic loop.  With [d_iters] at most 0,
    [n_batch_per_epoch] above 1, an epoch to run (and, for
    [train_one_by_one.py], a level to train and an entry of [n_nodes]
    per level; for the morphology script, a non-empty [n_nodes]), and
    the set-up, compile and noise calls returning, [train_model] ends
    by an unbound local in its first pass, before any update: with
    [verbose] on at the report that reads [disc_loss], the
    discriminator still trainable; with [verbose] off at the stacked
    update that reads [y_real], the discriminator left frozen. *)
Theorem X25_other_scripts_fail_without_a_critic_iteration
        (World : Type) (K : TrainOneByOne.Collab World)
        (K' : TrainMorphology.Collab World) (cfg : config) (w : World) :
  (d_iters cfg <= 0)%Z ->
  (1 < n_batch_per_epoch cfg)%Z ->
  (1 <= n_epochs cfg)%Z ->
  ((1 <= n_levels cfg)%Z ->
   enough_nodes cfg ->
   (forall l u i n d r tl bs w, TrainOneByOne.build K l u i n d r tl bs w <> None) ->
   (forall l c f r ms w, TrainOneByOne.compile K l c f r ms w <> None) ->
   (forall a b c w, TrainOneByOne.randn K a b c w <> None) ->
   unbound_before_first_update cfg (TrainOneByOne.run K cfg w))
  /\ (n_nodes cfg <> [] ->
      (forall i n d r tl bs w, TrainMorphology.build K' i n d r tl bs w <> None) ->
      (forall c f ms w, TrainMorphology.compile K' c f ms w <> None) ->
      (forall a b c w, TrainMorphology.randn K' a b c w <> None) ->
      unbound_before_first_update cfg (TrainMorphology.run K' cfg w)).
Proof.
  intros Hd Hbatches Hepochs. split.
  - intros. now apply one_by_one_without_critic_fails.
  - intros. now apply morphology_without_critic_fails.
Qed.

Lemma X25_no_critic_witness :
  unbound_before_first_update
    (Sample.one_level 4 1 2 0 "mgd" true "wasserstein_loss" false)
    (TrainOneByOne.run (Sample.one_by_one_collab true)
                       (Sample.one_level 4 1 2 0 "mgd" true "wasserstein_loss" false) tt)
  /\ unbound_before_first_update
       (Sample.one_level 4 1 2 0 "mgd" true "wasserstein_loss" false)
       (TrainMorphology.run (MorphologySample.collab true)
                            (Sample.one_level 4 1 2 0 "mgd" true "wasserstein_loss" false)
                            tt).
Proof.
  destruct (@X25_other_scripts_fail_without_a_critic_iteration
              unit (Sample.one_by_one_collab true) (MorphologySample.collab true)
              (Sample.one_level 4 1 2 0 "mgd" true "wasserstein_loss" false) tt)
    as [H1 H2]; try (cbn; lia).
  split.
  - apply H1; try (intros; discriminate); unfold enough_nodes; cbn; lia.
  - apply H2; intros; discriminate.
Defined.
